(** * rawcon: the fake-TCP transceiver of raw_other.go

    A shallow embedding of [raw_other.go] (package rawcon, the non-Linux
    pcap transceiver) and the properties of its send helpers, of the
    dial-side handshake, of the read paths and of the listener's
    connection tables.

    Conventions of the embedding.
    - Go's fixed-width integers are [Z] with the wrap-around written out
      ([u16], [u32]); [int] is [Z].
    - [[]byte] is [list byte].
    - A [*pktLayers] and a [*connInfo] are addresses into two stores of the
      [World]: the listener's [layer] field aliases the [layer] of the
      connection record it is serving, as in the source.
    - Methods are computations in a state monad [M] that also logs what an
      observer can see (frames injected, mutexes taken and released) and
      whose result can be a Go panic or a goroutine parked for ever.
    - What the source gets from outside (the frames captured by pcap, timer
      expiries, the outcome of every injection, the two random sources) is
      part of the state and consumed in order. *)

From Stdlib Require Import ZArith String Ascii List Lia Bool.
From Stdlib.Strings Require Import Byte.
From stdpp Require Import base option gmap strings list pretty.

Local Open Scope Z_scope.

(** ** Machine integers and byte slices *)

Abbreviation bytes := (list byte).

Definition u8 (x : Z) : Z := x mod 256.
Definition u16 (x : Z) : Z := x mod 65536.
Definition u32 (x : Z) : Z := x mod 4294967296.

(** [len(b)] as a Go [int]. *)
Definition len {A : Type} (l : list A) : Z := Z.of_nat (length l).

(** The builtin [copy(dst, src)]: the bytes of [dst] afterwards and the
    number of bytes copied. *)
Definition copy (dst src : bytes) : bytes * Z :=
  (take (length dst) src ++ drop (length src) dst,
   Z.min (len dst) (len src)).

#[global] Instance byte_eq_decision : EqDecision byte := byte_eq_dec.

(** [string(p) == s] for a byte slice [p] and a literal [s]. *)
Definition bytes_are (p : bytes) (s : string) : bool :=
  bool_decide (p = list_byte_of_string s).

Definition CRLFCRLF : bytes := [x0d; x0a; x0d; x0a]%byte.

(** ** Addresses *)

(** A [net.IP] holding an IPv4 address. *)
Record net_IP := mkIP { ip_a : Z; ip_b : Z; ip_c : Z; ip_d : Z }.

Definition IP_String (ip : net_IP) : string :=
  pretty (ip_a ip) +:+ "." +:+ pretty (ip_b ip) +:+ "." +:+
  pretty (ip_c ip) +:+ "." +:+ pretty (ip_d ip).

(** [net.UDPAddr], the only [net.Addr] the package builds. *)
Record UDPAddr := mkUDPAddr { IP : net_IP; Port : Z }.

(** The [String] method of [net.UDPAddr]: host, colon, port. *)
Definition Addr_String (a : UDPAddr) : string :=
  IP_String (IP a) +:+ ":" +:+ pretty (Port a).

(** ** Errors *)

Inductive error : Type :=
| errorString (s : string)     (* errors.New, fmt.Errorf *)
| timeoutErr (op : string)     (* &timeoutErr{op: ...} *)
| foreignErr (s : string).     (* an error of gopacket, pcap or net *)

(** Modelled from the spec: [timeoutErr] is declared outside this file;
    the spec makes the read timeout a temporary error carrying
    the text read from <peer>, so it is a [net.Error] whose [Temporary] is true.
    The errors of [errors.New] and [fmt.Errorf] are not [net.Error]s. *)
Definition isTemporaryNetError (e : error) : bool :=
  match e with
  | timeoutErr _ => true
  | _ => false
  end.

(** ** Packet layers (gopacket/layers) *)

Record Ethernet := mkEthernet {
  SrcMAC : bytes;
  DstMAC : bytes;
  EthernetType : Z
}.

Record IPv4 := mkIPv4 {
  SrcIP : net_IP;
  DstIP : net_IP;
  Protocol : Z;
  Version : Z;
  Id : Z;                       (* uint16 *)
  Flags : Z;
  TTL : Z;
  TOS : Z
}.

Definition IPProtocolTCP : Z := 6.
Definition IPv4DontFragment : Z := 2.

Record TCPOption := mkTCPOption {
  OptionType : Z;
  OptionLength : Z;
  OptionData : bytes
}.

Definition TCPOptionKindMSS : Z := 2.
Definition TCPOptionKindWindowScale : Z := 3.
Definition TCPOptionKindSACKPermitted : Z := 4.

(** [layers.TCP]: the nine flag bits of gopacket, of which the source only
    ever writes FIN, SYN, RST, PSH and ACK. *)
Record TCP := mkTCP {
  SrcPort : Z;
  DstPort : Z;
  Seq : Z;                      (* uint32 *)
  Ack : Z;                      (* uint32 *)
  FIN : bool; SYN : bool; RST : bool; PSH : bool; ACK : bool;
  URG : bool; ECE : bool; CWR : bool; NS : bool;
  Window : Z;
  Options : list TCPOption;
  Padding : bytes;
  Payload : bytes
}.

Definition set_Id (v : Z) (h : IPv4) : IPv4 :=
  mkIPv4 (SrcIP h) (DstIP h) (Protocol h) (Version h) v (Flags h) (TTL h) (TOS h).
Definition set_DstIP (v : net_IP) (h : IPv4) : IPv4 :=
  mkIPv4 (SrcIP h) v (Protocol h) (Version h) (Id h) (Flags h) (TTL h) (TOS h).

Definition set_DstPort (v : Z) (t : TCP) : TCP :=
  mkTCP (SrcPort t) v (Seq t) (Ack t) (FIN t) (SYN t) (RST t) (PSH t) (ACK t)
        (URG t) (ECE t) (CWR t) (NS t) (Window t) (Options t) (Padding t) (Payload t).
Definition set_Seq (v : Z) (t : TCP) : TCP :=
  mkTCP (SrcPort t) (DstPort t) v (Ack t) (FIN t) (SYN t) (RST t) (PSH t) (ACK t)
        (URG t) (ECE t) (CWR t) (NS t) (Window t) (Options t) (Padding t) (Payload t).
Definition set_Ack (v : Z) (t : TCP) : TCP :=
  mkTCP (SrcPort t) (DstPort t) (Seq t) v (FIN t) (SYN t) (RST t) (PSH t) (ACK t)
        (URG t) (ECE t) (CWR t) (NS t) (Window t) (Options t) (Padding t) (Payload t).
Definition set_FIN (v : bool) (t : TCP) : TCP :=
  mkTCP (SrcPort t) (DstPort t) (Seq t) (Ack t) v (SYN t) (RST t) (PSH t) (ACK t)
        (URG t) (ECE t) (CWR t) (NS t) (Window t) (Options t) (Padding t) (Payload t).
Definition set_SYN (v : bool) (t : TCP) : TCP :=
  mkTCP (SrcPort t) (DstPort t) (Seq t) (Ack t) (FIN t) v (RST t) (PSH t) (ACK t)
        (URG t) (ECE t) (CWR t) (NS t) (Window t) (Options t) (Padding t) (Payload t).
Definition set_RST (v : bool) (t : TCP) : TCP :=
  mkTCP (SrcPort t) (DstPort t) (Seq t) (Ack t) (FIN t) (SYN t) v (PSH t) (ACK t)
        (URG t) (ECE t) (CWR t) (NS t) (Window t) (Options t) (Padding t) (Payload t).
Definition set_PSH (v : bool) (t : TCP) : TCP :=
  mkTCP (SrcPort t) (DstPort t) (Seq t) (Ack t) (FIN t) (SYN t) (RST t) v (ACK t)
        (URG t) (ECE t) (CWR t) (NS t) (Window t) (Options t) (Padding t) (Payload t).
Definition set_ACK (v : bool) (t : TCP) : TCP :=
  mkTCP (SrcPort t) (DstPort t) (Seq t) (Ack t) (FIN t) (SYN t) (RST t) (PSH t) v
        (URG t) (ECE t) (CWR t) (NS t) (Window t) (Options t) (Padding t) (Payload t).
Definition set_Options (v : list TCPOption) (t : TCP) : TCP :=
  mkTCP (SrcPort t) (DstPort t) (Seq t) (Ack t) (FIN t) (SYN t) (RST t) (PSH t) (ACK t)
        (URG t) (ECE t) (CWR t) (NS t) (Window t) v (Padding t) (Payload t).
Definition set_Padding (v : bytes) (t : TCP) : TCP :=
  mkTCP (SrcPort t) (DstPort t) (Seq t) (Ack t) (FIN t) (SYN t) (RST t) (PSH t) (ACK t)
        (URG t) (ECE t) (CWR t) (NS t) (Window t) (Options t) v (Payload t).
Definition set_Payload (v : bytes) (t : TCP) : TCP :=
  mkTCP (SrcPort t) (DstPort t) (Seq t) (Ack t) (FIN t) (SYN t) (RST t) (PSH t) (ACK t)
        (URG t) (ECE t) (CWR t) (NS t) (Window t) (Options t) (Padding t) v.

(** [pktLayers]: the link layer is optional (nil on loopback). *)
Record pktLayers := mkLayers {
  eth : option Ethernet;
  ip4 : IPv4;
  tcp : TCP
}.

Definition on_ip4 (f : IPv4 -> IPv4) (l : pktLayers) : pktLayers :=
  mkLayers (eth l) (f (ip4 l)) (tcp l).
Definition on_tcp (f : TCP -> TCP) (l : pktLayers) : pktLayers :=
  mkLayers (eth l) (ip4 l) (f (tcp l)).

(** A decoded [gopacket.Packet]: which layers it has. *)
Record Packet := mkPacket {
  pk_eth : option Ethernet;     (* LayerTypeEthernet *)
  pk_loop : bool;               (* LayerTypeLoopback present *)
  pk_ip4 : option IPv4;         (* LayerTypeIPv4 *)
  pk_tcp : option TCP           (* LayerTypeTCP *)
}.

(** What the serializer is handed: the link layer, the two headers and
    the payload (carried in the TCP header's [Payload]).  The lengths,
    the data offset and the checksums the serializer fixes are not
    represented; the padding of the TCP options is. *)
Inductive Link : Type :=
| LinkEthernet (e : Ethernet)
| LinkLoopback.                 (* &layers.Loopback{Family: IPv4} *)

Record Frame := mkFrame {
  fr_link : Link;
  fr_ip4 : IPv4;
  fr_tcp : TCP
}.

(** The set of control flags a TCP header carries, as the list of the
    names of the bits that are set. *)
Inductive Flag : Type := fFIN | fSYN | fRST | fPSH | fACK | fURG | fECE | fCWR | fNS.

Definition flags_of (t : TCP) : list Flag :=
  (if FIN t then [fFIN] else []) ++ (if SYN t then [fSYN] else []) ++
  (if RST t then [fRST] else []) ++ (if PSH t then [fPSH] else []) ++
  (if ACK t then [fACK] else []) ++ (if URG t then [fURG] else []) ++
  (if ECE t then [fECE] else []) ++ (if CWR t then [fCWR] else []) ++
  (if NS t then [fNS] else []).

(** ** Configuration and connection records *)

(** [Raw], declared outside this file: the four options the file reads. *)
Record Raw := mkRaw {
  NoHTTP : bool;
  IgnRST : bool;
  DSCP : Z;
  Host : string
}.

(** The four values of [connInfo.state]; the constants are declared
    outside this file. *)
Inductive connState : Type := synreceived | waithttpreq | httprepsent | established.

#[global] Instance connState_eq_decision : EqDecision connState.
Proof. solve_decision. Defined.

Definition loc := nat.

Record connInfo := mkInfo {
  info_state : connState;
  info_layer : loc;             (* *pktLayers *)
  info_rep : option bytes;      (* []byte, nil until built *)
  info_hseqn : Z;               (* uint32 *)
  info_mss : Z
}.

Definition set_info_state (v : connState) (i : connInfo) : connInfo :=
  mkInfo v (info_layer i) (info_rep i) (info_hseqn i) (info_mss i).
Definition set_info_rep (v : option bytes) (i : connInfo) : connInfo :=
  mkInfo (info_state i) (info_layer i) v (info_hseqn i) (info_mss i).
Definition set_info_hseqn (v : Z) (i : connInfo) : connInfo :=
  mkInfo (info_state i) (info_layer i) (info_rep i) v (info_mss i).

(** What the packet channel and the read timer deliver, in the order the
    [select] of [readLayers] sees them. *)
Inductive Arrival : Type :=
| Captured (p : option Packet)  (* a packet; None is a nil packet *)
| Hangup                        (* the channel is closed *)
| Tick.                         (* the read timer fires *)

Record Timer := mkTimer { duration_ms : Z }.
Record UDPConn := mkUDPConn { udp_closed : bool }.
Record Handle := mkHandle { handle_closed : bool }.

Record RAWConn := mkConn {
  udp : option UDPConn;         (* nil on a listener *)
  handle : option Handle;
  packets : list Arrival;
  rtimer : option Timer;
  wtimer : option Timer;
  layer : option loc;           (* *pktLayers *)
  r : Raw;
  hseqn : Z;                    (* uint32 *)
  lock : bool;                  (* sync.Mutex, true when held *)
  mss : Z
}.

Definition set_udp v (c : RAWConn) : RAWConn :=
  mkConn v (handle c) (packets c) (rtimer c) (wtimer c) (layer c) (r c) (hseqn c) (lock c) (mss c).
Definition set_handle v (c : RAWConn) : RAWConn :=
  mkConn (udp c) v (packets c) (rtimer c) (wtimer c) (layer c) (r c) (hseqn c) (lock c) (mss c).
Definition set_packets v (c : RAWConn) : RAWConn :=
  mkConn (udp c) (handle c) v (rtimer c) (wtimer c) (layer c) (r c) (hseqn c) (lock c) (mss c).
Definition set_rtimer v (c : RAWConn) : RAWConn :=
  mkConn (udp c) (handle c) (packets c) v (wtimer c) (layer c) (r c) (hseqn c) (lock c) (mss c).
Definition set_wtimer v (c : RAWConn) : RAWConn :=
  mkConn (udp c) (handle c) (packets c) (rtimer c) v (layer c) (r c) (hseqn c) (lock c) (mss c).
Definition set_layer v (c : RAWConn) : RAWConn :=
  mkConn (udp c) (handle c) (packets c) (rtimer c) (wtimer c) v (r c) (hseqn c) (lock c) (mss c).
Definition set_hseqn v (c : RAWConn) : RAWConn :=
  mkConn (udp c) (handle c) (packets c) (rtimer c) (wtimer c) (layer c) (r c) v (lock c) (mss c).
Definition set_lock v (c : RAWConn) : RAWConn :=
  mkConn (udp c) (handle c) (packets c) (rtimer c) (wtimer c) (layer c) (r c) (hseqn c) v (mss c).
Definition set_mss v (c : RAWConn) : RAWConn :=
  mkConn (udp c) (handle c) (packets c) (rtimer c) (wtimer c) (layer c) (r c) (hseqn c) (lock c) v.

(** [RAWListener] embeds a [RAWConn].  [mutex] is a [myMutex], declared
    outside this file. *)
Record RAWListener := mkListener {
  RAWConn_ : RAWConn;
  newcons : gmap string loc;    (* map[string]*connInfo *)
  conns : gmap string loc;
  mutex : bool;                 (* true when held *)
  laddr : net_IP;
  lport : Z
}.

Definition set_RAWConn v (l : RAWListener) : RAWListener :=
  mkListener v (newcons l) (conns l) (mutex l) (laddr l) (lport l).
Definition set_newcons v (l : RAWListener) : RAWListener :=
  mkListener (RAWConn_ l) v (conns l) (mutex l) (laddr l) (lport l).
Definition set_conns v (l : RAWListener) : RAWListener :=
  mkListener (RAWConn_ l) (newcons l) v (mutex l) (laddr l) (lport l).
Definition set_mutex v (l : RAWListener) : RAWListener :=
  mkListener (RAWConn_ l) (newcons l) (conns l) v (laddr l) (lport l).

(** ** The world outside the objects *)

(** What becomes of one call of [sendPacket]. *)
Inductive SendOutcome : Type :=
| Injected                      (* serialized and written to the handle *)
| SerializeFails (e : error)    (* gopacket.SerializeLayers fails *)
| InjectFails (e : error).      (* handle.WritePacketData fails *)

Record World := mkWorld {
  lays : gmap loc pktLayers;    (* the pktLayers allocated so far *)
  infos : gmap loc connInfo;    (* the connInfo allocated so far *)
  brk : loc;                    (* the next unused address *)
  script : list SendOutcome;    (* outcomes of the sends to come; none left: Injected *)
  src : nat -> Z;               (* the values src.Int63() returns, in order *)
  src_used : nat;
  entropy : nat -> Z;           (* the uint32 values read from crypto/rand *)
  entropy_used : nat
}.

Definition set_lays v (w : World) : World :=
  mkWorld v (infos w) (brk w) (script w) (src w) (src_used w) (entropy w) (entropy_used w).
Definition set_infos v (w : World) : World :=
  mkWorld (lays w) v (brk w) (script w) (src w) (src_used w) (entropy w) (entropy_used w).
Definition set_brk v (w : World) : World :=
  mkWorld (lays w) (infos w) v (script w) (src w) (src_used w) (entropy w) (entropy_used w).
Definition set_script v (w : World) : World :=
  mkWorld (lays w) (infos w) (brk w) v (src w) (src_used w) (entropy w) (entropy_used w).
Definition set_src_used v (w : World) : World :=
  mkWorld (lays w) (infos w) (brk w) (script w) (src w) v (entropy w) (entropy_used w).
Definition set_entropy_used v (w : World) : World :=
  mkWorld (lays w) (infos w) (brk w) (script w) (src w) (src_used w) (entropy w) v.

(** ** The monad of methods *)

Inductive Mutex : Type :=
| conn_lock                     (* RAWConn.lock *)
| table_mutex.                  (* RAWListener.mutex *)

(** What an observer of the process sees. *)
Inductive Event : Type :=
| Acquire (m : Mutex)
| Release (m : Mutex)
| Inject (f : Frame)            (* a frame written to the pcap handle *)
| Go_ackSender.                 (* go conn.ackSender() *)

Inductive Res (A : Type) : Type :=
| Ok (a : A)
| Panic (why : string)          (* a Go run-time panic; nothing recovers it *)
| Park                          (* the goroutine blocks for ever *)
| Starved.                      (* the model's loop bound ran out *)
Arguments Ok {A} a.
Arguments Panic {A} why.
Arguments Park {A}.
Arguments Starved {A}.

Record Run (S A : Type) := mkRun {
  trace : list Event;
  final : S;
  result : Res A
}.
Arguments mkRun {S A} _ _ _.
Arguments trace {S A} _.
Arguments final {S A} _.
Arguments result {S A} _.

Definition M (S A : Type) : Type := S -> Run S A.

Definition ret {S A : Type} (a : A) : M S A := fun s => mkRun [] s (Ok a).

Definition bind {S A B : Type} (m : M S A) (f : A -> M S B) : M S B :=
  fun s =>
    match m s with
    | mkRun t1 s1 (Ok a) =>
        match f a s1 with
        | mkRun t2 s2 res => mkRun (t1 ++ t2) s2 res
        end
    | mkRun t1 s1 (Panic why) => mkRun t1 s1 (Panic why)
    | mkRun t1 s1 Park => mkRun t1 s1 Park
    | mkRun t1 s1 Starved => mkRun t1 s1 Starved
    end.

Declare Scope rawcon_scope.
Delimit Scope rawcon_scope with rawcon.
Notation "x <- m ;; k" := (bind m (fun x => k))
  (at level 100, m at next level, right associativity) : rawcon_scope.
Local Open Scope rawcon_scope.

Definition get {S : Type} : M S S := fun s => mkRun [] s (Ok s).
Definition put {S : Type} (s : S) : M S unit := fun _ => mkRun [] s (Ok tt).
Definition modify {S : Type} (f : S -> S) : M S unit := fun s => mkRun [] (f s) (Ok tt).
Definition emit {S : Type} (e : Event) : M S unit := fun s => mkRun [e] s (Ok tt).
Definition panic {S A : Type} (why : string) : M S A := fun s => mkRun [] s (Panic why).
Definition park {S A : Type} : M S A := fun s => mkRun [] s Park.
Definition starve {S A : Type} : M S A := fun s => mkRun [] s Starved.

(** [defer f] before a body: [f] runs when the body returns.  A panic ends
    the process (the source never recovers), so the deferred call of a
    panicking body is not run in the model. *)
Definition defer {S A : Type} (f : M S unit) (body : M S A) : M S A :=
  a <- body;; _ <- f;; ret a.

(** A method of the embedded [RAWConn] called on a [RAWListener]. *)
Definition promoted {A : Type} (m : M (World * RAWConn) A) : M (World * RAWListener) A :=
  fun s =>
    match m (fst s, RAWConn_ (snd s)) with
    | mkRun t s1 res => mkRun t (fst s1, set_RAWConn (snd s1) (snd s)) res
    end.

Abbreviation ConnM := (M (World * RAWConn)).
Abbreviation ListenerM := (M (World * RAWListener)).

(** ** Pointers *)

Definition nil_dereference : string := "invalid memory address or nil pointer dereference".

(** Reading through a [*pktLayers]. *)
Definition load {X : Type} (l : loc) : M (World * X) pktLayers :=
  s <- get;;
  match lays (fst s) !! l with
  | Some L => ret L
  | None => panic nil_dereference
  end.

(** Writing through a [*pktLayers]. *)
Definition update {X : Type} (l : loc) (f : pktLayers -> pktLayers) : M (World * X) unit :=
  L <- load l;;
  modify (fun s => (set_lays (<[l := f L]> (lays (fst s))) (fst s), snd s)).

(** [conn.layer], about to be dereferenced. *)
Definition the_layer : ConnM loc :=
  s <- get;;
  match layer (snd s) with
  | Some l => ret l
  | None => panic nil_dereference
  end.

Definition the_handle : ConnM Handle :=
  s <- get;;
  match handle (snd s) with
  | Some h => ret h
  | None => panic nil_dereference
  end.

Definition on_conn (f : RAWConn -> RAWConn) : ConnM unit :=
  modify (fun s => (fst s, f (snd s))).

(** [conn.lock.Lock()]: a held mutex parks the caller. *)
Definition Lock : ConnM unit :=
  s <- get;;
  if lock (snd s) then park
  else _ <- emit (Acquire conn_lock);; on_conn (set_lock true).

Definition Unlock : ConnM unit :=
  s <- get;;
  if lock (snd s) then _ <- emit (Release conn_lock);; on_conn (set_lock false)
  else panic "sync: unlock of unlocked mutex".

(** The outcome the world has in store for the next send. *)
Definition next_outcome : ConnM SendOutcome :=
  s <- get;;
  _ <- put (set_script (tail (script (fst s))) (fst s), snd s);;
  ret (hd Injected (script (fst s))).

(** [src.Int63()]: a non-negative 63-bit value. *)
Definition Int63 {X : Type} : M (World * X) Z :=
  s <- get;;
  let w := fst s in
  _ <- put (set_src_used (S (src_used w)) w, snd s);;
  ret (src w (src_used w) mod 2 ^ 63).

(** [binary.Read(rand.Reader, binary.LittleEndian, &x)] for a [uint32] x. *)
Definition rand_uint32 {X : Type} : M (World * X) Z :=
  s <- get;;
  let w := fst s in
  _ <- put (set_entropy_used (S (entropy_used w)) w, snd s);;
  ret (u32 (entropy w (entropy_used w))).

(** ** RAWConn *)

Definition GetMSS : ConnM Z := s <- get;; ret (mss (snd s)).

Definition be16 (hi lo : byte) : Z :=
  Z.of_N (Byte.to_N hi) * 256 + Z.of_N (Byte.to_N lo).

(** [getMssFromTcpLayer], on the options of the header.
    [binary.BigEndian.Uint16] panics on a one-byte slice. *)
Fixpoint getMssFromOptions (os : list TCPOption) : Res Z :=
  match os with
  | [] => Ok 0
  | v :: rest =>
      if negb (OptionType v =? TCPOptionKindMSS) || (len (OptionData v) =? 0)
      then getMssFromOptions rest
      else match OptionData v with
           | hi :: lo :: _ => Ok (be16 hi lo)
           | _ => Panic "index out of range [1] with length 1"
           end
  end.

Definition getMssFromTcpLayer {S : Type} (t : TCP) : M S Z :=
  fun s => mkRun [] s (getMssFromOptions (Options t)).

Definition LocalAddr : ConnM UDPAddr :=
  l <- the_layer;; L <- load l;;
  ret (mkUDPAddr (SrcIP (ip4 L)) (SrcPort (tcp L))).

Definition RemoteAddr : ConnM UDPAddr :=
  l <- the_layer;; L <- load l;;
  ret (mkUDPAddr (DstIP (ip4 L)) (DstPort (tcp L))).

(** What one pass of the [for] of [readLayers] does with the head of the
    channel; the scan stops at the first arrival that makes it return. *)
Inductive Scan : Type :=
| Scanned (cl : pktLayers)
| ScanTimeout
| ScanClosed
| ScanEmpty.                    (* nothing more will ever arrive *)

Fixpoint scan (timed ign : bool) (q : list Arrival) : Scan * list Arrival :=
  match q with
  | [] => (ScanEmpty, [])
  | Tick :: q' => if timed then (ScanTimeout, q') else scan timed ign q'
  | Hangup :: _ => (ScanClosed, q)
  | Captured None :: q' => (ScanClosed, q')
  | Captured (Some p) :: q' =>
      if bool_decide (pk_eth p = None) && negb (pk_loop p) then scan timed ign q'
      else match pk_ip4 p with
           | None => scan timed ign q'
           | Some ip =>
               match pk_tcp p with
               | None => scan timed ign q'
               | Some t =>
                   if ign && RST t then scan timed ign q'
                   else (Scanned (mkLayers (pk_eth p) ip t), q')
               end
           end
  end.

(** [readLayers] returns [(layer, err)] with exactly one of them set. *)
Definition readLayers : ConnM (pktLayers + error) :=
  s <- get;;
  let c := snd s in
  let o := scan (bool_decide (is_Some (rtimer c))) (IgnRST (r c)) (packets c) in
  _ <- on_conn (set_packets (snd o));;
  match fst o with
  | Scanned cl => ret (inl cl)
  | ScanTimeout =>
      a <- RemoteAddr;;
      ret (inr (timeoutErr ("read from " +:+ Addr_String a)))
  | ScanClosed => ret (inr (errorString "read from closed connection"))
  | ScanEmpty => park
  end.

Definition frame_of (L : pktLayers) : Frame :=
  mkFrame (match eth L with Some e => LinkEthernet e | None => LinkLoopback end)
          (ip4 L) (tcp L).

(** gopacket's [TCP.SerializeTo], which [SerializeLayers] calls on the
    template's own TCP header with [FixLengths] set (lines 426-429 and
    645-648): the options take one byte each for kinds 0 and 1 and two
    bytes plus their data otherwise, and when their length is not a
    multiple of four the zero bytes that pad it to the next one are
    stored in the header's [Padding]; a length that is one already leaves
    [Padding] alone.  This comes first in [TCP.SerializeTo], and the
    payload is serialized before it without a way to fail, so it happens
    whatever becomes of the send. *)
Definition option_length (o : TCPOption) : Z :=
  if (OptionType o =? 0) || (OptionType o =? 1) then 1 else 2 + len (OptionData o).

Definition options_length (os : list TCPOption) : Z :=
  fold_right (fun o n => option_length o + n) 0 os.

Definition padding_for (os : list TCPOption) (old : bytes) : bytes :=
  let rem := options_length os mod 4 in
  if rem =? 0 then old else repeat x00%byte (Z.to_nat (4 - rem)).

Definition fix_padding (t : TCP) : TCP :=
  set_Padding (padding_for (Options t) (Padding t)) t.

Definition sendPacket : ConnM (option error) :=
  l <- the_layer;;
  _ <- update l (on_ip4 (fun h => set_Id (u16 (Id h + 1)) h));;
  _ <- update l (on_tcp fix_padding);;
  L <- load l;;
  o <- next_outcome;;
  match o with
  | SerializeFails e => ret (Some e)
  | InjectFails e => _ <- the_handle;; ret (Some e)
  | Injected => _ <- the_handle;; _ <- emit (Inject (frame_of L));; ret None
  end.

Definition clear_flags (t : TCP) : TCP :=
  set_SYN false (set_RST false (set_ACK false (set_PSH false (set_FIN false
    (set_Padding [] t))))).

Definition updateTCP : ConnM unit :=
  l <- the_layer;;
  update l (on_tcp clear_flags).

(** The three options [sendSyn] and [sendSynAck] append:
    MSS 1460, window scale 6, SACK permitted. *)
Definition handshake_options : list TCPOption :=
  [ mkTCPOption TCPOptionKindMSS 4 [x05; xb4]%byte;
    mkTCPOption TCPOptionKindWindowScale 3 [x06]%byte;
    mkTCPOption TCPOptionKindSACKPermitted 2 [] ].

Definition sendSyn : ConnM (option error) :=
  _ <- updateTCP;;
  l <- the_layer;;
  _ <- update l (on_tcp (set_SYN true));;
  L <- load l;;
  let options := Options (tcp L) in
  defer (update l (on_tcp (set_Options options)))
    (_ <- update l (on_tcp (set_Options (options ++ handshake_options)));;
     sendPacket).

Definition sendSynAck : ConnM (option error) :=
  _ <- updateTCP;;
  l <- the_layer;;
  _ <- update l (on_tcp (fun t => set_ACK true (set_SYN true t)));;
  L <- load l;;
  let options := Options (tcp L) in
  defer (update l (on_tcp (set_Options options)))
    (_ <- update l (on_tcp (set_Options (options ++ handshake_options)));;
     sendPacket).

Definition sendAck : ConnM (option error) :=
  _ <- updateTCP;;
  l <- the_layer;;
  _ <- update l (on_tcp (set_ACK true));;
  sendPacket.

Definition sendFin : ConnM (option error) :=
  _ <- updateTCP;;
  l <- the_layer;;
  _ <- update l (on_tcp (set_FIN true));;
  sendPacket.

Definition sendRst : ConnM (option error) :=
  _ <- updateTCP;;
  l <- the_layer;;
  _ <- update l (on_tcp (set_RST true));;
  sendPacket.

(** "the write method don't increace the seq number" *)
Definition write (b : bytes) : ConnM (Z * option error) :=
  let n := len b in
  _ <- updateTCP;;
  l <- the_layer;;
  _ <- update l (on_tcp (fun t => set_Payload b (set_ACK true (set_PSH true t))));;
  defer (update l (on_tcp (set_Payload [])))
    (err <- sendPacket;; ret (n, err)).

Definition Write (b : bytes) : ConnM (Z * option error) :=
  _ <- Lock;;
  defer Unlock
    (ne <- write b;;
     l <- the_layer;;
     _ <- update l (on_tcp (fun t => set_Seq (u32 (Seq t + u32 (fst ne))) t));;
     ret ne).

Definition close : ConnM (option error) :=
  s <- get;;
  _ <- (match udp (snd s), handle (snd s) with
       | Some _, Some _ => _ <- sendFin;; ret tt
       | _, _ => ret tt
       end);;
  err <- (match udp (snd s) with
         | Some u =>
             _ <- on_conn (set_udp (Some (mkUDPConn true)));;
             ret (if udp_closed u
                   then Some (foreignErr "use of closed network connection")
                   else None)
         | None => ret None
         end);;
  _ <- (match handle (snd s) with
       | Some _ => on_conn (set_handle (Some (mkHandle true)))
       | None => ret tt
       end);;
  ret err.

Definition Close : ConnM (option error) := close.

(** The loop bodies say whether the [for] goes round again. *)
Inductive Loop (C A : Type) : Type :=
| Continue (c : C)              (* with what the next turn inherits *)
| Return (a : A).
Arguments Continue {C A} c.
Arguments Return {C A} a.

(** What a read hands back: the count, the caller's buffer afterwards,
    the address and the error. *)
Record ReadResult := mkRead {
  rd_n : Z;
  rd_b : bytes;
  rd_addr : option UDPAddr;
  rd_err : option error
}.

(** The body of the [for] of [RAWConn.ReadFrom], after [readLayers]. *)
Definition ReadFrom_body (b : bytes) (cl : pktLayers) : ConnM (Loop unit ReadResult) :=
  let t := tcp cl in
  s <- get;;
  if SYN t && ACK t then
    err <- sendAck;;
    match err with
    | Some e => ret (Return (mkRead 0 b None (Some e)))
    | None => ret (Continue tt)
    end
  else if negb (PSH t) || negb (ACK t) || (Seq t =? hseqn (snd s)) then ret (Continue tt)
  else
    addr <- (match udp (snd s) with
            | Some _ => RemoteAddr
            | None => ret (mkUDPAddr (SrcIP (ip4 cl)) (SrcPort t))
            end);;
    let n := len (Payload t) in
    if n >? 0 then
      l <- the_layer;;
      L <- load l;;
      _ <- (if Seq t + n >? Ack (tcp L)
           then update l (on_tcp (set_Ack (u32 (Seq t + u32 n))))
           else ret tt);;
      ret (Return (mkRead (snd (copy b (Payload t))) (fst (copy b (Payload t)))
                           (Some addr) None))
    else ret (Return (mkRead n b (Some addr) None)).

Fixpoint ReadFrom_loop (fuel : nat) (b : bytes) : ConnM ReadResult :=
  match fuel with
  | O => starve
  | S fuel' =>
      x <- readLayers;;
      match x with
      | inr err => ret (mkRead 0 b None (Some err))
      | inl cl =>
          y <- ReadFrom_body b cl;;
          match y with
          | Continue _ => ReadFrom_loop fuel' b
          | Return res => ret res
          end
      end
  end.

Definition stop_rtimer : ConnM unit :=
  s <- get;;
  match rtimer (snd s) with
  | Some _ => on_conn (set_rtimer None)
  | None => ret tt
  end.

(** Every turn of the loop takes at least one arrival off the channel, so
    one more turn than there are arrivals is enough. *)
Definition ReadFrom (b : bytes) : ConnM ReadResult :=
  defer stop_rtimer
    (fun s => ReadFrom_loop (S (length (packets (snd s)))) b s).

Definition WriteTo (b : bytes) (addr : UDPAddr) : ConnM (Z * option error) :=
  l <- the_layer;;
  _ <- update l (on_ip4 (set_DstIP (IP addr)));;
  _ <- update l (on_tcp (set_DstPort (u16 (Port addr))));;
  Write b.

Definition Read (b : bytes) : ConnM (Z * bytes * option error) :=
  x <- ReadFrom b;;
  ret (rd_n x, rd_b x, rd_err x).

(** [SetReadDeadline(now + d)] *)
Definition SetReadDeadline (d : Z) : ConnM (option error) :=
  _ <- on_conn (set_rtimer (Some (mkTimer d)));;
  ret None.

Definition SetWriteDeadline (d : Z) : ConnM (option error) :=
  _ <- on_conn (set_wtimer (Some (mkTimer d)));;
  ret None.

Definition SetDeadline (d : Z) : ConnM (option error) :=
  err <- SetReadDeadline d;;
  match err with
  | None => SetWriteDeadline d
  | Some e => ret (Some e)
  end.

(** ** Raw.DialRAW *)

(** Allocating a [pktLayers]: [&pktLayers{...}]. *)
Definition new_layers {X : Type} (L : pktLayers) : M (World * X) loc :=
  s <- get;;
  let w := fst s in
  _ <- put (set_brk (S (brk w)) (set_lays (<[brk w := L]> (lays w)) w), snd s);;
  ret (brk w).

(** How a loop body that can also [break] ends. *)
Inductive Flow (B A : Type) : Type :=
| Next                          (* continue, or the end of the body *)
| Break (b : B)
| Leave (a : A).                (* return *)
Arguments Next {B A}.
Arguments Break {B A} b.
Arguments Leave {B A} a.

(** What happens before the connection object exists: device listing, the
    UDP socket, interface choice, the capture handle, the probe that
    learns the Ethernet addresses, the BPF filters.  All of it is the
    operating system's doing; the model takes its outcome. *)
Inductive Setup : Type :=
| SetupFails (e : error)        (* one of the steps returns an error *)
| SetupSilent                   (* the probe frame has no link layer: a bare return *)
| SetupDone (u : UDPConn) (h : Handle) (q : list Arrival)
            (e : option Ethernet) (local remote : UDPAddr).

Definition CRLF : string := String (ascii_of_nat 13) (String (ascii_of_nat 10) EmptyString).

Section Dial.

  (** [buildHTTPRequest] is declared outside this file. *)
Variable buildHTTPRequest : string -> bytes.

  (** The object of lines 420-450, before its template is allocated. *)
Definition dial_conn (cfg : Raw) (u : UDPConn) (h : Handle) (q : list Arrival) : RAWConn :=
    mkConn (Some u) (Some h) q None None None cfg 0 false 0.

Definition dial_template (cfg : Raw) (e : option Ethernet) (local remote : UDPAddr)
      (id : Z) : pktLayers :=
    mkLayers e
      (mkIPv4 (IP local) (IP remote) IPProtocolTCP 4 id IPv4DontFragment 64 (u8 (DSCP cfg)))
      (mkTCP (u16 (Port local)) (u16 (Port remote)) 0 0
             false false false false false false false false false
             12580 [] [] []).

  (** One turn of the first [for]: the SYN handshake.  [Break] carries the
      locals [ackn] and [seqn]. *)
Definition syn_attempt (retry : Z) : ConnM (Flow (Z * Z) error) :=
    if retry >? 5 then ret (Leave (errorString "retry too many times"))
    else
      err <- sendSyn;;
      match err with
      | Some e => ret (Leave e)
      | None =>
          d <- Int63;;
          _ <- SetReadDeadline (500 + d mod 500);;
          x <- readLayers;;
          match x with
          | inr e => if isTemporaryNetError e then ret Next else ret (Leave e)
          | inl cl =>
              if SYN (tcp cl) && ACK (tcp cl) then
                l <- the_layer;;
                _ <- update l (on_tcp (set_Ack (u32 (Seq (tcp cl) + 1))));;
                _ <- update l (on_tcp (fun t => set_Seq (u32 (Seq t + 1)) t));;
                L <- load l;;
                m <- getMssFromTcpLayer (tcp cl);;
                _ <- on_conn (set_mss m);;
                err <- sendAck;;
                match err with
                | Some e => ret (Leave e)
                | None => ret (Break (Ack (tcp L), Seq (tcp L)))
                end
              else ret (Break (0, 0))
          end
      end.

Fixpoint syn_loop (fuel : nat) (retry : Z) : ConnM (error + Z * Z) :=
    match fuel with
    | O => starve
    | S fuel' =>
        f <- syn_attempt retry;;
        match f with
        | Next => syn_loop fuel' (retry + 1)
        | Break a => ret (inr a)
        | Leave e => ret (inl e)
        end
    end.

  (** One turn of the second [for]: the HTTP decoy. *)
Definition http_attempt (req : bytes) (ackn seqn retry : Z) : ConnM (Flow unit error) :=
    if retry >? 5 then ret (Leave (errorString "retry too many times"))
    else
      ne <- write req;;
      match snd ne with
      | Some e => ret (Leave e)
      | None =>
          d <- Int63;;
          err <- SetReadDeadline (500 + d mod 500);;
          match err with
          | Some e => ret (Leave e)
          | None =>
              x <- readLayers;;
              match x with
              | inr e => if isTemporaryNetError e then ret Next else ret (Leave e)
              | inl cl =>
                  l <- the_layer;;
                  if SYN (tcp cl) && ACK (tcp cl) then
                    _ <- update l (on_tcp (set_Ack ackn));;
                    _ <- update l (on_tcp (set_Seq seqn));;
                    err <- sendAck;;
                    match err with
                    | Some e => ret (Leave e)
                    | None => ret Next
                    end
                  else
                    let n := len (Payload (tcp cl)) in
                    if PSH (tcp cl) && ACK (tcp cl) && (n >=? 20) then
                      let head := take 4 (Payload (tcp cl)) in
                      let tail := drop (Z.to_nat (n - 4)) (Payload (tcp cl)) in
                      if bytes_are head "HTTP" && bool_decide (tail = CRLFCRLF) then
                        _ <- on_conn (set_hseqn (Seq (tcp cl)));;
                        _ <- update l (on_tcp (fun t => set_Seq (u32 (Seq t + u32 (len req))) t));;
                        _ <- update l (on_tcp (set_Ack (u32 (Seq (tcp cl) + u32 n))));;
                        ret (Break tt)
                      else ret Next
                    else ret Next
              end
          end
      end.

Fixpoint http_loop (fuel : nat) (req : bytes) (ackn seqn retry : Z) : ConnM (option error) :=
    match fuel with
    | O => starve
    | S fuel' =>
        f <- http_attempt req ackn seqn retry;;
        match f with
        | Next => http_loop fuel' req ackn seqn (retry + 1)
        | Break _ => ret None
        | Leave e => ret (Some e)
        end
    end.

Definition http_headers (cfg : Raw) : string :=
    if (Z.of_nat (String.length (Host cfg)) =? 0) then ""
    else ("Host: " +:+ Host cfg +:+ CRLF) +:+ ("X-Online-Host: " +:+ Host cfg +:+ CRLF).

  (** Lines 456-555: both loops stop by their seventh turn at the latest,
      since [retry] grows by one each turn. *)
Definition dial_phases : ConnM (option error) :=
    seq0 <- rand_uint32;;
    l <- the_layer;;
    _ <- update l (on_tcp (set_Seq seq0));;
    x <- syn_loop 7 0;;
    match x with
    | inl e => ret (Some e)
    | inr (ackn, seqn) =>
        s <- get;;
        if NoHTTP (r (snd s)) then ret None
        else http_loop 7 (buildHTTPRequest (http_headers (r (snd s)))) ackn seqn 0
    end.

  (** The three deferred closures, last registered first: clear [rtimer];
      on an error close the connection; on success start the ack pacer. *)
Definition dial_deferred (err : option error) : ConnM unit :=
    _ <- on_conn (set_rtimer None);;
    _ <- (match err with
         | Some _ => _ <- Close;; ret tt
         | None => ret tt
         end);;
    match err with
    | None => emit Go_ackSender
    | Some _ => ret tt
    end.

Definition dial_established (cfg : Raw) (e : option Ethernet) (local remote : UDPAddr)
      : ConnM (option error) :=
    id <- Int63;;
    l <- new_layers (dial_template cfg e local remote (u16 (id mod 65536)));;
    _ <- on_conn (set_layer (Some l));;
    err <- dial_phases;;
    _ <- dial_deferred err;;
    ret err.

  (** [DialRAW] returns the named results [(conn, err)]: [conn] is nil
      until line 420 and is the object built there from then on. *)
Definition DialRAW (cfg : Raw) (setup : Setup) : M World (option RAWConn * option error) :=
    fun w =>
      match setup with
      | SetupFails e => mkRun [] w (Ok (None, Some e))
      | SetupSilent => mkRun [] w (Ok (None, None))
      | SetupDone u h q e local remote =>
          let x := dial_established cfg e local remote (w, dial_conn cfg u h q) in
          mkRun (trace x) (fst (final x))
                (match result x with
                 | Ok err => Ok (Some (snd (final x)), err)
                 | Panic why => Panic why
                 | Park => Park
                 | Starved => Starved
                 end)
      end.

End Dial.

(** ** RAWListener *)

Module Listener.

Definition on_listener (f : RAWListener -> RAWListener) : ListenerM unit :=
    modify (fun s => (fst s, f (snd s))).

  (** [listener.layer = v] *)
Definition point_layer (v : option loc) : ListenerM unit :=
    on_listener (fun l => set_RAWConn (set_layer v (RAWConn_ l)) l).

  (** Reading and writing through a [*connInfo]. *)
Definition info_load (p : loc) : ListenerM connInfo :=
    s <- get;;
    match infos (fst s) !! p with
    | Some i => ret i
    | None => panic nil_dereference
    end.

Definition info_update (p : loc) (f : connInfo -> connInfo) : ListenerM unit :=
    i <- info_load p;;
    modify (fun s => (set_infos (<[p := f i]> (infos (fst s))) (fst s), snd s)).

  (** [&connInfo{...}] *)
Definition new_info (i : connInfo) : ListenerM loc :=
    s <- get;;
    let w := fst s in
    _ <- put (set_brk (S (brk w)) (set_infos (<[brk w := i]> (infos w)) w), snd s);;
    ret (brk w).

  (** Modelled from the spec: [myMutex] is declared outside this file; the
      spec makes it the mutex of the two connection tables.  [run f] holds
      it while [f] runs. *)
Definition mutex_Lock : ListenerM unit :=
    s <- get;;
    if mutex (snd s) then park
    else _ <- emit (Acquire table_mutex);; on_listener (set_mutex true).

Definition mutex_Unlock : ListenerM unit :=
    s <- get;;
    if mutex (snd s) then _ <- emit (Release table_mutex);; on_listener (set_mutex false)
    else panic "sync: unlock of unlocked mutex".

Definition mutex_run {A : Type} (f : ListenerM A) : ListenerM A :=
    _ <- mutex_Lock;; a <- f;; _ <- mutex_Unlock;; ret a.

Definition GetMSSByAddr (addr : UDPAddr) : ListenerM Z :=
    _ <- mutex_Lock;;
    defer mutex_Unlock
      (s <- get;;
       match conns (snd s) !! Addr_String addr with
       | Some p =>
           conn <- info_load p;;
           if info_mss conn >? 0 then ret (info_mss conn) else ret 0
       | None => ret 0
       end).

Definition closeConn (p : loc) : ListenerM (option error) :=
    info <- info_load p;;
    _ <- point_layer (Some (info_layer info));;
    promoted sendFin.

Fixpoint closeConns (ps : list loc) : ListenerM unit :=
    match ps with
    | [] => ret tt
    | p :: rest => _ <- closeConn p;; closeConns rest
    end.

  (** Go leaves the order of a [range] over a map open; the model walks
      the tables in the order of [map_to_list]. *)
Definition Close : ListenerM (option error) :=
    _ <- mutex_run
          (s <- get;;
           _ <- closeConns (snd <$> map_to_list (newcons (snd s)));;
           closeConns (snd <$> map_to_list (conns (snd s))));;
    promoted close.

  (** The listener object of lines 637-653. *)
Definition ListenRAW_listener (cfg : Raw) (h : Handle) (q : list Arrival)
      (ip : net_IP) (port : Z) : RAWListener :=
    mkListener (mkConn None (Some h) q None None None cfg 0 false 0) ∅ ∅ false ip port.

Definition closeConnByAddr (addrstr : string) : ListenerM (option error) :=
    s <- get;;
    info <- (match newcons (snd s) !! addrstr with
            | Some p =>
                _ <- on_listener (fun l => set_newcons (delete addrstr (newcons l)) l);;
                ret (Some p)
            | None =>
                match conns (snd s) !! addrstr with
                | Some p =>
                    _ <- on_listener (fun l => set_conns (delete addrstr (conns l)) l);;
                    ret (Some p)
                | None => ret None
                end
            end);;
    match info with
    | Some p => closeConn p
    | None => ret None
    end.

  (** The template of lines 797-822 for a segment of an unknown peer. *)
Definition listen_template (cfg : Raw) (cl : pktLayers) (id : Z) : pktLayers :=
    mkLayers
      (match eth cl with
       | Some e => Some (mkEthernet (DstMAC e) (SrcMAC e) (EthernetType e))
       | None => None
       end)
      (mkIPv4 (DstIP (ip4 cl)) (SrcIP (ip4 cl)) IPProtocolTCP 4 id IPv4DontFragment 64
              (u8 (DSCP cfg)))
      (mkTCP (DstPort (tcp cl)) (SrcPort (tcp cl)) 0 (u32 (Seq (tcp cl) + 1))
             false false false false false false false false false
             32760 [] [] []).

  (** [head == "POST" && tail == "\r\n\r\n"] for a payload of [n] bytes. *)
Definition looks_like_POST (payload : bytes) : bool :=
    bytes_are (take 4 payload) "POST" &&
    bool_decide (drop (Z.to_nat (len payload - 4)) payload = CRLFCRLF).

Section Read.

    (** [buildHTTPResponse] is declared outside this file. *)
Variable buildHTTPResponse : string -> bytes.

    (** A flow found in [conns], payload not empty (lines 703-735).
        [None]: the loop continues. *)
Definition established_segment (b : bytes) (uaddr : UDPAddr) (t : TCP) (p : loc)
        : ListenerM (Loop (Z * option UDPAddr) ReadResult) :=
      let n := len (Payload t) in
      info <- info_load p;;
      L <- load (info_layer info);;
      _ <- (if Seq t + n >? Ack (tcp L)
           then update (info_layer info) (on_tcp (set_Ack (u32 (Seq t + u32 n))))
           else ret tt);;
      err <- (if bool_decide (info_state info = httprepsent) then
               if PSH t && ACK t then
                 if (Seq t =? info_hseqn info) && (n >? 20) then
                   if looks_like_POST (Payload t) then
                     _ <- update (info_layer info) (on_tcp (set_Ack (u32 (Seq t + u32 n))));;
                     _ <- update (info_layer info)
                           (on_tcp (fun h => set_Seq (u32 (Seq h + u32 (len (default [] (info_rep info))))) h));;
                     _ <- point_layer (Some (info_layer info));;
                     ne <- promoted (write (default [] (info_rep info)));;
                     ret (snd ne)
                   else ret None
                 else
                   _ <- info_update p (set_info_rep None);;
                   _ <- info_update p (set_info_state established);;
                   ret None
               else ret None
             else ret None);;
      match err with
      | Some e => ret (Return (mkRead n b (Some uaddr) (Some e)))
      | None =>
          info' <- info_load p;;
          if bool_decide (info_state info' = established)
          then ret (Return (mkRead (snd (copy b (Payload t))) (fst (copy b (Payload t)))
                                    (Some uaddr) None))
          else ret (Continue (n, Some uaddr))
      end.

    (** A flow found in [newcons] (lines 745-796). [Some e]: return [e]. *)
Definition handshake_segment (addrstr : string) (t : TCP) (p : loc)
        : ListenerM (option error) :=
      let n := len (Payload t) in
      info <- info_load p;;
      s <- get;;
      if bool_decide (info_state info = synreceived) then
        if ACK t && negb (PSH t) && negb (FIN t) && negb (SYN t) then
          _ <- update (info_layer info) (on_tcp (fun h => set_Seq (u32 (Seq h + 1)) h));;
          if NoHTTP (r (RAWConn_ (snd s))) then
            _ <- info_update p (set_info_state established);;
            _ <- mutex_run
                  (_ <- on_listener (fun l => set_conns (<[addrstr := p]> (conns l)) l);;
                   on_listener (fun l => set_newcons (delete addrstr (newcons l)) l));;
            ret None
          else
            _ <- info_update p (set_info_state waithttpreq);;
            ret None
        else if SYN t && negb (ACK t) && negb (PSH t) then
          _ <- point_layer (Some (info_layer info));;
          promoted sendSynAck
        else ret None
      else if bool_decide (info_state info = waithttpreq) then
        if PSH t && ACK t && (n >? 20) then
          if looks_like_POST (Payload t) then
            _ <- update (info_layer info) (on_tcp (fun h => set_Ack (u32 (Ack h + u32 n)) h));;
            _ <- point_layer (Some (info_layer info));;
            _ <- (match info_rep info with
                 | None => info_update p (set_info_rep (Some (buildHTTPResponse "")))
                 | Some _ => ret tt
                 end);;
            _ <- info_update p (set_info_hseqn (Seq t));;
            info' <- info_load p;;
            ne <- promoted (write (default [] (info_rep info')));;
            match snd ne with
            | Some e => ret (Some e)
            | None =>
                _ <- info_update p (set_info_state httprepsent);;
                _ <- mutex_run
                      (_ <- on_listener (fun l => set_conns (<[addrstr := p]> (conns l)) l);;
                       on_listener (fun l => set_newcons (delete addrstr (newcons l)) l));;
                ret None
            end
          else ret None
        else if SYN t && negb (ACK t) && negb (PSH t) then
          _ <- point_layer (Some (info_layer info));;
          promoted sendSynAck
        else ret None
      else ret None.

    (** A segment of a peer in neither table (lines 797-841). *)
Definition unknown_segment (addrstr : string) (cl : pktLayers)
        : ListenerM (option error) :=
      let t := tcp cl in
      s <- get;;
      id <- Int63;;
      lay <- new_layers (listen_template (r (RAWConn_ (snd s))) cl (u16 (id mod 65536)));;
      if SYN t && negb (ACK t) && negb (PSH t) && negb (FIN t) then
        m <- getMssFromTcpLayer t;;
        p <- new_info (mkInfo synreceived lay None 0 m);;
        seq0 <- rand_uint32;;
        _ <- update lay (on_tcp (set_Seq seq0));;
        _ <- point_layer (Some lay);;
        err <- promoted sendSynAck;;
        match err with
        | Some e => ret (Some e)
        | None =>
            _ <- mutex_run (on_listener (fun l => set_newcons (<[addrstr := p]> (newcons l)) l));;
            ret None
        end
      else
        _ <- point_layer (Some lay);;
        _ <- promoted sendFin;;
        ret None.

    (** The body of the [for] of [RAWListener.ReadFrom], after
        [readLayers].  [n0] is the value the named result [n] has kept
        from the turn before. *)
Definition ReadFrom_body (b : bytes) (n0 : Z) (cl : pktLayers)
        : ListenerM (Loop (Z * option UDPAddr) ReadResult) :=
      let t := tcp cl in
      _ <- point_layer None;;
      let uaddr := mkUDPAddr (SrcIP (ip4 cl)) (SrcPort t) in
      let addrstr := Addr_String uaddr in
      if RST t || FIN t then
        err <- mutex_run (closeConnByAddr addrstr);;
        match err with
        | Some e => ret (Return (mkRead n0 b (Some uaddr) (Some e)))
        | None => ret (Continue (n0, Some uaddr))
        end
      else
        found <- mutex_run (s <- get;; ret (conns (snd s) !! addrstr));;
        let n := len (Payload t) in
        match found with
        | Some p =>
            if negb (n =? 0) then established_segment b uaddr t p
            else if ACK t && PSH t
                 then ret (Return (mkRead n b (Some uaddr) None))
                 else ret (Continue (n, Some uaddr))
        | None =>
            fresh <- mutex_run (s <- get;; ret (newcons (snd s) !! addrstr));;
            err <- (match fresh with
                   | Some p => handshake_segment addrstr t p
                   | None => unknown_segment addrstr cl
                   end);;
            match err with
            | Some e => ret (Return (mkRead n b (Some uaddr) (Some e)))
            | None => ret (Continue (n, Some uaddr))
            end
        end.

Fixpoint ReadFrom_loop (fuel : nat) (b : bytes) (n0 : Z) (addr0 : option UDPAddr)
        : ListenerM ReadResult :=
      match fuel with
      | O => starve
      | S fuel' =>
          x <- promoted readLayers;;
          match x with
          | inr err => ret (mkRead n0 b addr0 (Some err))
          | inl cl =>
              y <- ReadFrom_body b n0 cl;;
              match y with
              | Continue (n, addr) => ReadFrom_loop fuel' b n addr
              | Return res => ret res
              end
          end
      end.

Definition ReadFrom (b : bytes) : ListenerM ReadResult :=
      fun s => ReadFrom_loop (S (length (packets (RAWConn_ (snd s))))) b 0 None s.

End Read.

Definition WriteTo (b : bytes) (addr : UDPAddr) : ListenerM (Z * option error) :=
    _ <- mutex_Lock;;
    s <- get;;
    let found := conns (snd s) !! Addr_String addr in
    _ <- mutex_Unlock;;
    match found with
    | None => ret (0, Some (errorString ("cannot write to " +:+ Addr_String addr)))
    | Some p =>
        info <- info_load p;;
        _ <- point_layer (Some (info_layer info));;
        promoted (Write b)
    end.

Definition LocalAddr : ListenerM UDPAddr :=
    s <- get;;
    ret (mkUDPAddr (laddr (snd s)) (lport (snd s))).

End Listener.

(** * Vocabulary of the properties *)

(** The error [sendPacket] returns for an outcome, and what reaches the
    wire when the template [L] is sent with that outcome. *)
Definition error_of (o : SendOutcome) : option error :=
  match o with
  | Injected => None
  | SerializeFails e => Some e
  | InjectFails e => Some e
  end.

Definition wire_of (o : SendOutcome) (L : pktLayers) : list Event :=
  match o with
  | Injected => [Inject (frame_of L)]
  | _ => []
  end.

(** The outcome of the next send. *)
Definition upcoming (w : World) : SendOutcome := hd Injected (script w).

(** What [sendPacket] makes of the template before it is on the wire:
    [layer.ip4.Id++], and the padding the serializer fixes. *)
Definition stamped (L : pktLayers) : pktLayers :=
  on_tcp fix_padding (on_ip4 (fun h => set_Id (u16 (Id h + 1)) h) L).

(** The world after one send through the template at [l], left as [L]. *)
Definition sent (l : loc) (L : pktLayers) (w : World) : World :=
  set_script (tail (script w)) (set_lays (<[l := L]> (lays w)) w).

(** The send helpers, [write] included. *)
Inductive Helper : Type :=
| call_sendSyn | call_sendSynAck | call_sendAck | call_sendFin | call_sendRst
| call_write (b : bytes).

Definition call (h : Helper) : ConnM (option error) :=
  match h with
  | call_sendSyn => sendSyn
  | call_sendSynAck => sendSynAck
  | call_sendAck => sendAck
  | call_sendFin => sendFin
  | call_sendRst => sendRst
  | call_write b => ne <- write b;; ret (snd ne)
  end.

(** The flags each helper asserts, in the order of [flags_of]. *)
Definition asserted (h : Helper) : list Flag :=
  match h with
  | call_sendSyn => [fSYN]
  | call_sendSynAck => [fSYN; fACK]
  | call_sendAck => [fACK]
  | call_sendFin => [fFIN]
  | call_sendRst => [fRST]
  | call_write _ => [fPSH; fACK]
  end.

(** The template as the helper hands it to [sendPacket] (before the ID is
    stamped), and as the helper leaves it. *)
Definition dressed (h : Helper) (L : pktLayers) : pktLayers :=
  match h with
  | call_sendSyn =>
      on_tcp (fun t => set_Options (Options t ++ handshake_options) (set_SYN true (clear_flags t))) L
  | call_sendSynAck =>
      on_tcp (fun t => set_Options (Options t ++ handshake_options)
                         (set_ACK true (set_SYN true (clear_flags t)))) L
  | call_sendAck => on_tcp (fun t => set_ACK true (clear_flags t)) L
  | call_sendFin => on_tcp (fun t => set_FIN true (clear_flags t)) L
  | call_sendRst => on_tcp (fun t => set_RST true (clear_flags t)) L
  | call_write b => on_tcp (fun t => set_Payload b (set_ACK true (set_PSH true (clear_flags t)))) L
  end.

Definition undressed (h : Helper) (L : pktLayers) : pktLayers :=
  match h with
  | call_sendSyn | call_sendSynAck =>
      on_tcp (set_Options (Options (tcp L))) (stamped (dressed h L))
  | call_write _ => on_tcp (set_Payload []) (stamped (dressed h L))
  | _ => stamped (dressed h L)
  end.

(** The four flag bits no helper writes are clear: true of every template
    the source builds ([dial_template], [Listener.listen_template]). *)
Definition plain (L : pktLayers) : Prop :=
  URG (tcp L) = false /\ ECE (tcp L) = false /\ CWR (tcp L) = false /\ NS (tcp L) = false.

(** The ack cursor after the read path has seen a payload of [n] bytes at
    sequence number [s]: the comparison is made in 64 bits, the sum is
    stored in 32. *)
Definition ack_after (a s n : Z) : Z :=
  if s + n >? a then u32 (s + u32 n) else a.

Definition frames (t : list Event) : list Frame :=
  omap (fun e => match e with Inject f => Some f | _ => None end) t.

(** The template [Write] leaves behind. *)
Definition written (b : bytes) (L : pktLayers) : pktLayers :=
  on_tcp (fun t => set_Seq (u32 (Seq t + u32 (len b))) t) (undressed (call_write b) L).

(** The address a delivered datagram is attributed to. *)
Definition peer_of (c : RAWConn) (L cl : pktLayers) : UDPAddr :=
  match udp c with
  | Some _ => mkUDPAddr (DstIP (ip4 L)) (DstPort (tcp L))
  | None => mkUDPAddr (SrcIP (ip4 cl)) (SrcPort (tcp cl))
  end.

(** The template once the read path has acknowledged the segment [t]. *)
Definition acked (t : TCP) (L : pktLayers) : pktLayers :=
  on_tcp (set_Ack (ack_after (Ack (tcp L)) (Seq t) (len (Payload t)))) L.

(** The template after the listener has acknowledged a request of [n]
    bytes in WAIT_HTTP_REQ ([Ack += n]). *)
Definition answering (n : Z) (L : pktLayers) : pktLayers :=
  on_tcp (fun h => set_Ack (u32 (Ack h + u32 n)) h) L.

(** The connection record once the decoy response [rep] has answered the
    request whose sequence number is [s]. *)
Definition answered (s : Z) (rep : bytes) (i : connInfo) : connInfo :=
  mkInfo httprepsent (info_layer i) (Some rep) s (info_mss i).

(** [listener.layer = nil], the first statement of every turn. *)
Definition unpointed (lst : RAWListener) : RAWListener :=
  set_RAWConn (set_layer None (RAWConn_ lst)) lst.

(** The peer a captured segment comes from, and its key in the tables. *)
Definition sender (cl : pktLayers) : UDPAddr := mkUDPAddr (SrcIP (ip4 cl)) (SrcPort (tcp cl)).

Definition key (cl : pktLayers) : string := Addr_String (sender cl).

Definition scanning (c : RAWConn) : Scan * list Arrival :=
  scan (bool_decide (is_Some (rtimer c))) (IgnRST (r c)) (packets c).

(** No captured segment reaches the end of the 32-bit sequence space. *)
Definition wrap_free (q : list Arrival) : Prop :=
  forall p t, In (Captured (Some p)) q -> pk_tcp p = Some t ->
              0 <= Seq t /\ Seq t + len (Payload t) < 4294967296.

(** The next [k] reads all end in the read timer firing. *)
Fixpoint times_out (ign : bool) (k : nat) (q : list Arrival) : Prop :=
  match k with
  | O => True
  | S k' => exists q', scan true ign q = (ScanTimeout, q') /\ times_out ign k' q'
  end.

(** The next [k] sends all go through. *)
Definition sends_ok (k : nat) (scr : list SendOutcome) : Prop :=
  forall i, (i < k)%nat -> nth i scr Injected = Injected.

(** The SYN frames of [k] attempts in a row, from the template [L]. *)
Fixpoint syn_frames (k : nat) (L : pktLayers) : list Frame :=
  match k with
  | O => []
  | S k' => frame_of (stamped (dressed call_sendSyn L))
              :: syn_frames k' (undressed call_sendSyn L)
  end.

Fixpoint syn_template (k : nat) (L : pktLayers) : pktLayers :=
  match k with
  | O => L
  | S k' => syn_template k' (undressed call_sendSyn L)
  end.

(** The template of a fresh dial connection once its sequence number is
    drawn. *)
Definition first_template (cfg : Raw) (e : option Ethernet) (local remote : UDPAddr)
      (w : World) : pktLayers :=
    on_tcp (set_Seq (u32 (entropy w (entropy_used w))))
      (dial_template cfg e local remote (u16 ((src w (src_used w) mod 2 ^ 63) mod 65536))).

(** ** Counting SYN transmissions *)

(** The frames of a trace that carry the SYN bit. *)
Fixpoint syn_count (t : list Event) : nat :=
  match t with
  | [] => 0
  | Inject f :: t' => (if SYN (fr_tcp f) then 1 else 0) + syn_count t'
  | _ :: t' => syn_count t'
  end.

(** From any state, [m] injects at most [k] frames that carry SYN. *)
Definition at_most {S A : Type} (k : nat) (m : M S A) : Prop :=
  forall s, (syn_count (trace (m s)) <= k)%nat.

(** From a state in [P], [m] injects at most [k] frames that carry SYN,
    and a result [a] comes with a state in [Q a]. *)
Definition triple {S A : Type} (P : S -> Prop) (m : M S A) (k : nat)
    (Q : A -> S -> Prop) : Prop :=
  forall s, P s ->
    (syn_count (trace (m s)) <= k)%nat /\
    forall a, result (m s) = Ok a -> Q a (final (m s)).

(** The template of the connection, where there is one, satisfies [F]. *)
Definition template_is (F : pktLayers -> Prop) (s : World * RAWConn) : Prop :=
  forall l L, layer (snd s) = Some l -> lays (fst s) !! l = Some L -> F L.

Definition no_syn (L : pktLayers) : Prop := SYN (tcp L) = false.

(** * Concrete flows

    A dial-side connection and a listener small enough to run, used to
    exercise the properties below on actual values. *)

Definition demo_raw : Raw := mkRaw false false 0 "".

Definition demo_local : UDPAddr := mkUDPAddr (mkIP 10 0 0 1) 40000.
Definition demo_remote : UDPAddr := mkUDPAddr (mkIP 10 0 0 2) 443.

(** The template [DialRAW] builds for this pair of addresses, with IPv4 ID 7. *)
Definition demo_template : pktLayers :=
  dial_template demo_raw None demo_local demo_remote 7.

(** A world whose only [pktLayers] is [L], at address 0. *)
Definition demo_world (L : pktLayers) (scr : list SendOutcome) : World :=
  mkWorld {[ 0%nat := L ]} ∅ 1%nat scr (fun _ => 0) 0%nat (fun _ => 0) 0%nat.

(** A dial-side connection on that template, with [q] on its channel and
    [h] as the recorded sequence number of the decoy response. *)
Definition demo_conn (q : list Arrival) (h : Z) : RAWConn :=
  set_hseqn h (set_layer (Some 0%nat)
    (dial_conn demo_raw (mkUDPConn false) (mkHandle false) q)).

(** A captured PSH+ACK segment of the remote peer, on loopback. *)
Definition demo_data (s : Z) (payload : bytes) : TCP :=
  mkTCP 443 40000 s 0 false false false true true false false false false
        32760 [] [] payload.

Definition demo_packet (t : TCP) : Packet :=
  mkPacket None true
    (Some (mkIPv4 (IP demo_remote) (IP demo_local) IPProtocolTCP 4 1 IPv4DontFragment 64 0))
    (Some t).

Definition demo_segment (t : TCP) : pktLayers :=
  mkLayers None
    (mkIPv4 (IP demo_remote) (IP demo_local) IPProtocolTCP 4 1 IPv4DontFragment 64 0) t.

(** A first SYN of the remote peer, announcing an MSS of 1460. *)
Definition demo_syn : TCP :=
  mkTCP 443 40000 900 0 false true false false false false false false false
        32760 [mkTCPOption TCPOptionKindMSS 4 [x05; xb4]%byte] [] [].

Definition demo_buildHTTPRequest (headers : string) : bytes :=
  list_byte_of_string ("POST / HTTP/1.1" +:+ CRLF +:+ headers +:+ CRLF).

Definition demo_buildHTTPResponse (headers : string) : bytes :=
  list_byte_of_string ("HTTP/1.1 200 OK" +:+ CRLF +:+ headers +:+ CRLF).

(** The listener of [ListenRAW] on the local address. *)
Definition demo_listener (q : list Arrival) : RAWListener :=
  Listener.ListenRAW_listener demo_raw (mkHandle false) q (IP demo_local) 40000.

(** The template the listener keeps for the remote peer. *)
Definition demo_listen_template : pktLayers :=
  Listener.listen_template demo_raw (demo_segment demo_syn) 7.

(** The remote peer's record at address 1, in state [st], its template at
    address 0. *)
Definition demo_listen_world (st : connState) : World :=
  mkWorld {[ 0%nat := demo_listen_template ]}
          {[ 1%nat := mkInfo st 0%nat None 0 1460 ]} 2%nat [] (fun _ => 0) 0%nat (fun _ => 0) 0%nat.

(** The listener with the remote peer in [newcons]. *)
Definition demo_listener_new (q : list Arrival) : RAWListener :=
  set_newcons {[ key (demo_segment demo_syn) := 1%nat ]} (demo_listener q).

(** The listener with the remote peer in [conns]. *)
Definition demo_listener_known (q : list Arrival) : RAWListener :=
  set_conns {[ key (demo_segment demo_syn) := 1%nat ]} (demo_listener q).

(** A 20-byte request: POST, a path, the version and two CRLF pairs. *)
Definition demo_request20 : bytes :=
  list_byte_of_string ("POST /a HTTP/1.1" +:+ CRLF +:+ CRLF).

(** A 20-byte response: the version, a status and two CRLF pairs. *)
Definition demo_response20 : bytes :=
  list_byte_of_string ("HTTP/1.1 200 Yes" +:+ CRLF +:+ CRLF).

(** The request with a two-letter path: 21 bytes. *)
Definition demo_request21 : bytes :=
  list_byte_of_string ("POST /ab HTTP/1.1" +:+ CRLF +:+ CRLF).

(** The world before anything is allocated; every send goes through. *)
Definition demo_fresh_world : World :=
  mkWorld ∅ ∅ 0%nat [] (fun _ => 0) 0%nat (fun _ => 0) 0%nat.

(** The outcome of the set-up of [DialRAW] on loopback, with [q] on the
    packet channel. *)
Definition demo_setup (q : list Arrival) : Setup :=
  SetupDone (mkUDPConn false) (mkHandle false) q None demo_local demo_remote.

Definition demo_hello : bytes := list_byte_of_string "hello".

(** ** Vocabulary of the further properties *)

(** The peer the template is addressed to. *)
Definition remote_of (L : pktLayers) : UDPAddr := mkUDPAddr (DstIP (ip4 L)) (DstPort (tcp L)).

(** No option of the list is an MSS option with data. *)
Definition no_usable_mss (os : list TCPOption) : Prop :=
  Forall (fun o => OptionType o <> TCPOptionKindMSS \/ OptionData o = []) os.

(** The options a helper adds to the frame it sends. *)
Definition extra_options (h : Helper) : list TCPOption :=
  match h with
  | call_sendSyn | call_sendSynAck => handshake_options
  | _ => []
  end.

(** The payload of the frame a helper sends from the template [L]. *)
Definition payload_of (h : Helper) (L : pktLayers) : bytes :=
  match h with
  | call_write b => b
  | _ => Payload (tcp L)
  end.

(** A configuration that skips RST segments. *)
Definition demo_raw_ign : Raw := mkRaw false true 0 "".

(** A captured RST of the remote peer. *)
Definition demo_rst : TCP :=
  mkTCP 443 40000 77 0 false false true false false false false false false
        32760 [] [] [].

(** A template once the SYN+ACK [cl] has been taken in: [Ack] is the
    peer's sequence number plus one and [Seq] has moved by one. *)
Definition taken_in (cl L : pktLayers) : pktLayers :=
  on_tcp (fun t => set_Seq (u32 (Seq t + 1)) t)
    (on_tcp (set_Ack (u32 (Seq (tcp cl) + 1))) L).

(** The dial-side template after the SYN is sent and the SYN+ACK [cl]
    taken in. *)
Definition shaken (cl L : pktLayers) : pktLayers :=
  taken_in cl (undressed call_sendSyn L).

(** A configuration without the HTTP decoy. *)
Definition demo_raw_plain : Raw := mkRaw true false 0 "".

(** The SYN+ACK of the remote peer, announcing an MSS of 1460. *)
Definition demo_synack : TCP :=
  mkTCP 443 40000 900 1 false true false false true false false false false
        32760 [mkTCPOption TCPOptionKindMSS 4 [x05; xb4]%byte] [] [].

(** A dial-side connection that skips RST segments. *)
Definition demo_conn_ign (q : list Arrival) : RAWConn :=
  set_layer (Some 0%nat) (dial_conn demo_raw_ign (mkUDPConn false) (mkHandle false) q).

(** A dial-side connection with a read deadline. *)
Definition demo_conn_timed (q : list Arrival) : RAWConn :=
  set_rtimer (Some (mkTimer 500)) (demo_conn q 0).

(** A NOP option, then the MSS option of 1460. *)
Definition demo_nop : TCPOption := mkTCPOption 1 1 [].
Definition demo_mss : TCPOption := mkTCPOption TCPOptionKindMSS 4 [x05; xb4]%byte.

(** The listener's template for a peer it has not seen, from the
    segment [cl], before a sequence number is drawn. *)
Definition reply_template (cfg : Raw) (cl : pktLayers) (w : World) : pktLayers :=
  Listener.listen_template cfg cl (u16 ((src w (src_used w) mod 2 ^ 63) mod 65536)).

(** The same with the sequence number drawn for a SYN+ACK. *)
Definition first_reply (cfg : Raw) (cl : pktLayers) (w : World) : pktLayers :=
  on_tcp (set_Seq (u32 (entropy w (entropy_used w)))) (reply_template cfg cl w).

(** The template answers the peer that sent [cl]. *)
Definition answers (cl L : pktLayers) : Prop :=
  SrcIP (ip4 L) = DstIP (ip4 cl) /\ DstIP (ip4 L) = SrcIP (ip4 cl) /\
  SrcPort (tcp L) = DstPort (tcp cl) /\ DstPort (tcp L) = SrcPort (tcp cl) /\
  Ack (tcp L) = u32 (Seq (tcp cl) + 1).

(** A bare ACK of the remote peer, and a stray data segment. *)
Definition demo_ack : TCP :=
  mkTCP 443 40000 901 1 false false false false true false false false false
        32760 [] [] [].

(** The listener with the remote peer in [conns] and [IgnRST] set. *)
Definition demo_listener_ign (q : list Arrival) : RAWListener :=
  set_conns {[ key (demo_segment demo_syn) := 1%nat ]}
    (Listener.ListenRAW_listener demo_raw_ign (mkHandle false) q (IP demo_local) 40000).

(** * Stepping through the monad *)

Section Stepping.
Context {S A B : Type}.

Lemma bind_quiet (m : M S A) (f : A -> M S B) s s1 a :
    m s = mkRun [] s1 (Ok a) -> bind m f s = f a s1.
  Proof. intros H. unfold bind. rewrite H. destruct (f a s1); reflexivity. Qed.

Lemma bind_loud (m : M S A) (f : A -> M S B) s t1 s1 a :
    m s = mkRun t1 s1 (Ok a) ->
    bind m f s = match f a s1 with mkRun t2 s2 res => mkRun (t1 ++ t2) s2 res end.
  Proof. intros H. unfold bind. rewrite H. reflexivity. Qed.

Lemma bind_assoc {C} (m : M S A) (f : A -> M S B) (g : B -> M S C) s :
    bind (bind m f) g s = bind m (fun x => bind (f x) g) s.
  Proof.
    unfold bind. destruct (m s) as [t1 s1 [a| | |]]; try reflexivity.
    destruct (f a s1) as [t2 s2 [b| | |]]; try reflexivity.
    destruct (g b s2) as [t3 s3 res]. rewrite app_assoc. reflexivity.
  Qed.
End Stepping.

Ltac proj :=
  cbn [fst snd app andb orb negb default from_option id
       layer handle lock script lays infos brk udp packets rtimer wtimer hseqn mss r
       src src_used entropy entropy_used
       set_lays set_infos set_brk set_script set_src_used set_entropy_used
       set_udp set_handle set_packets set_rtimer set_wtimer set_layer set_hseqn set_lock set_mss
       RAWConn_ newcons conns mutex laddr lport set_RAWConn set_newcons set_conns set_mutex
       eth ip4 tcp on_ip4 on_tcp
       SrcIP DstIP Protocol Version Id Flags TTL TOS set_Id set_DstIP
       SrcPort DstPort Seq Ack FIN SYN RST PSH ACK URG ECE CWR NS Window Options Padding Payload
       set_DstPort set_Seq set_Ack set_FIN set_SYN set_RST set_PSH set_ACK set_Options
       set_Padding set_Payload clear_flags stamped sent upcoming
       info_state info_layer info_rep info_hseqn info_mss set_info_state set_info_rep set_info_hseqn
       trace final result] in *.

(** Full normalisation of record terms, once every record is a constructor. *)
Ltac crunch :=
  lazy beta iota zeta delta [fst snd
       layer handle lock script lays infos brk udp packets rtimer wtimer hseqn mss r
       src src_used entropy entropy_used
       set_lays set_infos set_brk set_script set_src_used set_entropy_used
       set_udp set_handle set_packets set_rtimer set_wtimer set_layer set_hseqn set_lock set_mss
       RAWConn_ newcons conns mutex laddr lport set_RAWConn set_newcons set_conns set_mutex
       eth ip4 tcp on_ip4 on_tcp
       SrcIP DstIP Protocol Version Id Flags TTL TOS set_Id set_DstIP
       SrcPort DstPort Seq Ack FIN SYN RST PSH ACK URG ECE CWR NS Window Options Padding Payload
       set_DstPort set_Seq set_Ack set_FIN set_SYN set_RST set_PSH set_ACK set_Options
       set_Padding set_Payload clear_flags stamped sent upcoming dressed undressed
       info_state info_layer info_rep info_hseqn info_mss set_info_state set_info_rep set_info_hseqn
       trace final result] in *; cbn [app andb orb negb] in *.

Ltac explode_all :=
  repeat match goal with
         | x : (World * RAWConn)%type |- _ => destruct x
         | x : (World * RAWListener)%type |- _ => destruct x
         | x : World |- _ => destruct x
         | x : RAWListener |- _ => destruct x
         | x : RAWConn |- _ => destruct x
         | x : pktLayers |- _ => destruct x
         | x : IPv4 |- _ => destruct x
         | x : TCP |- _ => destruct x
         | x : connInfo |- _ => destruct x
         end; crunch; subst.

Lemma the_layer_run (s : World * RAWConn) l :
  layer (snd s) = Some l -> the_layer s = mkRun [] s (Ok l).
Proof. intros H. unfold the_layer, bind, get. rewrite H. reflexivity. Qed.

Lemma the_handle_run (s : World * RAWConn) h :
  handle (snd s) = Some h -> the_handle s = mkRun [] s (Ok h).
Proof. intros H. unfold the_handle, bind, get. rewrite H. reflexivity. Qed.

Lemma load_run {X} (s : World * X) l L :
  lays (fst s) !! l = Some L -> load l s = mkRun [] s (Ok L).
Proof. intros H. unfold load, bind, get. rewrite H. reflexivity. Qed.

Lemma update_run {X} (s : World * X) l f L :
  lays (fst s) !! l = Some L ->
  update l f s = mkRun [] (set_lays (<[l := f L]> (lays (fst s))) (fst s), snd s) (Ok tt).
Proof. intros H. unfold update. rewrite (bind_quiet _ _ _ _ _ (load_run _ _ _ H)). reflexivity. Qed.

Lemma next_outcome_run (s : World * RAWConn) :
  next_outcome s = mkRun [] (set_script (tail (script (fst s))) (fst s), snd s) (Ok (upcoming (fst s))).
Proof. reflexivity. Qed.

Ltac side :=
  proj;
  first [ eassumption | reflexivity
        | apply lookup_insert_eq
        | rewrite lookup_insert_ne by congruence; side ].

Lemma mkRun_eq {S A} t t' (s s' : S) (x x' : Res A) :
  t = t' -> s = s' -> x = x' -> mkRun t s x = mkRun t' s' x'.
Proof. congruence. Qed.

Ltac prim :=
  first [ reflexivity
        | apply the_layer_run; side
        | apply the_handle_run; side
        | apply load_run; side
        | apply update_run; side
        | apply next_outcome_run ].

Lemma set_lays_twice a b w : set_lays a (set_lays b w) = set_lays a w.
Proof. reflexivity. Qed.

Ltac norm := rewrite ?set_lays_twice, ?insert_insert_eq.
Ltac step1 tac :=
  first [ rewrite bind_assoc
        | erewrite bind_quiet by tac
        | erewrite bind_loud by tac ]; cbv beta; proj; norm.
Ltac steps tac := repeat (step1 tac).



Ltac finish :=
  unfold ret, sent, upcoming in *; proj; rewrite ?app_nil_r; norm;
  explode_all; norm; reflexivity.

Lemma sendPacket_run w c l L h :
  layer c = Some l -> lays w !! l = Some L -> handle c = Some h ->
  sendPacket (w, c) =
  mkRun (wire_of (upcoming w) (stamped L)) (sent l (stamped L) w, c) (Ok (error_of (upcoming w))).
Proof.
  intros Hl HL Hh. unfold sendPacket. steps prim.
  unfold upcoming. destruct (hd Injected (script w)); steps prim; finish.
Qed.

Lemma updateTCP_run w c l L :
  layer c = Some l -> lays w !! l = Some L ->
  updateTCP (w, c) = mkRun [] (set_lays (<[l := on_tcp clear_flags L]> (lays w)) w, c) (Ok tt).
Proof.
  intros Hl HL. unfold updateTCP. steps prim.
  erewrite update_run by side. reflexivity.
Qed.

Ltac prim2 :=
  first [ prim
        | erewrite updateTCP_run by side; proj; norm; reflexivity
        | erewrite sendPacket_run by side; proj; norm; reflexivity ].

Lemma helper_run hh w c l L h :
  layer c = Some l -> lays w !! l = Some L -> handle c = Some h ->
  call hh (w, c) =
  mkRun (wire_of (upcoming w) (stamped (dressed hh L))) (sent l (undressed hh L) w, c)
        (Ok (error_of (upcoming w))).
Proof.
  intros Hl HL Hh.
  destruct hh; unfold call, sendSyn, sendSynAck, sendAck, sendFin, sendRst, write, defer;
    steps prim2; try (erewrite sendPacket_run by side); finish.
Qed.

Lemma write_run b w c l L h :
  layer c = Some l -> lays w !! l = Some L -> handle c = Some h ->
  write b (w, c) =
  mkRun (wire_of (upcoming w) (stamped (dressed (call_write b) L)))
        (sent l (undressed (call_write b) L) w, c)
        (Ok (len b, error_of (upcoming w))).
Proof.
  intros Hl HL Hh. unfold write, defer. steps prim2. finish.
Qed.

Lemma sendAck_run w c l L h :
  layer c = Some l -> lays w !! l = Some L -> handle c = Some h ->
  sendAck (w, c) =
  mkRun (wire_of (upcoming w) (stamped (dressed call_sendAck L)))
        (sent l (undressed call_sendAck L) w, c) (Ok (error_of (upcoming w))).
Proof. exact (helper_run call_sendAck w c l L h). Qed.

Lemma sendSyn_run w c l L h :
  layer c = Some l -> lays w !! l = Some L -> handle c = Some h ->
  sendSyn (w, c) =
  mkRun (wire_of (upcoming w) (stamped (dressed call_sendSyn L)))
        (sent l (undressed call_sendSyn L) w, c) (Ok (error_of (upcoming w))).
Proof. exact (helper_run call_sendSyn w c l L h). Qed.

Lemma sendSynAck_run w c l L h :
  layer c = Some l -> lays w !! l = Some L -> handle c = Some h ->
  sendSynAck (w, c) =
  mkRun (wire_of (upcoming w) (stamped (dressed call_sendSynAck L)))
        (sent l (undressed call_sendSynAck L) w, c) (Ok (error_of (upcoming w))).
Proof. exact (helper_run call_sendSynAck w c l L h). Qed.

Lemma sendFin_run w c l L h :
  layer c = Some l -> lays w !! l = Some L -> handle c = Some h ->
  sendFin (w, c) =
  mkRun (wire_of (upcoming w) (stamped (dressed call_sendFin L)))
        (sent l (undressed call_sendFin L) w, c) (Ok (error_of (upcoming w))).
Proof. exact (helper_run call_sendFin w c l L h). Qed.

Lemma Lock_run (s : World * RAWConn) :
  lock (snd s) = false ->
  Lock s = mkRun [Acquire conn_lock] (fst s, set_lock true (snd s)) (Ok tt).
Proof. intros H. unfold Lock, bind, get. rewrite H. reflexivity. Qed.

Lemma Unlock_run (s : World * RAWConn) :
  lock (snd s) = true ->
  Unlock s = mkRun [Release conn_lock] (fst s, set_lock false (snd s)) (Ok tt).
Proof. intros H. unfold Unlock, bind, get. rewrite H. reflexivity. Qed.

Ltac prim3 :=
  first [ prim
        | erewrite updateTCP_run by side; proj; norm; reflexivity
        | erewrite sendPacket_run by side; proj; norm; reflexivity
        | erewrite write_run by side; proj; norm; reflexivity
        | erewrite sendAck_run by side; proj; norm; reflexivity
        | erewrite sendSyn_run by side; proj; norm; reflexivity
        | erewrite sendSynAck_run by side; proj; norm; reflexivity
        | erewrite sendFin_run by side; proj; norm; reflexivity
        | erewrite Lock_run by side; proj; reflexivity
        | erewrite Unlock_run by side; proj; reflexivity ].


Lemma Write_run b w c l L h :
  layer c = Some l -> lays w !! l = Some L -> handle c = Some h -> lock c = false ->
  Write b (w, c) =
  mkRun (Acquire conn_lock :: wire_of (upcoming w) (stamped (dressed (call_write b) L))
           ++ [Release conn_lock])
        (sent l (written b L) w, c)
        (Ok (len b, error_of (upcoming w))).
Proof.
  intros Hl HL Hh Hk. unfold Write, defer, written. steps prim3. finish.
Qed.

(** ** The dial read path *)

Lemma RemoteAddr_run w c l L :
  layer c = Some l -> lays w !! l = Some L ->
  RemoteAddr (w, c) = mkRun [] (w, c) (Ok (mkUDPAddr (DstIP (ip4 L)) (DstPort (tcp L)))).
Proof. intros Hl HL. unfold RemoteAddr. steps prim. reflexivity. Qed.

Lemma ReadFrom_body_filtered b cl (s : World * RAWConn) :
  SYN (tcp cl) && ACK (tcp cl) = false ->
  negb (PSH (tcp cl)) || negb (ACK (tcp cl)) || (Seq (tcp cl) =? hseqn (snd s)) = true ->
  ReadFrom_body b cl s = mkRun [] s (Ok (Continue tt)).
Proof.
  intros H1 H2. unfold ReadFrom_body.
  erewrite bind_quiet by reflexivity. rewrite H1, H2. reflexivity.
Qed.

Lemma ReadFrom_body_synack b cl w c l L h :
  layer c = Some l -> lays w !! l = Some L -> handle c = Some h ->
  SYN (tcp cl) && ACK (tcp cl) = true ->
  ReadFrom_body b cl (w, c) =
  mkRun (wire_of (upcoming w) (stamped (dressed call_sendAck L)))
        (sent l (undressed call_sendAck L) w, c)
        (Ok (match error_of (upcoming w) with
             | Some e => Return (mkRead 0 b None (Some e))
             | None => Continue tt
             end)).
Proof.
  intros Hl HL Hh H1. unfold ReadFrom_body.
  erewrite bind_quiet by reflexivity. rewrite H1.
  erewrite bind_loud by (eapply sendAck_run; eassumption).
  destruct (error_of (upcoming w)); unfold ret; rewrite app_nil_r; reflexivity.
Qed.



Lemma peer_of_run w c l L cl :
  layer c = Some l -> lays w !! l = Some L ->
  (match udp c with
   | Some _ => RemoteAddr
   | None => ret (mkUDPAddr (SrcIP (ip4 cl)) (SrcPort (tcp cl)))
   end) (w, c) = mkRun [] (w, c) (Ok (peer_of c L cl)).
Proof.
  intros Hl HL. unfold peer_of.
  destruct (udp c); [eapply RemoteAddr_run; eassumption | reflexivity].
Qed.

Lemma ReadFrom_body_delivers b cl w c l L :
  layer c = Some l -> lays w !! l = Some L ->
  SYN (tcp cl) && ACK (tcp cl) = false ->
  negb (PSH (tcp cl)) || negb (ACK (tcp cl)) || (Seq (tcp cl) =? hseqn c) = false ->
  (len (Payload (tcp cl)) >? 0) = true ->
  ReadFrom_body b cl (w, c) =
  mkRun [] (set_lays (<[l := acked (tcp cl) L]> (lays w)) w, c)
        (Ok (Return (mkRead (snd (copy b (Payload (tcp cl)))) (fst (copy b (Payload (tcp cl))))
                            (Some (peer_of c L cl)) None))).
Proof.
  intros Hl HL H1 H2 H3. unfold ReadFrom_body.
  erewrite bind_quiet by reflexivity. cbn [snd]. rewrite H1, H2.
  erewrite bind_quiet by (eapply peer_of_run; eassumption). rewrite H3.
  erewrite bind_quiet by (apply the_layer_run; exact Hl).
  erewrite bind_quiet by (apply load_run; exact HL).
  unfold acked, ack_after.
  destruct (Seq (tcp cl) + len (Payload (tcp cl)) >? Ack (tcp L)) eqn:Hc.
  - erewrite bind_quiet by (apply update_run; exact HL). reflexivity.
  - erewrite bind_quiet by reflexivity. unfold ret. f_equal. f_equal.
    replace (on_tcp (set_Ack (Ack (tcp L))) L) with L by (destruct L as [? ? []]; reflexivity).
    rewrite insert_id by assumption. destruct w; reflexivity.
Qed.

Lemma ReadFrom_body_empty b cl w c l L :
  layer c = Some l -> lays w !! l = Some L ->
  SYN (tcp cl) && ACK (tcp cl) = false ->
  negb (PSH (tcp cl)) || negb (ACK (tcp cl)) || (Seq (tcp cl) =? hseqn c) = false ->
  (len (Payload (tcp cl)) >? 0) = false ->
  ReadFrom_body b cl (w, c) =
  mkRun [] (w, c)
        (Ok (Return (mkRead (len (Payload (tcp cl))) b (Some (peer_of c L cl)) None))).
Proof.
  intros Hl HL H1 H2 H3. unfold ReadFrom_body.
  erewrite bind_quiet by reflexivity. cbn [snd]. rewrite H1, H2.
  erewrite bind_quiet by (eapply peer_of_run; eassumption). rewrite H3. reflexivity.
Qed.

(** ** The listener *)


Lemma promoted_run {A} (m : ConnM A) w lst t w' c' (res : Res A) :
  m (w, RAWConn_ lst) = mkRun t (w', c') res ->
  promoted m (w, lst) = mkRun t (w', set_RAWConn c' lst) res.
Proof. intros H. unfold promoted. cbn [fst snd]. rewrite H. reflexivity. Qed.

Lemma info_load_run (s : World * RAWListener) p i :
  infos (fst s) !! p = Some i -> Listener.info_load p s = mkRun [] s (Ok i).
Proof. intros H. unfold Listener.info_load, bind, get. rewrite H. reflexivity. Qed.

Lemma info_update_run (s : World * RAWListener) p f i :
  infos (fst s) !! p = Some i ->
  Listener.info_update p f s = mkRun [] (set_infos (<[p := f i]> (infos (fst s))) (fst s), snd s) (Ok tt).
Proof.
  intros H. unfold Listener.info_update.
  rewrite (bind_quiet _ _ _ _ _ (info_load_run _ _ _ H)). reflexivity.
Qed.

Lemma mutex_Lock_run (s : World * RAWListener) :
  mutex (snd s) = false ->
  Listener.mutex_Lock s = mkRun [Acquire table_mutex] (fst s, set_mutex true (snd s)) (Ok tt).
Proof. intros H. unfold Listener.mutex_Lock, bind, get. rewrite H. reflexivity. Qed.

Lemma mutex_Unlock_run (s : World * RAWListener) :
  mutex (snd s) = true ->
  Listener.mutex_Unlock s = mkRun [Release table_mutex] (fst s, set_mutex false (snd s)) (Ok tt).
Proof. intros H. unfold Listener.mutex_Unlock, bind, get. rewrite H. reflexivity. Qed.

Ltac lprim :=
  first [ reflexivity
        | apply info_load_run; side
        | apply info_update_run; side
        | apply load_run; side
        | apply update_run; side
        | apply mutex_Lock_run; side
        | apply mutex_Unlock_run; side
        | eapply promoted_run; proj; first [ eapply write_run; side
                                           | eapply sendSynAck_run; side
                                           | eapply sendFin_run; side
                                           | eapply Write_run; side ] ].

Ltac lsteps := repeat (step1 lprim).


Ltac decide_state :=
  repeat first [ rewrite bool_decide_eq_true_2 by reflexivity
               | rewrite bool_decide_eq_false_2 by discriminate ].



Section ListenerLemmas.
Variable buildHTTPResponse : string -> bytes.

Lemma ensure_rep_run (s : World * RAWListener) p info :
    infos (fst s) !! p = Some info ->
    (match info_rep info with
     | Some _ => ret tt
     | None => Listener.info_update p (set_info_rep (Some (buildHTTPResponse "")))
     end) s =
    mkRun [] (set_infos (<[p := set_info_rep (Some (default (buildHTTPResponse "") (info_rep info))) info]>
                           (infos (fst s))) (fst s), snd s) (Ok tt).
  Proof.
    intros Hi. destruct (info_rep info) eqn:Hr.
    - unfold ret. cbn [default]. change (id l) with l. f_equal.
      replace (set_info_rep (Some l) info) with info by (destruct info; unfold set_info_rep; simpl in *; subst; reflexivity).
      rewrite insert_id by assumption. destruct s as [[] ?]; reflexivity.
    - erewrite info_update_run by eassumption. reflexivity.
  Qed.

Lemma handshake_segment_POST A t w lst p info L h :
    mutex lst = false -> handle (RAWConn_ lst) = Some h ->
    infos w !! p = Some info -> info_state info = waithttpreq ->
    lays w !! info_layer info = Some L ->
    PSH t = true -> ACK t = true -> (len (Payload t) >? 20) = true ->
    Listener.looks_like_POST (Payload t) = true ->
    upcoming w = Injected ->
    let rep := default (buildHTTPResponse "") (info_rep info) in
    let La := answering (len (Payload t)) L in
    Listener.handshake_segment buildHTTPResponse A t p (w, lst) =
    mkRun [Inject (frame_of (stamped (dressed (call_write rep) La)));
           Acquire table_mutex; Release table_mutex]
          (set_infos (<[p := answered (Seq t) rep info]> (infos w))
             (sent (info_layer info) (undressed (call_write rep) La) w),
           set_newcons (delete A (newcons lst))
             (set_conns (<[A := p]> (conns lst))
                (set_RAWConn (set_layer (Some (info_layer info)) (RAWConn_ lst)) lst)))
          (Ok None).
  Proof.
    intros Hm Hh Hi Hs HL HP HA Hn Hpost Hup rep La.
    unfold Listener.handshake_segment, Listener.mutex_run.
    lsteps. rewrite Hs. decide_state. rewrite HP, HA, Hn, Hpost. proj. lsteps.
    erewrite bind_quiet by (apply ensure_rep_run; side). proj.
    lsteps. unfold upcoming in *. proj. rewrite Hup. cbn [error_of wire_of]. lsteps. subst rep La. unfold answered, answering. finish.
  Qed.

Lemma handshake_segment_ignored A t (s : World * RAWListener) p info :
    infos (fst s) !! p = Some info -> info_state info = waithttpreq ->
    PSH t = true -> ACK t = true ->
    (len (Payload t) >? 20) && Listener.looks_like_POST (Payload t) = false ->
    Listener.handshake_segment buildHTTPResponse A t p s = mkRun [] s (Ok None).
  Proof.
    intros Hi Hs HP HA Hno. unfold Listener.handshake_segment.
    lsteps. rewrite Hs. decide_state. rewrite HP, HA. proj.
    destruct (len (Payload t) >? 20).
    - cbn [andb] in Hno. rewrite Hno. reflexivity.
    - rewrite !andb_false_r. reflexivity.
  Qed.

Lemma established_segment_run b uaddr t w lst p info L :
    infos w !! p = Some info -> info_state info = established ->
    lays w !! info_layer info = Some L ->
    Listener.established_segment b uaddr t p (w, lst) =
    mkRun [] (set_lays (<[info_layer info := acked t L]> (lays w)) w, lst)
          (Ok (Return (mkRead (snd (copy b (Payload t))) (fst (copy b (Payload t)))
                              (Some uaddr) None))).
  Proof.
    intros Hi Hs HL. unfold Listener.established_segment.
    lsteps. unfold acked, ack_after.
    destruct (Seq t + len (Payload t) >? Ack (tcp L)) eqn:Hc.
    - lsteps. rewrite Hs. decide_state. lsteps. rewrite Hs. decide_state. reflexivity.
    - lsteps. rewrite Hs. decide_state. lsteps. rewrite Hs. decide_state.
      unfold ret. f_equal. f_equal.
      replace (on_tcp (set_Ack (Ack (tcp L))) L) with L by (destruct L as [? ? []]; reflexivity).
      rewrite insert_id by assumption. destruct w; reflexivity.
  Qed.
End ListenerLemmas.

Lemma table_lookup_run {A} (f : RAWListener -> A) w lst :
  mutex lst = false ->
  Listener.mutex_run (s <- get;; ret (f (snd s))) (w, lst) =
  mkRun [Acquire table_mutex; Release table_mutex] (w, lst)
        (Ok (f (set_mutex true lst))).
Proof.
  intros Hm. unfold Listener.mutex_run. lsteps. unfold ret. proj.
  destruct lst; cbn in *; subst; reflexivity.
Qed.

Lemma WriteTo_unknown b addr w lst :
  mutex lst = false -> conns lst !! Addr_String addr = None ->
  Listener.WriteTo b addr (w, lst) =
  mkRun [Acquire table_mutex; Release table_mutex] (w, lst)
        (Ok (0, Some (errorString ("cannot write to " +:+ Addr_String addr)))).
Proof.
  intros Hm Hc. unfold Listener.WriteTo. lsteps. rewrite Hc. unfold ret.
  destruct lst; cbn in *; subst; reflexivity.
Qed.

Lemma WriteTo_known b addr w lst p info L h :
  mutex lst = false -> conns lst !! Addr_String addr = Some p ->
  infos w !! p = Some info -> lays w !! info_layer info = Some L ->
  handle (RAWConn_ lst) = Some h -> lock (RAWConn_ lst) = false ->
  Listener.WriteTo b addr (w, lst) =
  mkRun ([Acquire table_mutex; Release table_mutex; Acquire conn_lock]
           ++ wire_of (upcoming w) (stamped (dressed (call_write b) L))
           ++ [Release conn_lock])
        (sent (info_layer info) (written b L) w,
         set_RAWConn (set_layer (Some (info_layer info)) (RAWConn_ lst)) lst)
        (Ok (len b, error_of (upcoming w))).
Proof.
  intros Hm Hc Hi HL Hh Hk. unfold Listener.WriteTo. lsteps. rewrite Hc. lsteps.
  erewrite promoted_run by (proj; eapply Write_run; side).
  proj. f_equal. destruct lst as [[] ? ? ? ? ?]; cbn in *; subst; reflexivity.
Qed.

Lemma GetMSSByAddr_absent addr w lst :
  mutex lst = false -> conns lst !! Addr_String addr = None ->
  Listener.GetMSSByAddr addr (w, lst) =
  mkRun [Acquire table_mutex; Release table_mutex] (w, lst) (Ok 0).
Proof.
  intros Hm Hc. unfold Listener.GetMSSByAddr, defer. lsteps. rewrite Hc. lsteps. unfold ret.
  destruct lst; cbn in *; subst; reflexivity.
Qed.

Lemma GetMSSByAddr_present addr w lst p info :
  mutex lst = false -> conns lst !! Addr_String addr = Some p ->
  infos w !! p = Some info ->
  Listener.GetMSSByAddr addr (w, lst) =
  mkRun [Acquire table_mutex; Release table_mutex] (w, lst)
        (Ok (if info_mss info >? 0 then info_mss info else 0)).
Proof.
  intros Hm Hc Hi. unfold Listener.GetMSSByAddr, defer. lsteps. rewrite Hc. lsteps.
  destruct (info_mss info >? 0); lsteps; unfold ret;
    destruct lst; cbn in *; subst; reflexivity.
Qed.

Lemma conns_lookup_run A w lst :
  mutex lst = false ->
  Listener.mutex_run (s <- get;; ret (conns (snd s) !! A)) (w, lst) =
  mkRun [Acquire table_mutex; Release table_mutex] (w, lst) (Ok (conns lst !! A)).
Proof. intros Hm. apply (table_lookup_run (fun l => conns l !! A) w lst Hm). Qed.

Lemma newcons_lookup_run A w lst :
  mutex lst = false ->
  Listener.mutex_run (s <- get;; ret (newcons (snd s) !! A)) (w, lst) =
  mkRun [Acquire table_mutex; Release table_mutex] (w, lst) (Ok (newcons lst !! A)).
Proof. intros Hm. apply (table_lookup_run (fun l => newcons l !! A) w lst Hm). Qed.



Ltac lprim2 :=
  first [ lprim
        | erewrite conns_lookup_run by side; proj; reflexivity
        | erewrite newcons_lookup_run by side; proj; reflexivity ].
Ltac lsteps2 := repeat (step1 lprim2).

Section ListenerBody.
Variable buildHTTPResponse : string -> bytes.

Lemma ReadFrom_body_POST b n0 cl w lst p info L h :
    mutex lst = false -> handle (RAWConn_ lst) = Some h ->
    conns lst !! key cl = None -> newcons lst !! key cl = Some p ->
    infos w !! p = Some info -> info_state info = waithttpreq ->
    lays w !! info_layer info = Some L ->
    RST (tcp cl) = false -> FIN (tcp cl) = false ->
    PSH (tcp cl) = true -> ACK (tcp cl) = true ->
    (len (Payload (tcp cl)) >? 20) = true ->
    Listener.looks_like_POST (Payload (tcp cl)) = true ->
    upcoming w = Injected ->
    let rep := default (buildHTTPResponse "") (info_rep info) in
    let La := answering (len (Payload (tcp cl))) L in
    Listener.ReadFrom_body buildHTTPResponse b n0 cl (w, lst) =
    mkRun [Acquire table_mutex; Release table_mutex;
           Acquire table_mutex; Release table_mutex;
           Inject (frame_of (stamped (dressed (call_write rep) La)));
           Acquire table_mutex; Release table_mutex]
          (set_infos (<[p := answered (Seq (tcp cl)) rep info]> (infos w))
             (sent (info_layer info) (undressed (call_write rep) La) w),
           set_newcons (delete (key cl) (newcons lst))
             (set_conns (<[key cl := p]> (conns lst))
                (set_RAWConn (set_layer (Some (info_layer info)) (RAWConn_ lst)) lst)))
          (Ok (Continue (len (Payload (tcp cl)), Some (sender cl)))).
  Proof.
    intros Hm Hh Hc Hn Hi Hs HL HR HF HP HA Hlen Hpost Hup rep La.
    unfold Listener.ReadFrom_body, Listener.point_layer. fold (sender cl). fold (key cl).
    lsteps2. rewrite HR, HF. proj. lsteps2. rewrite Hc. lsteps2. rewrite Hn.
    erewrite bind_loud by (eapply handshake_segment_POST; side).
    subst rep La. finish.
  Qed.

Lemma ReadFrom_body_not_POST b n0 cl w lst p info :
    mutex lst = false ->
    conns lst !! key cl = None -> newcons lst !! key cl = Some p ->
    infos w !! p = Some info -> info_state info = waithttpreq ->
    RST (tcp cl) = false -> FIN (tcp cl) = false ->
    PSH (tcp cl) = true -> ACK (tcp cl) = true ->
    (len (Payload (tcp cl)) >? 20) && Listener.looks_like_POST (Payload (tcp cl)) = false ->
    Listener.ReadFrom_body buildHTTPResponse b n0 cl (w, lst) =
    mkRun [Acquire table_mutex; Release table_mutex;
           Acquire table_mutex; Release table_mutex]
          (w, unpointed lst)
          (Ok (Continue (len (Payload (tcp cl)), Some (sender cl)))).
  Proof.
    intros Hm Hc Hn Hi Hs HR HF HP HA Hno.
    unfold Listener.ReadFrom_body, Listener.point_layer, unpointed. fold (sender cl). fold (key cl).
    lsteps2. rewrite HR, HF. proj. lsteps2. rewrite Hc. lsteps2. rewrite Hn.
    erewrite bind_quiet by (eapply handshake_segment_ignored; side).
    reflexivity.
  Qed.

Lemma ReadFrom_body_established b n0 cl w lst p info L :
    mutex lst = false -> conns lst !! key cl = Some p ->
    infos w !! p = Some info -> info_state info = established ->
    lays w !! info_layer info = Some L ->
    RST (tcp cl) = false -> FIN (tcp cl) = false ->
    (len (Payload (tcp cl)) =? 0) = false ->
    Listener.ReadFrom_body buildHTTPResponse b n0 cl (w, lst) =
    mkRun [Acquire table_mutex; Release table_mutex]
          (set_lays (<[info_layer info := acked (tcp cl) L]> (lays w)) w, unpointed lst)
          (Ok (Return (mkRead (snd (copy b (Payload (tcp cl))))
                              (fst (copy b (Payload (tcp cl))))
                              (Some (sender cl)) None))).
  Proof.
    intros Hm Hc Hi Hs HL HR HF Hlen.
    unfold Listener.ReadFrom_body, Listener.point_layer, unpointed. fold (sender cl). fold (key cl).
    lsteps2. rewrite HR, HF. proj. lsteps2. rewrite Hc, Hlen. proj.
    erewrite established_segment_run by side. reflexivity.
  Qed.
End ListenerBody.

(** ** Reading from the channel *)


Lemma readLayers_scanned w c cl q :
  scanning c = (Scanned cl, q) ->
  readLayers (w, c) = mkRun [] (w, set_packets q c) (Ok (inl cl)).
Proof.
  unfold scanning. intros H. unfold readLayers.
  erewrite bind_quiet by reflexivity. cbn [snd]. rewrite H. cbn [fst snd].
  erewrite bind_quiet by reflexivity. reflexivity.
Qed.

Lemma readLayers_timeout w c q l L :
  scanning c = (ScanTimeout, q) ->
  layer c = Some l -> lays w !! l = Some L ->
  readLayers (w, c) =
  mkRun [] (w, set_packets q c)
        (Ok (inr (timeoutErr ("read from " +:+
                   Addr_String (mkUDPAddr (DstIP (ip4 L)) (DstPort (tcp L))))))).
Proof.
  unfold scanning. intros H Hl HL. unfold readLayers.
  erewrite bind_quiet by reflexivity. cbn [snd]. rewrite H. cbn [fst snd].
  erewrite bind_quiet by reflexivity.
  erewrite bind_quiet by (eapply RemoteAddr_run; side). reflexivity.
Qed.

Lemma readLayers_closed w c q :
  scanning c = (ScanClosed, q) ->
  readLayers (w, c) =
  mkRun [] (w, set_packets q c) (Ok (inr (errorString "read from closed connection"))).
Proof.
  unfold scanning. intros H. unfold readLayers.
  erewrite bind_quiet by reflexivity. cbn [snd]. rewrite H. cbn [fst snd].
  erewrite bind_quiet by reflexivity. reflexivity.
Qed.

Lemma readLayers_empty w c q :
  scanning c = (ScanEmpty, q) ->
  readLayers (w, c) = mkRun [] (w, set_packets q c) Park.
Proof.
  unfold scanning. intros H. unfold readLayers.
  erewrite bind_quiet by reflexivity. cbn [snd]. rewrite H. cbn [fst snd].
  erewrite bind_quiet by reflexivity. reflexivity.
Qed.

(** What [scan] returns comes from the channel, and what it leaves is a
    part of the channel. *)
Lemma scan_spec timed ign q :
  (forall x, In x (snd (scan timed ign q)) -> In x q) /\
  (forall cl, fst (scan timed ign q) = Scanned cl ->
     exists p, In (Captured (Some p)) q /\ pk_tcp p = Some (tcp cl) /\
               pk_ip4 p = Some (ip4 cl) /\ pk_eth p = eth cl /\
               (length (snd (scan timed ign q)) < length q)%nat).
Proof.
  induction q as [|a q [IH1 IH2]]; cbn [scan].
  - split; [tauto | intros ? [=]].
  - assert (Hrec :
      (forall x, In x (snd (scan timed ign q)) -> In x (a :: q)) /\
      (forall cl, fst (scan timed ign q) = Scanned cl ->
         exists p, In (Captured (Some p)) (a :: q) /\ pk_tcp p = Some (tcp cl) /\
                   pk_ip4 p = Some (ip4 cl) /\ pk_eth p = eth cl /\
                   (length (snd (scan timed ign q)) < length (a :: q))%nat)).
    { split.
      - intros x Hx. right. auto.
      - intros cl Hcl. destruct (IH2 cl Hcl) as (p & ? & ? & ? & ? & ?).
        exists p. cbn [length]. repeat split; auto. right; auto. }
    destruct a as [[p|]| |].
    + destruct (bool_decide (pk_eth p = None) && negb (pk_loop p)); [exact Hrec|].
      destruct (pk_ip4 p) as [ip|] eqn:Hip; [|exact Hrec].
      destruct (pk_tcp p) as [t|] eqn:Ht; [|exact Hrec].
      destruct (ign && RST t); [exact Hrec|].
      cbn [fst snd]. split.
      * intros x Hx. right; exact Hx.
      * intros cl [= <-]. exists p. cbn [tcp ip4 eth length].
        repeat split; auto. left; reflexivity.
    + cbn [fst snd]. split; [intros x Hx; right; exact Hx | intros ? [=]].
    + cbn [fst snd]. split; [intros x Hx; exact Hx | intros ? [=]].
    + destruct timed; [|exact Hrec].
      cbn [fst snd]. split; [intros x Hx; right; exact Hx | intros ? [=]].
Qed.

(** ** Results that are not [Ok] stop a computation where it is *)

Lemma final_bind_ok {S A B} (m : M S A) (f : A -> M S B) s t1 s1 a :
  m s = mkRun t1 s1 (Ok a) -> final (bind m f s) = final (f a s1).
Proof. intros H. unfold bind. rewrite H. destruct (f a s1); reflexivity. Qed.

Lemma final_bind_stop {S A B} (m : M S A) (f : A -> M S B) s t1 s1 res :
  m s = mkRun t1 s1 res -> (forall a, res <> Ok a) -> final (bind m f s) = s1.
Proof.
  intros H Hn. unfold bind. rewrite H. destruct res; try reflexivity.
  exfalso. eapply Hn. reflexivity.
Qed.

(** ** The ack cursor along a whole read *)


Lemma len_nonneg {A} (l : list A) : 0 <= len l.
Proof. unfold len. lia. Qed.

Lemma ack_after_max a s n :
  0 <= s -> 0 <= n -> s + n < 4294967296 -> ack_after a s n = Z.max a (s + n).
Proof.
  intros Hs Hn Hw. unfold ack_after, u32.
  rewrite (Z.mod_small n) by lia. rewrite (Z.mod_small (s + n)) by lia.
  destruct (s + n >? a) eqn:Hc; lia.
Qed.

Lemma ReadFrom_loop_ack_monotone fuel b : forall w c l L h,
  layer c = Some l -> lays w !! l = Some L -> handle c = Some h ->
  wrap_free (packets c) ->
  exists L', lays (fst (final (ReadFrom_loop fuel b (w, c)))) !! l = Some L' /\
             Ack (tcp L) <= Ack (tcp L').
Proof.
  induction fuel as [|fuel IH]; intros w c l L h Hl HL Hh Hw.
  - exists L. split; [exact HL | lia].
  - cbn [ReadFrom_loop].
    destruct (scanning c) as [o q] eqn:Hscan.
    pose proof (scan_spec (bool_decide (is_Some (rtimer c))) (IgnRST (r c)) (packets c))
      as [Hsub Hcl].
    unfold scanning in Hscan. rewrite Hscan in Hsub, Hcl. cbn [fst snd] in Hsub, Hcl.
    assert (Hw' : wrap_free q).
    { intros p t Hin Ht. apply (Hw p t); auto. }
    destruct o as [cl| | |].
    + erewrite final_bind_ok by (apply readLayers_scanned; exact Hscan).
      destruct (Hcl cl eq_refl) as (p & Hin & Htcp & _).
      destruct (Hw p (tcp cl) Hin Htcp) as [Hs0 Hs1].
      destruct (SYN (tcp cl) && ACK (tcp cl)) eqn:H1.
      * (* a stray SYN+ACK: a bare ACK goes out, the cursor stays *)
        assert (HL1 : lays (sent l (undressed call_sendAck L) w) !! l
                      = Some (undressed call_sendAck L)).
        { unfold sent. cbn [lays set_script set_lays]. apply lookup_insert_eq. }
        assert (Hsame : Ack (tcp (undressed call_sendAck L)) = Ack (tcp L)).
        { destruct L as [? ? []]; reflexivity. }
        destruct (error_of (upcoming w)) as [e|] eqn:He.
        -- erewrite final_bind_ok
             by (erewrite ReadFrom_body_synack by (cbn [layer handle set_packets]; eassumption);
                 rewrite He; reflexivity).
           exists (undressed call_sendAck L). split; [exact HL1 | lia].
        -- erewrite final_bind_ok
             by (erewrite ReadFrom_body_synack by (cbn [layer handle set_packets]; eassumption);
                 rewrite He; reflexivity).
           destruct (IH (sent l (undressed call_sendAck L) w) (set_packets q c) l
                        (undressed call_sendAck L) h) as (L' & HL' & Hle); auto.
           exists L'. split; [exact HL' | lia].
      * destruct (negb (PSH (tcp cl)) || negb (ACK (tcp cl))
                  || (Seq (tcp cl) =? hseqn c)) eqn:H2.
        -- (* filtered *)
           erewrite final_bind_ok by (apply ReadFrom_body_filtered; [exact H1 | exact H2]).
           apply (IH w (set_packets q c) l L h); auto.
        -- destruct (len (Payload (tcp cl)) >? 0) eqn:H3.
           ++ erewrite final_bind_ok
                by (eapply ReadFrom_body_delivers; cbn [layer hseqn set_packets]; eassumption).
              exists (acked (tcp cl) L). split.
              ** cbn [ret final fst lays set_lays]. apply lookup_insert_eq.
              ** change (Ack (tcp (acked (tcp cl) L)))
                   with (ack_after (Ack (tcp L)) (Seq (tcp cl)) (len (Payload (tcp cl)))).
                 rewrite ack_after_max by (auto using len_nonneg). lia.
           ++ erewrite final_bind_ok
                by (eapply ReadFrom_body_empty; cbn [layer hseqn set_packets]; eassumption).
              exists L. split; [exact HL | lia].
    + erewrite final_bind_ok by (eapply readLayers_timeout; eassumption).
      exists L. split; [exact HL | lia].
    + erewrite final_bind_ok by (eapply readLayers_closed; eassumption).
      exists L. split; [exact HL | lia].
    + erewrite final_bind_stop by (first [eapply readLayers_empty; eassumption | discriminate]).
      exists L. split; [exact HL | lia].
Qed.

(** ** The SYN handshake of DialRAW *)





Lemma sends_ok_hd k scr : sends_ok (S k) scr -> hd Injected scr = Injected.
Proof. intros H. specialize (H O ltac:(lia)). destruct scr; exact H. Qed.

Lemma sends_ok_tail k scr : sends_ok (S k) scr -> sends_ok k (tail scr).
Proof.
  intros H i Hi. specialize (H (S i) ltac:(lia)). destruct scr; [destruct i|]; exact H.
Qed.

Section DialLemmas.
Variable buildHTTPRequest : string -> bytes.

Lemma syn_attempt_timeout retry w c l L h q :
    (retry >? 5) = false ->
    layer c = Some l -> lays w !! l = Some L -> handle c = Some h ->
    upcoming w = Injected ->
    scan true (IgnRST (r c)) (packets c) = (ScanTimeout, q) ->
    exists w' c',
      syn_attempt retry (w, c) =
        mkRun [Inject (frame_of (stamped (dressed call_sendSyn L)))] (w', c') (Ok Next) /\
      layer c' = Some l /\ lays w' !! l = Some (undressed call_sendSyn L) /\
      handle c' = Some h /\ udp c' = udp c /\ r c' = r c /\ hseqn c' = hseqn c /\
      lock c' = lock c /\ mss c' = mss c /\
      packets c' = q /\ script w' = tail (script w).
  Proof.
    intros Hr Hl HL Hh Hup Hscan.
    eexists _, _. split.
    - unfold syn_attempt. rewrite Hr.
      erewrite bind_loud by (eapply sendSyn_run; eassumption).
      rewrite Hup. cbn [error_of wire_of].
      erewrite bind_quiet by reflexivity.
      erewrite bind_quiet by reflexivity.
      erewrite bind_quiet.
      2:{ eapply readLayers_timeout.
          - unfold scanning. cbn [rtimer r packets set_rtimer snd fst sent set_src_used].
            exact Hscan.
          - cbn [layer set_rtimer]. exact Hl.
          - cbn [lays set_src_used sent set_script set_lays]. apply lookup_insert_eq. }
      cbn [isTemporaryNetError]. unfold ret. cbn [app]. reflexivity.
    - cbn [layer lays handle udp r hseqn lock mss packets script
           set_packets set_rtimer set_src_used sent set_script set_lays].
      repeat split; auto. apply lookup_insert_eq.
  Qed.

Lemma syn_loop_exhausted k : forall fuel retry w c l L h,
    retry = 6 - Z.of_nat k -> (k <= 6)%nat -> (k < fuel)%nat ->
    layer c = Some l -> lays w !! l = Some L -> handle c = Some h ->
    times_out (IgnRST (r c)) k (packets c) -> sends_ok k (script w) ->
    exists w' c',
      syn_loop fuel retry (w, c) =
        mkRun (map Inject (syn_frames k L)) (w', c')
              (Ok (inl (errorString "retry too many times"))) /\
      layer c' = Some l /\ lays w' !! l = Some (syn_template k L) /\
      handle c' = Some h /\ udp c' = udp c /\ r c' = r c /\ hseqn c' = hseqn c /\
      lock c' = lock c /\ mss c' = mss c /\
      script w' = drop k (script w).
  Proof.
    induction k as [|k IH]; intros fuel retry w c l L h Hr Hk Hf Hl HL Hh Ht Hs.
    - destruct fuel as [|fuel]; [lia|]. cbn [Z.of_nat] in Hr. subst retry.
      exists w, c. split; [reflexivity|]. cbn [syn_template drop]. repeat split; auto.
    - destruct fuel as [|fuel]; [lia|].
      destruct Ht as (q & Hscan & Ht).
      destruct (syn_attempt_timeout retry w c l L h q) as (w1 & c1 & Hrun & Hl1 & HL1 & Hh1
        & Hu1 & Hr1 & Hq1 & Hk1 & Hm1 & Hp1 & Hs1); auto.
      { rewrite Z.gtb_ltb. apply Z.ltb_ge. lia. }
      { eapply sends_ok_hd; eassumption. }
      destruct (IH fuel (retry + 1) w1 c1 l (undressed call_sendSyn L) h)
        as (w' & c' & Hrun' & Hl' & HL' & Hh' & Hu' & Hr' & Hq' & Hk' & Hm' & Hs'); auto; try lia.
      { rewrite Hr1, Hp1. exact Ht. }
      { rewrite Hs1. eapply sends_ok_tail; eassumption. }
      exists w', c'. split.
      + cbn [syn_loop]. erewrite bind_loud by exact Hrun. cbv beta iota.
        rewrite Hrun'. reflexivity.
      + cbn [syn_template]. repeat split; try congruence.
        rewrite Hs', Hs1. destruct (script w); [destruct k|]; reflexivity.
  Qed.
End DialLemmas.

(** ** Flags *)

Lemma flags_dressed hh L :
  plain L -> flags_of (tcp (stamped (dressed hh L))) = asserted hh.
Proof.
  intros (Hu & He & Hc & Hn). destruct L as [e0 i0 t0]. destruct t0.
  cbn in Hu, He, Hc, Hn. subst.
  destruct hh; reflexivity.
Qed.

Lemma plain_undressed hh L : plain L -> plain (undressed hh L).
Proof.
  intros (Hu & He & Hc & Hn). destruct L as [e0 i0 t0]. destruct t0.
  cbn in Hu, He, Hc, Hn. subst.
  destruct hh; repeat split; reflexivity.
Qed.

Lemma plain_on_tcp_Seq v L : plain L -> plain (on_tcp (set_Seq v) L).
Proof. intros H. destruct L as [e0 i0 t0]. destruct t0. exact H. Qed.

Lemma plain_syn_template k : forall L, plain L -> plain (syn_template k L).
Proof.
  induction k as [|k IH]; intros L H; cbn [syn_template];
    [exact H | apply IH, plain_undressed, H].
Qed.

Lemma syn_frames_flags k : forall L,
  plain L -> Forall (fun f => flags_of (fr_tcp f) = [fSYN]) (syn_frames k L).
Proof.
  induction k as [|k IH]; intros L H; cbn [syn_frames]; constructor.
  - exact (flags_dressed call_sendSyn L H).
  - apply IH, plain_undressed, H.
Qed.

Lemma syn_frames_length k L : length (syn_frames k L) = k.
Proof. revert L. induction k as [|k IH]; intros L; cbn [syn_frames length]; auto. Qed.

Lemma close_run w c l L h u :
  udp c = Some u -> handle c = Some h -> layer c = Some l -> lays w !! l = Some L ->
  close (w, c) =
  mkRun (wire_of (upcoming w) (stamped (dressed call_sendFin L)))
        (sent l (undressed call_sendFin L) w,
         set_handle (Some (mkHandle true)) (set_udp (Some (mkUDPConn true)) c))
        (Ok (if udp_closed u then Some (foreignErr "use of closed network connection")
             else None)).
Proof.
  intros Hu Hh Hl HL. unfold close.
  erewrite bind_quiet by reflexivity. cbn [snd]. rewrite Hu, Hh.
  steps prim3. unfold ret. rewrite app_nil_r. reflexivity.
Qed.

Section DialTheorem.
Variable buildHTTPRequest : string -> bytes.


Lemma first_template_plain cfg e local remote w :
    plain (first_template cfg e local remote w).
  Proof. repeat split; reflexivity. Qed.

Lemma dial_established_exhausted cfg u h q e local remote w :
    times_out (IgnRST cfg) 6 q -> sends_ok 6 (script w) ->
    let L0 := first_template cfg e local remote w in
    exists w' c',
      dial_established buildHTTPRequest cfg e local remote (w, dial_conn cfg u h q) =
        mkRun (map Inject (syn_frames 6 L0)
                 ++ wire_of (nth 6 (script w) Injected)
                      (stamped (dressed call_sendFin (syn_template 6 L0))))
              (w', c') (Ok (Some (errorString "retry too many times"))) /\
      udp c' = Some (mkUDPConn true) /\ handle c' = Some (mkHandle true) /\
      rtimer c' = None.
  Proof.
    intros Ht Hs L0. unfold dial_established, dial_phases, Int63, rand_uint32, new_layers.
    steps prim.
    match goal with
    | |- context [bind (syn_loop 7 0) _ (?w1, ?c1)] =>
        destruct (syn_loop_exhausted 6 7 0 w1 c1 (brk w) L0 h)
          as (w' & c' & Hrun & Hl' & HL' & Hh' & Hu' & Hr' & Hq' & Hk' & Hm' & Hs')
    end; try reflexivity; try lia.
    { proj. apply lookup_insert_eq. }
    { exact Ht. }
    { exact Hs. }
    cbn [script set_lays set_brk set_src_used set_entropy_used fst snd] in Hs'.
    cbn [udp set_layer dial_conn] in Hu'.
    erewrite bind_loud by exact Hrun. cbv beta iota.
    unfold dial_deferred, Close. steps prim.
    erewrite bind_loud
      by (eapply (close_run w' (set_rtimer None c')); cbn [udp handle layer set_rtimer];
          eassumption).
    steps prim.
    eexists _, _. split.
    - unfold ret, upcoming. rewrite Hs'. rewrite app_nil_r.
      replace (hd Injected (drop 6 (script w))) with (nth 6 (script w) Injected)
        by (destruct (script w) as [|? [|? [|? [|? [|? [|? [|? ?]]]]]]]; reflexivity).
      reflexivity.
    - cbn [udp handle rtimer set_handle set_udp set_rtimer]. auto.
  Qed.
End DialTheorem.

(** * The claims *)


Lemma frames_wire_of o L :
  frames (wire_of o L) = match o with Injected => [frame_of L] | _ => [] end.
Proof. destruct o; reflexivity. Qed.

Lemma u32_add_u32 a n : u32 (a + u32 n) = u32 (a + n).
Proof. unfold u32. apply Zplus_mod_idemp_r. Qed.

Lemma sent_lookup l L w : lays (sent l L w) !! l = Some L.
Proof. unfold sent. cbn [lays set_script set_lays]. apply lookup_insert_eq. Qed.

(** C5: every frame a send helper puts on the wire carries exactly the
    flags that helper asserts (SYN; SYN+ACK; ACK; PSH+ACK; FIN; RST),
    whatever flags an earlier send left in the template: [updateTCP]
    clears FIN, SYN, RST, PSH and ACK first.  The template is [plain] (the
    four bits no code of the file writes are clear, as in every template
    the file builds) and stays so.  When the send goes through there is
    exactly one frame. *)
Theorem flag_discipline hh w c l L h :
  layer c = Some l -> lays w !! l = Some L -> handle c = Some h -> plain L ->
  let x := call hh (w, c) in
  (forall f, In f (frames (trace x)) -> flags_of (fr_tcp f) = asserted hh) /\
  (upcoming w = Injected -> exists f, frames (trace x) = [f]) /\
  (exists L', lays (fst (final x)) !! l = Some L' /\ plain L' /\
              layer (snd (final x)) = Some l /\ handle (snd (final x)) = Some h).
Proof.
  intros Hl HL Hh Hp x. subst x. rewrite (helper_run hh w c l L h Hl HL Hh).
  cbn [trace final fst snd]. rewrite frames_wire_of. repeat split.
  - intros f Hf. destruct (upcoming w); cbn in Hf; try tauto.
    destruct Hf as [<-|[]]. apply flags_dressed, Hp.
  - intros ->. eexists. reflexivity.
  - exists (undressed hh L). repeat split; auto using sent_lookup; apply plain_undressed, Hp.
Qed.

(** C7: two sends on one template, the second starting from the IPv4 ID
    the first left behind: the ID of the later frame is the ID of the
    earlier one plus one, modulo 2^16. *)
Theorem ipv4_id_progression h1 h2 w1 c1 w2 c2 l L1 L2 hd1 hd2 :
  layer c1 = Some l -> lays w1 !! l = Some L1 -> handle c1 = Some hd1 ->
  layer c2 = Some l -> lays w2 !! l = Some L2 -> handle c2 = Some hd2 ->
  (forall L1', lays (fst (final (call h1 (w1, c1)))) !! l = Some L1' ->
               Id (ip4 L2) = Id (ip4 L1')) ->
  forall f1 f2,
    In f1 (frames (trace (call h1 (w1, c1)))) ->
    In f2 (frames (trace (call h2 (w2, c2)))) ->
    Id (fr_ip4 f2) = (Id (fr_ip4 f1) + 1) mod 65536.
Proof.
  intros Hl1 HL1 Hh1 Hl2 HL2 Hh2 Hsame f1 f2.
  rewrite (helper_run h1 w1 c1 l L1 hd1 Hl1 HL1 Hh1) in *.
  rewrite (helper_run h2 w2 c2 l L2 hd2 Hl2 HL2 Hh2).
  cbn [trace final fst] in *. rewrite !frames_wire_of.
  specialize (Hsame _ (sent_lookup _ _ _)).
  intros H1 H2.
  destruct (upcoming w1); cbn in H1; try tauto. destruct H1 as [<-|[]].
  destruct (upcoming w2); cbn in H2; try tauto. destruct H2 as [<-|[]].
  assert (E1 : Id (ip4 (undressed h1 L1)) = u16 (Id (ip4 L1) + 1))
    by (destruct h1; reflexivity).
  assert (E2 : forall hh L, Id (fr_ip4 (frame_of (stamped (dressed hh L)))) = u16 (Id (ip4 L) + 1))
    by (intros hh L; destruct hh; reflexivity).
  rewrite !E2. rewrite Hsame, E1. reflexivity.
Qed.

Lemma write_frame_facts b L :
  plain L ->
  flags_of (tcp (stamped (dressed (call_write b) L))) = [fPSH; fACK] /\
  Payload (tcp (stamped (dressed (call_write b) L))) = b /\
  Seq (tcp (stamped (dressed (call_write b) L))) = Seq (tcp L).
Proof.
  intros Hp. split; [exact (flags_dressed (call_write b) L Hp)|].
  destruct L as [? ? []]; split; reflexivity.
Qed.

Lemma written_Seq b L : Seq (tcp (written b L)) = u32 (Seq (tcp L) + len b).
Proof. rewrite <- u32_add_u32. destruct L as [? ? []]. reflexivity. Qed.

(** C1 (as amended): [Write] on a dial-side connection and [WriteTo] on a
    listener for a known peer take the connection's mutex and release it,
    hand one PSH+ACK segment carrying the payload to [sendPacket] (it is
    on the wire when the send goes through, and nothing is when it fails),
    return the payload length with the send's error, and advance the
    sequence number by the payload length modulo 2^32 whether or not the
    send went through. *)
Theorem Write_seq_accounting :
  (forall b w c l L h,
     layer c = Some l -> lays w !! l = Some L -> handle c = Some h ->
     lock c = false -> plain L ->
     let x := Write b (w, c) in
     let segment := stamped (dressed (call_write b) L) in
     result x = Ok (len b, error_of (upcoming w)) /\
     trace x = Acquire conn_lock :: wire_of (upcoming w) segment ++ [Release conn_lock] /\
     flags_of (tcp segment) = [fPSH; fACK] /\ Payload (tcp segment) = b /\
     (exists L', lays (fst (final x)) !! l = Some L' /\
                 Seq (tcp L') = u32 (Seq (tcp L) + len b)) /\
     lock (snd (final x)) = false) /\
  (forall b addr w lst p info L h,
     mutex lst = false -> conns lst !! Addr_String addr = Some p ->
     infos w !! p = Some info -> lays w !! info_layer info = Some L ->
     handle (RAWConn_ lst) = Some h -> lock (RAWConn_ lst) = false -> plain L ->
     let x := Listener.WriteTo b addr (w, lst) in
     let segment := stamped (dressed (call_write b) L) in
     result x = Ok (len b, error_of (upcoming w)) /\
     trace x = [Acquire table_mutex; Release table_mutex; Acquire conn_lock]
                 ++ wire_of (upcoming w) segment ++ [Release conn_lock] /\
     flags_of (tcp segment) = [fPSH; fACK] /\ Payload (tcp segment) = b /\
     (exists L', lays (fst (final x)) !! info_layer info = Some L' /\
                 Seq (tcp L') = u32 (Seq (tcp L) + len b)) /\
     lock (RAWConn_ (snd (final x))) = false).
Proof.
  split.
  - intros b w c l L h Hl HL Hh Hk Hp x segment. subst x segment.
    rewrite (Write_run b w c l L h Hl HL Hh Hk). cbn [result trace final fst snd].
    destruct (write_frame_facts b L Hp) as (Hf & Hpay & _).
    repeat split; auto.
    exists (written b L). split; [apply sent_lookup | apply written_Seq].
  - intros b addr w lst p info L h Hm Hc Hi HL Hh Hk Hp x segment. subst x segment.
    rewrite (WriteTo_known b addr w lst p info L h Hm Hc Hi HL Hh Hk).
    cbn [result trace final fst snd].
    destruct (write_frame_facts b L Hp) as (Hf & Hpay & _).
    repeat split; auto.
    exists (written b L). split; [apply sent_lookup | apply written_Seq].
Qed.

(** C8: [WriteTo] for an address that is not in [conns] returns 0 and the
    error "cannot write to <addr>", puts no frame on the wire and leaves
    the world and the listener as they were. *)
Theorem WriteTo_unknown_peer b addr w lst :
  mutex lst = false -> conns lst !! Addr_String addr = None ->
  let x := Listener.WriteTo b addr (w, lst) in
  result x = Ok (0, Some (errorString ("cannot write to " +:+ Addr_String addr))) /\
  frames (trace x) = [] /\
  final x = (w, lst).
Proof.
  intros Hm Hc x. subst x. rewrite (WriteTo_unknown b addr w lst Hm Hc).
  repeat split; reflexivity.
Qed.


Section FirstSyn.
Variable buildHTTPResponse : string -> bytes.

Lemma getMss_run {S} t (s : S) m :
    getMssFromOptions (Options t) = Ok m ->
    getMssFromTcpLayer t s = mkRun [] s (Ok m).
  Proof. intros H. unfold getMssFromTcpLayer. rewrite H. reflexivity. Qed.

Lemma ReadFrom_body_SYN b n0 cl w lst h m :
    mutex lst = false -> handle (RAWConn_ lst) = Some h ->
    conns lst !! key cl = None -> newcons lst !! key cl = None ->
    RST (tcp cl) = false -> FIN (tcp cl) = false ->
    SYN (tcp cl) = true -> ACK (tcp cl) = false -> PSH (tcp cl) = false ->
    getMssFromOptions (Options (tcp cl)) = Ok m ->
    upcoming w = Injected ->
    let x := Listener.ReadFrom_body buildHTTPResponse b n0 cl (w, lst) in
    result x = Ok (Continue (len (Payload (tcp cl)), Some (sender cl))) /\
    mutex (snd (final x)) = false /\
    conns (snd (final x)) !! key cl = None /\
    newcons (snd (final x)) !! key cl = Some (S (brk w)) /\
    infos (fst (final x)) !! S (brk w) = Some (mkInfo synreceived (brk w) None 0 m).
  Proof.
    intros Hm Hh Hc Hn HR HF HS HA HP Hmss Hup x. subst x.
    unfold Listener.ReadFrom_body, Listener.point_layer. fold (sender cl). fold (key cl).
    lsteps2. rewrite HR, HF. proj. lsteps2. rewrite Hc. lsteps2. rewrite Hn.
    unfold Listener.unknown_segment, Int63, new_layers, Listener.new_info, rand_uint32,
      Listener.point_layer, Listener.mutex_run.
    lsteps2. rewrite HS, HA, HP, HF. proj. lsteps2.
    erewrite bind_quiet by (apply getMss_run; exact Hmss).
    lsteps2.
    unfold upcoming in *. proj. rewrite Hup. cbn [error_of wire_of]. lsteps2.
    unfold ret. proj. repeat split; first [assumption | apply lookup_insert_eq].
  Qed.
End FirstSyn.

(** C10: [GetMSSByAddr] answers 0 for a peer that is in [newcons] only,
    and for a peer in [conns] whose recorded MSS is not positive; right
    after a peer's first SYN its record holds the MSS of that SYN, in
    [newcons], and [GetMSSByAddr] still answers 0. *)
Theorem GetMSSByAddr_pre_established :
  (forall addr w lst p info,
     mutex lst = false -> conns lst !! Addr_String addr = None ->
     newcons lst !! Addr_String addr = Some p -> infos w !! p = Some info ->
     result (Listener.GetMSSByAddr addr (w, lst)) = Ok 0) /\
  (forall addr w lst p info,
     mutex lst = false -> conns lst !! Addr_String addr = Some p ->
     infos w !! p = Some info -> info_mss info <= 0 ->
     result (Listener.GetMSSByAddr addr (w, lst)) = Ok 0) /\
  (forall buildHTTPResponse b n0 cl w lst h m,
     mutex lst = false -> handle (RAWConn_ lst) = Some h ->
     conns lst !! key cl = None -> newcons lst !! key cl = None ->
     RST (tcp cl) = false -> FIN (tcp cl) = false ->
     SYN (tcp cl) = true -> ACK (tcp cl) = false -> PSH (tcp cl) = false ->
     getMssFromOptions (Options (tcp cl)) = Ok m ->
     upcoming w = Injected ->
     let s' := final (Listener.ReadFrom_body buildHTTPResponse b n0 cl (w, lst)) in
     (exists p info, newcons (snd s') !! key cl = Some p /\
                     infos (fst s') !! p = Some info /\ info_mss info = m) /\
     result (Listener.GetMSSByAddr (sender cl) s') = Ok 0).
Proof.
  split; [|split].
  - intros addr w lst p info Hm Hc _ _.
    rewrite (GetMSSByAddr_absent addr w lst Hm Hc). reflexivity.
  - intros addr w lst p info Hm Hc Hi Hle.
    rewrite (GetMSSByAddr_present addr w lst p info Hm Hc Hi). cbn [result].
    destruct (info_mss info >? 0) eqn:E; [|reflexivity].
    apply Z.gtb_lt in E. lia.
  - intros bld b n0 cl w lst h m Hm Hh Hc Hn HR HF HS HA HP Hmss Hup s'.
    destruct (ReadFrom_body_SYN bld b n0 cl w lst h m Hm Hh Hc Hn HR HF HS HA HP Hmss Hup)
      as (_ & Hm' & Hc' & Hn' & Hi').
    fold s' in Hm', Hc', Hn', Hi'. split.
    + eexists _, _. repeat split; [exact Hn' | exact Hi' | reflexivity].
    + destruct s' as [w' lst']. cbn [fst snd] in *.
      rewrite (GetMSSByAddr_absent (sender cl) w' lst' Hm' Hc'). reflexivity.
Qed.

(** ** Whole reads *)

Lemma scanning_head c p ip t q :
  packets c = Captured (Some p) :: q ->
  pk_eth p <> None \/ pk_loop p = true ->
  pk_ip4 p = Some ip -> pk_tcp p = Some t ->
  IgnRST (r c) && RST t = false ->
  scanning c = (Scanned (mkLayers (pk_eth p) ip t), q).
Proof.
  intros Hq Hlink Hip Ht Hign. unfold scanning. rewrite Hq. cbn [scan].
  assert (bool_decide (pk_eth p = None) && negb (pk_loop p) = false) as ->.
  { destruct Hlink as [He|Hlo].
    - rewrite bool_decide_eq_false_2 by exact He. reflexivity.
    - rewrite Hlo. apply andb_false_r. }
  rewrite Hip, Ht, Hign. reflexivity.
Qed.

Lemma stop_rtimer_run w c :
  stop_rtimer (w, c) = mkRun [] (w, set_rtimer None c) (Ok tt).
Proof.
  unfold stop_rtimer. erewrite bind_quiet by reflexivity. cbn [snd].
  destruct c as [? ? ? [] ? ? ? ? ? ?]; reflexivity.
Qed.

Lemma ReadFrom_loop_step fuel b w c cl q :
  scanning c = (Scanned cl, q) ->
  ReadFrom_loop (S fuel) b (w, c) =
  bind (ReadFrom_body b cl)
       (fun y => match y with
                 | Continue _ => ReadFrom_loop fuel b
                 | Return res => ret res
                 end) (w, set_packets q c).
Proof.
  intros H. cbn [ReadFrom_loop].
  erewrite bind_quiet by (apply readLayers_scanned; exact H). reflexivity.
Qed.

Lemma ReadFrom_returns b w c t s1 res :
  ReadFrom_loop (S (length (packets c))) b (w, c) = mkRun t s1 (Ok res) ->
  ReadFrom b (w, c) = mkRun t (fst s1, set_rtimer None (snd s1)) (Ok res).
Proof.
  intros H. unfold ReadFrom, defer.
  erewrite bind_loud by (cbn [snd]; exact H).
  destruct s1 as [w1 c1].
  erewrite bind_quiet by apply stop_rtimer_run.
  unfold ret. rewrite app_nil_r. reflexivity.
Qed.

Lemma ReadFrom_first_delivered b w c l L cl q :
  scanning c = (Scanned cl, q) ->
  layer c = Some l -> lays w !! l = Some L ->
  SYN (tcp cl) && ACK (tcp cl) = false ->
  negb (PSH (tcp cl)) || negb (ACK (tcp cl)) || (Seq (tcp cl) =? hseqn c) = false ->
  (len (Payload (tcp cl)) >? 0) = true ->
  ReadFrom b (w, c) =
  mkRun [] (set_lays (<[l := acked (tcp cl) L]> (lays w)) w,
            set_rtimer None (set_packets q c))
        (Ok (mkRead (snd (copy b (Payload (tcp cl)))) (fst (copy b (Payload (tcp cl))))
                    (Some (peer_of c L cl)) None)).
Proof.
  intros Hscan Hl HL H1 H2 H3.
  erewrite ReadFrom_returns.
  2:{ rewrite (ReadFrom_loop_step _ b w c cl q Hscan).
      erewrite bind_quiet
        by (eapply ReadFrom_body_delivers; cbn [layer hseqn set_packets]; eassumption).
      reflexivity. }
  reflexivity.
Qed.

Lemma copy_short (b p : bytes) :
  (length b < length p)%nat -> copy b p = (take (length b) p, len b).
Proof.
  intros H. unfold copy. rewrite drop_ge by lia. rewrite app_nil_r.
  f_equal. unfold len. lia.
Qed.

Section ListenerRead.
Variable buildHTTPResponse : string -> bytes.

Lemma Listener_ReadFrom_first_delivered b w lst cl q p info L :
    scanning (RAWConn_ lst) = (Scanned cl, q) ->
    mutex lst = false -> conns lst !! key cl = Some p ->
    infos w !! p = Some info -> info_state info = established ->
    lays w !! info_layer info = Some L ->
    RST (tcp cl) = false -> FIN (tcp cl) = false ->
    (len (Payload (tcp cl)) =? 0) = false ->
    Listener.ReadFrom buildHTTPResponse b (w, lst) =
    mkRun [Acquire table_mutex; Release table_mutex]
          (set_lays (<[info_layer info := acked (tcp cl) L]> (lays w)) w,
           unpointed (set_RAWConn (set_packets q (RAWConn_ lst)) lst))
          (Ok (mkRead (snd (copy b (Payload (tcp cl)))) (fst (copy b (Payload (tcp cl))))
                      (Some (sender cl)) None)).
  Proof.
    intros Hscan Hm Hc Hi Hs HL HR HF Hn.
    unfold Listener.ReadFrom. cbn [Listener.ReadFrom_loop].
    erewrite bind_quiet
      by (eapply promoted_run; apply readLayers_scanned; exact Hscan).
    cbv beta iota.
    erewrite bind_loud
      by (eapply ReadFrom_body_established; cbn [mutex conns set_RAWConn]; eassumption).
    reflexivity.
  Qed.
End ListenerRead.

(** C6: on a dial-side connection a captured PSH+ACK segment whose
    sequence number is [hseqn] makes the loop of [ReadFrom] go round
    again with nothing changed: the read returns exactly what it returns
    without that segment on the channel. *)
Theorem duplicate_of_hseqn_filtered b w c p ip t q :
  packets c = Captured (Some p) :: q ->
  pk_eth p <> None \/ pk_loop p = true ->
  pk_ip4 p = Some ip -> pk_tcp p = Some t ->
  IgnRST (r c) && RST t = false ->
  PSH t = true -> ACK t = true -> SYN t = false -> Seq t = hseqn c ->
  ReadFrom_body b (mkLayers (pk_eth p) ip t) (w, set_packets q c)
    = mkRun [] (w, set_packets q c) (Ok (Continue tt)) /\
  ReadFrom b (w, c) = ReadFrom b (w, set_packets q c).
Proof.
  intros Hq Hlink Hip Ht Hign HP HA HS Hseq.
  assert (Hbody : ReadFrom_body b (mkLayers (pk_eth p) ip t) (w, set_packets q c)
                  = mkRun [] (w, set_packets q c) (Ok (Continue tt))).
  { apply ReadFrom_body_filtered; cbn [tcp snd hseqn set_packets].
    - rewrite HS. reflexivity.
    - rewrite HP, HA, Hseq, Z.eqb_refl. reflexivity. }
  split; [exact Hbody|].
  assert (Hloop : ReadFrom_loop (S (length (packets c))) b (w, c)
                  = ReadFrom_loop (S (length q)) b (w, set_packets q c)).
  { rewrite Hq at 1. cbn [length].
    rewrite (ReadFrom_loop_step _ b w c _ q (scanning_head c p ip t q Hq Hlink Hip Ht Hign)).
    erewrite bind_quiet by exact Hbody. reflexivity. }
  unfold ReadFrom, defer, bind. cbn [snd packets set_packets]. rewrite Hloop. reflexivity.
Qed.

Lemma ack_after_in_order a n : (n >? 0) = true -> ack_after a a n = u32 (a + n).
Proof.
  intros H. apply Z.gtb_lt in H. unfold ack_after.
  replace (a + n >? a) with true by (symmetry; apply Z.gtb_lt; lia).
  apply u32_add_u32.
Qed.

(** C9 (as amended): a read (dial-side [ReadFrom]; listener [ReadFrom]
    for a peer in state ESTABLISHED) into a buffer shorter than the
    payload of the captured segment returns the buffer length, hands over
    the first bytes of the payload only, and updates the ack cursor from
    the whole payload as any read does ([ack_after]: sequence number plus
    payload length when that is above the cursor, the cursor as it was
    otherwise): by the full payload length when the segment is in order. *)
Theorem short_buffer_read :
  (forall b w c l L cl q,
     scanning c = (Scanned cl, q) ->
     layer c = Some l -> lays w !! l = Some L ->
     SYN (tcp cl) = false -> PSH (tcp cl) = true -> ACK (tcp cl) = true ->
     Seq (tcp cl) <> hseqn c ->
     (length b < length (Payload (tcp cl)))%nat ->
     let x := ReadFrom b (w, c) in
     let n := len (Payload (tcp cl)) in
     result x = Ok (mkRead (len b) (take (length b) (Payload (tcp cl)))
                           (Some (peer_of c L cl)) None) /\
     packets (snd (final x)) = q /\
     (exists L', lays (fst (final x)) !! l = Some L' /\
                 Ack (tcp L') = ack_after (Ack (tcp L)) (Seq (tcp cl)) n /\
                 (Seq (tcp cl) = Ack (tcp L) -> Ack (tcp L') = u32 (Ack (tcp L) + n)))) /\
  (forall buildHTTPResponse b w lst cl q p info L,
     scanning (RAWConn_ lst) = (Scanned cl, q) ->
     mutex lst = false -> conns lst !! key cl = Some p ->
     infos w !! p = Some info -> info_state info = established ->
     lays w !! info_layer info = Some L ->
     RST (tcp cl) = false -> FIN (tcp cl) = false ->
     (length b < length (Payload (tcp cl)))%nat ->
     let x := Listener.ReadFrom buildHTTPResponse b (w, lst) in
     let n := len (Payload (tcp cl)) in
     result x = Ok (mkRead (len b) (take (length b) (Payload (tcp cl)))
                           (Some (sender cl)) None) /\
     packets (RAWConn_ (snd (final x))) = q /\
     (exists L', lays (fst (final x)) !! info_layer info = Some L' /\
                 Ack (tcp L') = ack_after (Ack (tcp L)) (Seq (tcp cl)) n /\
                 (Seq (tcp cl) = Ack (tcp L) -> Ack (tcp L') = u32 (Ack (tcp L) + n)))).
Proof.
  split.
  - intros b w c l L cl q Hscan Hl HL HS HP HA Hseq Hlen x n. subst x n.
    assert (Hn : (len (Payload (tcp cl)) >? 0) = true)
      by (apply Z.gtb_lt; unfold len; lia).
    rewrite (ReadFrom_first_delivered b w c l L cl q Hscan Hl HL).
    + cbn [result final fst snd packets set_rtimer set_packets lays set_lays].
      rewrite copy_short by exact Hlen. cbn [fst snd]. repeat split.
      exists (acked (tcp cl) L). repeat split.
      * apply lookup_insert_eq.
      * intros E. change (Ack (tcp (acked (tcp cl) L)))
          with (ack_after (Ack (tcp L)) (Seq (tcp cl)) (len (Payload (tcp cl)))).
        rewrite E. apply ack_after_in_order, Hn.
    + rewrite HS. reflexivity.
    + rewrite HP, HA. cbn [negb orb]. apply Z.eqb_neq, Hseq.
    + exact Hn.
  - intros bld b w lst cl q p info L Hscan Hm Hc Hi Hs HL HR HF Hlen x n. subst x n.
    assert (Hn : (len (Payload (tcp cl)) >? 0) = true)
      by (apply Z.gtb_lt; unfold len; lia).
    rewrite (Listener_ReadFrom_first_delivered bld b w lst cl q p info L
               Hscan Hm Hc Hi Hs HL HR HF).
    + cbn [result final fst snd lays set_lays].
      rewrite copy_short by exact Hlen. cbn [fst snd]. repeat split.
      exists (acked (tcp cl) L). repeat split.
      * apply lookup_insert_eq.
      * intros E. change (Ack (tcp (acked (tcp cl) L)))
          with (ack_after (Ack (tcp L)) (Seq (tcp cl)) (len (Payload (tcp cl)))).
        rewrite E. apply ack_after_in_order, Hn.
    + apply Z.eqb_neq. apply Z.gtb_lt in Hn. lia.
Qed.

Lemma ReadFrom_final_world b w c :
  fst (final (ReadFrom b (w, c)))
  = fst (final (ReadFrom_loop (S (length (packets c))) b (w, c))).
Proof.
  unfold ReadFrom, defer, bind. cbn [snd].
  destruct (ReadFrom_loop (S (length (packets c))) b (w, c)) as [t [w1 c1] [a| | |]];
    try reflexivity.
  rewrite stop_rtimer_run. reflexivity.
Qed.

(** C2 (as amended): a data segment delivered by the read path (dial-side
    [ReadFrom]; listener [ReadFrom] for a peer in state ESTABLISHED)
    leaves the ack cursor at [ack_after]: the sum of sequence number and
    payload length is compared with the cursor in 64 bits and stored
    modulo 2^32.  That is the maximum of the two when the sum is below
    2^32, and over a whole dial-side read whose segments stay below 2^32
    the cursor does not decrease. *)
Theorem read_path_ack_update :
  (forall b cl w c l L,
     layer c = Some l -> lays w !! l = Some L ->
     SYN (tcp cl) = false -> PSH (tcp cl) = true -> ACK (tcp cl) = true ->
     Seq (tcp cl) <> hseqn c -> 0 < len (Payload (tcp cl)) ->
     exists L', lays (fst (final (ReadFrom_body b cl (w, c)))) !! l = Some L' /\
                Ack (tcp L') = ack_after (Ack (tcp L)) (Seq (tcp cl)) (len (Payload (tcp cl)))) /\
  (forall buildHTTPResponse b n0 cl w lst p info L,
     mutex lst = false -> conns lst !! key cl = Some p ->
     infos w !! p = Some info -> info_state info = established ->
     lays w !! info_layer info = Some L ->
     RST (tcp cl) = false -> FIN (tcp cl) = false -> 0 < len (Payload (tcp cl)) ->
     exists L', lays (fst (final (Listener.ReadFrom_body buildHTTPResponse b n0 cl (w, lst))))
                  !! info_layer info = Some L' /\
                Ack (tcp L') = ack_after (Ack (tcp L)) (Seq (tcp cl)) (len (Payload (tcp cl)))) /\
  (forall a s n, 0 <= s -> 0 <= n -> s + n < 4294967296 ->
                 ack_after a s n = Z.max a (s + n)) /\
  (forall b w c l L h,
     layer c = Some l -> lays w !! l = Some L -> handle c = Some h ->
     wrap_free (packets c) ->
     exists L', lays (fst (final (ReadFrom b (w, c)))) !! l = Some L' /\
                Ack (tcp L) <= Ack (tcp L')).
Proof.
  repeat split.
  - intros b cl w c l L Hl HL HS HP HA Hseq Hn.
    rewrite (ReadFrom_body_delivers b cl w c l L Hl HL).
    + exists (acked (tcp cl) L). split; [apply lookup_insert_eq | reflexivity].
    + rewrite HS. reflexivity.
    + rewrite HP, HA. cbn [negb orb]. apply Z.eqb_neq, Hseq.
    + apply Z.gtb_lt. lia.
  - intros bld b n0 cl w lst p info L Hm Hc Hi Hs HL HR HF Hn.
    rewrite (ReadFrom_body_established bld b n0 cl w lst p info L Hm Hc Hi Hs HL HR HF).
    + exists (acked (tcp cl) L). split; [apply lookup_insert_eq | reflexivity].
    + apply Z.eqb_neq. lia.
  - exact ack_after_max.
  - intros b w c l L h Hl HL Hh Hw. rewrite ReadFrom_final_world.
    eapply ReadFrom_loop_ack_monotone; eassumption.
Qed.

Lemma frames_app t1 t2 : frames (t1 ++ t2) = frames t1 ++ frames t2.
Proof. unfold frames. apply omap_app. Qed.

Lemma frames_map_Inject fs : frames (map Inject fs) = fs.
Proof. induction fs as [|f fs IH]; [reflexivity|]. cbn. f_equal. exact IH. Qed.

Lemma looks_like_POST_spec payload :
  Listener.looks_like_POST payload = true <->
  take 4 payload = list_byte_of_string "POST" /\
  drop (Z.to_nat (len payload - 4)) payload = CRLFCRLF.
Proof.
  unfold Listener.looks_like_POST, bytes_are. rewrite andb_true_iff.
  rewrite !bool_decide_eq_true. reflexivity.
Qed.

(** What the listener does with the request of a peer in state
    WAIT_HTTP_REQ: a captured PSH+ACK whose payload is longer than 20
    bytes, starts with POST and ends with two CRLF pairs is answered with
    the decoy response in one PSH+ACK frame (the send going through), and
    the record moves to HTTP_REP_SENT and from [newcons] to [conns]; a
    payload that fails any of the three tests changes no record, no
    template and no table and puts nothing on the wire.  Nothing else of
    the payload is looked at. *)
Theorem POST_heuristic buildHTTPResponse b n0 cl w lst p info L h :
  mutex lst = false -> handle (RAWConn_ lst) = Some h ->
  conns lst !! key cl = None -> newcons lst !! key cl = Some p ->
  infos w !! p = Some info -> info_state info = waithttpreq ->
  lays w !! info_layer info = Some L -> plain L ->
  RST (tcp cl) = false -> FIN (tcp cl) = false ->
  PSH (tcp cl) = true -> ACK (tcp cl) = true ->
  upcoming w = Injected ->
  let x := Listener.ReadFrom_body buildHTTPResponse b n0 cl (w, lst) in
  let payload := Payload (tcp cl) in
  let n := len payload in
  let rep := default (buildHTTPResponse "") (info_rep info) in
  let shaped := 20 < n /\ take 4 payload = list_byte_of_string "POST"
                /\ drop (Z.to_nat (n - 4)) payload = CRLFCRLF in
  result x = Ok (Continue (n, Some (sender cl))) /\
  (shaped ->
     (exists f, frames (trace x) = [f] /\ flags_of (fr_tcp f) = [fPSH; fACK] /\
                Payload (fr_tcp f) = rep) /\
     infos (fst (final x)) !! p = Some (answered (Seq (tcp cl)) rep info) /\
     conns (snd (final x)) !! key cl = Some p /\
     newcons (snd (final x)) !! key cl = None /\
     (exists L', lays (fst (final x)) !! info_layer info = Some L' /\
                 Ack (tcp L') = u32 (Ack (tcp L) + n))) /\
  (~ shaped ->
     frames (trace x) = [] /\ fst (final x) = w /\
     conns (snd (final x)) = conns lst /\ newcons (snd (final x)) = newcons lst).
Proof.
  intros Hm Hh Hc Hn Hi Hs HL Hpl HR HF HP HA Hup x payload n rep shaped.
  destruct (len (Payload (tcp cl)) >? 20) eqn:Hlen;
    destruct (Listener.looks_like_POST (Payload (tcp cl))) eqn:Hpost.
  1:{ (* the request is accepted *)
    subst x. rewrite (ReadFrom_body_POST buildHTTPResponse b n0 cl w lst p info L h); auto.
    cbn [result trace final fst snd]. split; [reflexivity|]. split.
    - intros _. repeat split.
      + eexists. split; [reflexivity|].
        destruct (write_frame_facts rep (answering n L)) as (Hf & Hpay & _).
        { destruct L as [? ? []]. exact Hpl. }
        split; [exact Hf | exact Hpay].
      + cbn [infos set_infos]. apply lookup_insert_eq.
      + cbn [conns set_newcons set_conns]. apply lookup_insert_eq.
      + cbn [newcons set_newcons]. apply lookup_delete_eq.
      + eexists. split.
        * cbn [lays set_infos]. apply sent_lookup.
        * rewrite <- u32_add_u32. destruct L as [? ? []]. reflexivity.
    - intros Hno. exfalso. apply Hno. split; [apply Z.gtb_lt, Hlen|].
      apply looks_like_POST_spec, Hpost. }
  all: subst x;
    rewrite (ReadFrom_body_not_POST buildHTTPResponse b n0 cl w lst p info);
    auto; [| rewrite Hlen, Hpost; reflexivity];
    cbn [result trace final fst snd]; (split; [reflexivity|]); split;
    [ intros (Hgt & Hshape); exfalso
    | intros _; repeat split ].
  - apply looks_like_POST_spec in Hshape. fold payload in Hpost. congruence.
  - apply Z.gtb_lt in Hgt. fold payload n in Hlen. congruence.
  - apply Z.gtb_lt in Hgt. fold payload n in Hlen. congruence.
Qed.

Lemma fr_tcp_frame_of L : fr_tcp (frame_of L) = tcp L.
Proof. reflexivity. Qed.

Lemma fr_ip4_frame_of L : fr_ip4 (frame_of L) = ip4 L.
Proof. reflexivity. Qed.

(** * At most six SYN transmissions in DialRAW *)

Lemma syn_count_app t1 t2 : syn_count (t1 ++ t2) = (syn_count t1 + syn_count t2)%nat.
Proof.
  induction t1 as [|e t1 IH]; [reflexivity|].
  destruct e; cbn [app syn_count]; rewrite IH; lia.
Qed.

Section Bounds.
Context {S : Type}.

Lemma at_most_bind {A B} k1 k2 (m : M S A) (f : A -> M S B) :
  at_most k1 m -> (forall a, at_most k2 (f a)) -> at_most (k1 + k2) (bind m f).
Proof.
  intros Hm Hf s. specialize (Hm s). unfold bind.
  destruct (m s) as [t1 s1 [a| | |]]; cbn [trace] in *; try lia.
  specialize (Hf a s1). destruct (f a s1) as [t2 s2 r2]. cbn [trace] in *.
  rewrite syn_count_app. lia.
Qed.

Lemma at_most_bind0 {A B} k (m : M S A) (f : A -> M S B) :
  at_most 0 m -> (forall a, at_most k (f a)) -> at_most k (bind m f).
Proof. intros Hm Hf. exact (at_most_bind 0 k m f Hm Hf). Qed.

Lemma at_most_le {A} k k' (m : M S A) : (k <= k')%nat -> at_most k m -> at_most k' m.
Proof. intros Hk Hm s. specialize (Hm s). lia. Qed.

Lemma at_most_ret {A} k (a : A) : at_most k (ret (S := S) a).
Proof. intros s. cbn. lia. Qed.

Lemma at_most_get k : at_most k (get (S := S)).
Proof. intros s. cbn. lia. Qed.

Lemma at_most_put k s' : at_most k (put (S := S) s').
Proof. intros s. cbn. lia. Qed.

Lemma at_most_modify k f : at_most k (modify (S := S) f).
Proof. intros s. cbn. lia. Qed.

Lemma at_most_panic {A} k why : at_most k (panic (S := S) (A := A) why).
Proof. intros s. cbn. lia. Qed.

Lemma at_most_park {A} k : at_most k (park (S := S) (A := A)).
Proof. intros s. cbn. lia. Qed.

Lemma at_most_starve {A} k : at_most k (starve (S := S) (A := A)).
Proof. intros s. cbn. lia. Qed.

Lemma at_most_emit e : at_most (syn_count [e]) (emit (S := S) e).
Proof. intros s. cbn [emit trace]. lia. Qed.

Lemma triple_at_most {A} P (m : M S A) k :
  at_most k m -> triple P m k (fun _ _ => True).
Proof. intros Hm s _. split; [apply Hm | trivial]. Qed.

Lemma at_most_triple {A} (m : M S A) k Q :
  triple (fun _ => True) m k Q -> at_most k m.
Proof. intros Hm s. exact (proj1 (Hm s I)). Qed.

Lemma triple_bind0 {A B} P (m : M S A) Q (f : A -> M S B) k R :
  triple P m 0 Q -> (forall a, triple (Q a) (f a) k R) -> triple P (bind m f) k R.
Proof.
  intros Hm Hf s Hs. destruct (Hm s Hs) as [Hc Hq]. unfold bind.
  destruct (m s) as [t1 s1 [a| | |]]; cbn [trace result final] in *;
    try (split; [lia | discriminate]).
  destruct (Hf a s1 (Hq a eq_refl)) as [Hc2 Hq2].
  destruct (f a s1) as [t2 s2 r2]. cbn [trace result final] in *.
  rewrite syn_count_app. split; [lia | exact Hq2].
Qed.

Lemma triple_conseq {A} (P P' : S -> Prop) (m : M S A) k (Q Q' : A -> S -> Prop) :
  (forall s, P' s -> P s) -> (forall a s, Q a s -> Q' a s) ->
  triple P m k Q -> triple P' m k Q'.
Proof.
  intros HP HQ Hm s Hs. destruct (Hm s (HP s Hs)) as [Hc Hq].
  split; [exact Hc | intros a Ha; apply HQ, Hq, Ha].
Qed.

Lemma triple_pure {A} (P : S -> Prop) (fact : Prop) (m : M S A) k Q :
  (forall s, P s -> fact) -> (fact -> triple P m k Q) -> triple P m k Q.
Proof. intros Hf Hm s Hs. exact (Hm (Hf s Hs) s Hs). Qed.

End Bounds.

(** ** The send helpers *)

Lemma the_layer_triple P :
  triple P the_layer 0 (fun l s => layer (snd s) = Some l /\ P s).
Proof.
  intros s Hs. unfold the_layer, bind, get. cbn [trace result final].
  destruct (layer (snd s)) eqn:E; cbn; (split; [lia|]); intros a Ha; [|discriminate].
  injection Ha as <-. split; [exact E | exact Hs].
Qed.

Lemma load_triple (P : World * RAWConn -> Prop) l :
  triple P (load l) 0 (fun L s => lays (fst s) !! l = Some L /\ P s).
Proof.
  intros s Hs. unfold load, bind, get. cbn [trace result final].
  destruct (lays (fst s) !! l) eqn:E; cbn; (split; [lia|]); intros a Ha; [|discriminate].
  injection Ha as <-. split; [exact E | exact Hs].
Qed.

Lemma update_triple l f (F G : pktLayers -> Prop) :
  (forall L, F L -> G (f L)) ->
  triple (fun s : World * RAWConn => layer (snd s) = Some l /\ template_is F s)
         (update l f) 0
         (fun _ s => layer (snd s) = Some l /\ template_is G s).
Proof.
  intros HFG s [Hl HF]. unfold update, load, bind, get, modify. cbn [trace result final].
  destruct (lays (fst s) !! l) as [L|] eqn:E; cbn; (split; [lia|]); intros a Ha;
    [|discriminate].
  split; [exact Hl|]. intros l' L' Hl' HL'. cbn [fst snd lays set_lays] in *.
  assert (Hll : l' = l) by congruence. subst l'.
  rewrite lookup_insert_eq in HL'. injection HL' as <-. exact (HFG L (HF l L Hl E)).
Qed.

Lemma at_most_load {X} k l : at_most k (load (X := X) l).
Proof.
  intros s. unfold load, bind, get. cbn.
  destruct (lays (fst s) !! l); cbn; lia.
Qed.

Lemma at_most_update {X} k l f : at_most k (update (X := X) l f).
Proof.
  intros s. unfold update, load, bind, get, modify. cbn.
  destruct (lays (fst s) !! l); cbn; lia.
Qed.

Lemma at_most_the_layer k : at_most k the_layer.
Proof. intros s. unfold the_layer, bind, get. cbn. destruct (layer (snd s)); cbn; lia. Qed.

Lemma at_most_the_handle k : at_most k the_handle.
Proof. intros s. unfold the_handle, bind, get. cbn. destruct (handle (snd s)); cbn; lia. Qed.

Lemma at_most_next_outcome k : at_most k next_outcome.
Proof. intros s. cbn. lia. Qed.

Lemma at_most_on_conn k f : at_most k (on_conn f).
Proof. intros s. cbn. lia. Qed.

(** What [sendPacket] does once the template is loaded. *)
Lemma at_most_inject k L :
  ((if SYN (tcp L) then 1 else 0) <= k)%nat ->
  at_most k (o <- next_outcome;;
             match o with
             | SerializeFails e => ret (Some e)
             | InjectFails e => _ <- the_handle;; ret (Some e)
             | Injected => _ <- the_handle;; _ <- emit (Inject (frame_of L));; ret None
             end).
Proof.
  intros Hk. apply at_most_bind0; [apply at_most_next_outcome | intros o].
  destruct o.
  - apply at_most_bind0; [apply at_most_the_handle | intros ?].
    apply (at_most_le (syn_count [Inject (frame_of L)] + 0)).
    + cbn. destruct (SYN (tcp L)); lia.
    + apply at_most_bind; [apply at_most_emit | intros ?; apply at_most_ret].
  - apply at_most_ret.
  - apply at_most_bind0; [apply at_most_the_handle | intros ?; apply at_most_ret].
Qed.

Lemma sendPacket_triple (F : pktLayers -> Prop) k :
  (forall L, F L -> ((if SYN (tcp L) then 1 else 0) <= k)%nat) ->
  triple (template_is F) sendPacket k (fun _ _ => True).
Proof.
  intros HF. unfold sendPacket.
  eapply triple_bind0; [apply (the_layer_triple (template_is F)) | intros l].
  eapply triple_bind0.
  { apply (update_triple l _ F (fun L => ((if SYN (tcp L) then 1 else 0) <= k)%nat)).
    intros L HL. exact (HF L HL). }
  intros ?.
  eapply triple_bind0.
  { apply (update_triple l _ (fun L => ((if SYN (tcp L) then 1 else 0) <= k)%nat)
             (fun L => ((if SYN (tcp L) then 1 else 0) <= k)%nat)).
    intros L HL. exact HL. }
  intros ?.
  eapply triple_bind0; [apply load_triple | intros L].
  apply (triple_pure _ ((if SYN (tcp L) then 1 else 0) <= k)%nat).
  { intros s (HL & Hl & Ht). exact (Ht l L Hl HL). }
  intros Hk. apply triple_at_most, at_most_inject, Hk.
Qed.

Lemma at_most_sendPacket : at_most 1 sendPacket.
Proof.
  apply (at_most_triple _ _ (fun _ _ => True)).
  eapply triple_conseq; [| | apply (sendPacket_triple (fun _ => True) 1)].
  - intros s _ l L _ _. exact I.
  - trivial.
  - intros L _. destruct (SYN (tcp L)); lia.
Qed.

Lemma updateTCP_triple :
  triple (fun _ => True) updateTCP 0 (fun _ s => template_is no_syn s).
Proof.
  unfold updateTCP.
  eapply triple_bind0; [apply (the_layer_triple (fun _ => True)) | intros l].
  eapply triple_conseq; [| | apply (update_triple l _ (fun _ => True) no_syn)].
  - intros s [Hl _]. split; [exact Hl | intros ? ? _ _; exact I].
  - intros _ s [_ H]. exact H.
  - intros L _. reflexivity.
Qed.

(** A helper that sets flags other than SYN after [updateTCP]. *)
Lemma at_most_flagged (f : TCP -> TCP) :
  (forall t, SYN (f t) = SYN t) ->
  at_most 0 (_ <- updateTCP;; l <- the_layer;; _ <- update l (on_tcp f);; sendPacket).
Proof.
  intros Hf. apply (at_most_triple _ _ (fun _ _ => True)).
  eapply triple_bind0; [apply updateTCP_triple | intros ?].
  eapply triple_bind0; [apply (the_layer_triple (template_is no_syn)) | intros l].
  eapply triple_bind0.
  { apply (update_triple l _ no_syn no_syn). intros L HL. unfold no_syn in *.
    cbn [tcp on_tcp]. rewrite Hf. exact HL. }
  intros ?.
  eapply triple_conseq; [| | apply (sendPacket_triple no_syn 0)].
  - intros s [_ H]. exact H.
  - trivial.
  - intros L HL. unfold no_syn in HL. rewrite HL. lia.
Qed.

Lemma at_most_sendAck : at_most 0 sendAck.
Proof. apply (at_most_flagged (set_ACK true)). reflexivity. Qed.

Lemma at_most_sendFin : at_most 0 sendFin.
Proof. apply (at_most_flagged (set_FIN true)). reflexivity. Qed.

Lemma at_most_sendRst : at_most 0 sendRst.
Proof. apply (at_most_flagged (set_RST true)). reflexivity. Qed.

Lemma at_most_write b : at_most 0 (write b).
Proof.
  unfold write, defer. apply (at_most_triple _ _ (fun _ _ => True)).
  eapply triple_bind0; [apply updateTCP_triple | intros ?].
  eapply triple_bind0; [apply (the_layer_triple (template_is no_syn)) | intros l].
  eapply triple_bind0.
  { apply (update_triple l _ no_syn no_syn). intros L HL. exact HL. }
  intros ?.
  eapply triple_bind0.
  { eapply triple_bind0.
    - eapply triple_conseq; [| | apply (sendPacket_triple no_syn 0)].
      + intros s [_ H]. exact H.
      + intros ? ? H. exact H.
      + intros L HL. unfold no_syn in HL. rewrite HL. lia.
    - intros err. apply triple_at_most, at_most_ret. }
  intros ne. apply triple_at_most.
  apply at_most_bind0; [apply at_most_update | intros ?; apply at_most_ret].
Qed.

Lemma at_most_sendSyn : at_most 1 sendSyn.
Proof.
  unfold sendSyn, defer, updateTCP.
  apply at_most_bind0.
  { apply at_most_bind0; [apply at_most_the_layer | intros l; apply at_most_update]. }
  intros ?. apply at_most_bind0; [apply at_most_the_layer | intros l].
  apply at_most_bind0; [apply at_most_update | intros ?].
  apply at_most_bind0; [apply at_most_load | intros L]. cbv zeta.
  apply (at_most_bind 1 0).
  - apply at_most_bind0; [apply at_most_update | intros ?; apply at_most_sendPacket].
  - intros err. apply at_most_bind0; [apply at_most_update | intros ?; apply at_most_ret].
Qed.

(** ** The handshake *)

Lemma at_most_emit_other {S} k e : syn_count [e] = 0%nat -> at_most k (emit (S := S) e).
Proof. intros H s. cbn [emit trace]. rewrite H. lia. Qed.

Lemma at_most_getMss {S} k t : at_most k (getMssFromTcpLayer (S := S) t).
Proof. intros s. cbn. lia. Qed.

Ltac hush :=
  repeat first
    [ apply at_most_ret | apply at_most_panic | apply at_most_park | apply at_most_starve
    | apply at_most_get | apply at_most_put | apply at_most_modify
    | apply at_most_on_conn | apply at_most_the_layer | apply at_most_the_handle
    | apply at_most_load | apply at_most_update | apply at_most_next_outcome
    | apply at_most_getMss
    | apply at_most_sendAck | apply at_most_sendFin | apply at_most_sendRst
    | apply at_most_write
    | apply at_most_emit_other; reflexivity
    | assumption
    | match goal with
      | |- at_most _ (bind _ _) => apply at_most_bind0; [| intros ?]
      | |- at_most _ (match ?x with _ => _ end) => destruct x
      end
    | progress cbv zeta ].

Lemma at_most_Int63 {X} k : at_most k (Int63 (X := X)).
Proof. unfold Int63. hush. Qed.

Lemma at_most_rand_uint32 {X} k : at_most k (rand_uint32 (X := X)).
Proof. unfold rand_uint32. hush. Qed.

Lemma at_most_new_layers {X} k L : at_most k (new_layers (X := X) L).
Proof. unfold new_layers. hush. Qed.

Lemma at_most_SetReadDeadline k d : at_most k (SetReadDeadline d).
Proof. unfold SetReadDeadline. hush. Qed.

Lemma at_most_RemoteAddr k : at_most k RemoteAddr.
Proof. unfold RemoteAddr. hush. Qed.

Lemma at_most_readLayers : at_most 0 readLayers.
Proof. unfold readLayers. hush. apply at_most_RemoteAddr. Qed.

Lemma at_most_close : at_most 0 close.
Proof. unfold close. hush. Qed.

Lemma at_most_syn_attempt retry :
  at_most (if retry >? 5 then 0 else 1) (syn_attempt retry).
Proof.
  unfold syn_attempt. destruct (retry >? 5); [apply at_most_ret|].
  apply (at_most_bind 1 0); [apply at_most_sendSyn | intros err].
  destruct err; [apply at_most_ret|].
  apply at_most_bind0; [apply at_most_Int63 | intros d].
  apply at_most_bind0; [apply at_most_SetReadDeadline | intros ?].
  apply at_most_bind0; [apply at_most_readLayers | intros x].
  hush.
Qed.

Lemma at_most_syn_loop fuel : forall retry,
  at_most (Z.to_nat (6 - retry)) (syn_loop fuel retry).
Proof.
  induction fuel as [|fuel IH]; intros retry; cbn [syn_loop]; [apply at_most_starve|].
  eapply at_most_le;
    [| apply (at_most_bind (if retry >? 5 then 0 else 1) (Z.to_nat (6 - (retry + 1))))].
  - destruct (retry >? 5) eqn:E; [apply Z.gtb_lt in E; lia|].
    rewrite Z.gtb_ltb in E. apply Z.ltb_ge in E. lia.
  - apply at_most_syn_attempt.
  - intros f. destruct f; [apply IH | apply at_most_ret | apply at_most_ret].
Qed.

Lemma at_most_http_attempt req ackn seqn retry :
  at_most 0 (http_attempt req ackn seqn retry).
Proof.
  unfold http_attempt. destruct (retry >? 5); [apply at_most_ret|].
  apply at_most_bind0; [apply at_most_write | intros ne].
  destruct (snd ne); [apply at_most_ret|].
  apply at_most_bind0; [apply at_most_Int63 | intros d].
  apply at_most_bind0; [apply at_most_SetReadDeadline | intros err].
  destruct err; [apply at_most_ret|].
  apply at_most_bind0; [apply at_most_readLayers | intros x].
  hush.
Qed.

Lemma at_most_http_loop fuel req ackn seqn : forall retry,
  at_most 0 (http_loop fuel req ackn seqn retry).
Proof.
  induction fuel as [|fuel IH]; intros retry; cbn [http_loop]; [apply at_most_starve|].
  apply at_most_bind0; [apply at_most_http_attempt | intros f].
  destruct f; [apply IH | apply at_most_ret | apply at_most_ret].
Qed.

Section DialBound.
Variable buildHTTPRequest : string -> bytes.

Lemma at_most_dial_phases : at_most 6 (dial_phases buildHTTPRequest).
Proof.
  unfold dial_phases.
  apply at_most_bind0; [apply at_most_rand_uint32 | intros seq0].
  apply at_most_bind0; [apply at_most_the_layer | intros l].
  apply at_most_bind0; [apply at_most_update | intros ?].
  apply (at_most_bind 6 0); [exact (at_most_syn_loop 7 0) | intros x].
  destruct x as [e|[ackn seqn]]; [apply at_most_ret|].
  apply at_most_bind0; [apply at_most_get | intros s].
  destruct (NoHTTP (r (snd s))); [apply at_most_ret | apply at_most_http_loop].
Qed.

Lemma at_most_dial_deferred err : at_most 0 (dial_deferred err).
Proof.
  unfold dial_deferred, Close.
  apply at_most_bind0; [apply at_most_on_conn | intros ?].
  apply at_most_bind0.
  - destruct err; [|apply at_most_ret].
    apply at_most_bind0; [apply at_most_close | intros ?; apply at_most_ret].
  - intros ?. destruct err; [apply at_most_ret|].
    apply at_most_emit_other. reflexivity.
Qed.

Lemma at_most_dial_established cfg e local remote :
  at_most 6 (dial_established buildHTTPRequest cfg e local remote).
Proof.
  unfold dial_established.
  apply at_most_bind0; [apply at_most_Int63 | intros id].
  apply at_most_bind0; [apply at_most_new_layers | intros l].
  apply at_most_bind0; [apply at_most_on_conn | intros ?].
  apply (at_most_bind 6 0); [apply at_most_dial_phases | intros err].
  apply at_most_bind0; [apply at_most_dial_deferred | intros ?; apply at_most_ret].
Qed.

Lemma DialRAW_syn_bound cfg setup w :
  (syn_count (trace (DialRAW buildHTTPRequest cfg setup w)) <= 6)%nat.
Proof.
  unfold DialRAW. destruct setup as [e| |u h q e local remote]; cbn [trace syn_count]; try lia.
  apply at_most_dial_established.
Qed.

End DialBound.

(** ** The handshake runs dry *)

Lemma DialRAW_run buildHTTPRequest cfg u h q e local remote w t w' c' err :
  dial_established buildHTTPRequest cfg e local remote (w, dial_conn cfg u h q)
    = mkRun t (w', c') (Ok err) ->
  DialRAW buildHTTPRequest cfg (SetupDone u h q e local remote) w
    = mkRun t w' (Ok (Some c', err)).
Proof. intros H. unfold DialRAW. rewrite H. reflexivity. Qed.

Lemma wire_of_quiet o L : ~ In Go_ackSender (wire_of o L).
Proof. destruct o; cbn [wire_of In]; intuition discriminate. Qed.

Lemma map_Inject_quiet fs : ~ In Go_ackSender (map Inject fs).
Proof. intros Hin. apply in_map_iff in Hin. destruct Hin as (f & Hf & _). discriminate. Qed.

(** C4 (as amended): whatever the set-up, the channel and the sends do,
    [DialRAW] injects at most six frames that carry SYN.  When the read
    timer fires after each of six SYNs (and the sends go through), it
    returns the error "retry too many times" together with the connection
    object, not nil: the object is closed (UDP socket and capture handle),
    its read timer is cleared, the ack pacer is not started, and what went
    on the wire is six SYN-only frames followed by the FIN of the deferred
    [Close]. *)
Theorem DialRAW_handshake_exhausted buildHTTPRequest :
  (forall cfg setup w,
     (syn_count (trace (DialRAW buildHTTPRequest cfg setup w)) <= 6)%nat) /\
  (forall cfg u h q e local remote w,
     times_out (IgnRST cfg) 6 q -> sends_ok 6 (script w) ->
     let x := DialRAW buildHTTPRequest cfg (SetupDone u h q e local remote) w in
     let syns := syn_frames 6 (first_template cfg e local remote w) in
     exists conn fin,
       result x = Ok (Some conn, Some (errorString "retry too many times")) /\
       udp conn = Some (mkUDPConn true) /\ handle conn = Some (mkHandle true) /\
       rtimer conn = None /\
       ~ In Go_ackSender (trace x) /\
       frames (trace x) = syns ++ fin /\ length syns = 6%nat /\
       Forall (fun f => flags_of (fr_tcp f) = [fSYN]) syns /\
       Forall (fun f => flags_of (fr_tcp f) = [fFIN]) fin).
Proof.
  split; [intros cfg setup w; apply DialRAW_syn_bound|].
  intros cfg u h q e local remote w Ht Hs x syns.
  destruct (dial_established_exhausted buildHTTPRequest cfg u h q e local remote w Ht Hs)
    as (w' & c' & Hrun & Hu & Hh & Hr).
  apply (DialRAW_run buildHTTPRequest) in Hrun.
  pose proof (first_template_plain cfg e local remote w) as Hpl.
  subst x syns. rewrite Hrun. clear Hrun.
  generalize dependent (first_template cfg e local remote w). intros L0 Hpl.
  generalize (nth 6 (script w) Injected). intros o.
  exists c', (frames (wire_of o (stamped (dressed call_sendFin (syn_template 6 L0))))).
  split; [reflexivity|]. split; [exact Hu|]. split; [exact Hh|]. split; [exact Hr|].
  split; [|split; [|split; [|split]]].
  - intros Hin. apply in_app_or in Hin. destruct Hin as [Hin|Hin].
    + exact (map_Inject_quiet _ Hin).
    + exact (wire_of_quiet _ _ Hin).
  - cbn [trace]. rewrite frames_app, frames_map_Inject. reflexivity.
  - apply syn_frames_length.
  - apply syn_frames_flags, Hpl.
  - rewrite frames_wire_of. destruct o; constructor; [|constructor].
    rewrite fr_tcp_frame_of.
    apply (flags_dressed call_sendFin), plain_syn_template, Hpl.
Qed.

(** * The properties on the concrete flows *)

Lemma demo_template_plain : plain demo_template.
Proof. repeat split; reflexivity. Qed.

Lemma demo_listen_template_plain : plain demo_listen_template.
Proof. repeat split; reflexivity. Qed.

(** [flag_discipline] on a data segment of the dial-side flow. *)
Lemma flag_discipline_witness :
  let x := call (call_write demo_request21) (demo_world demo_template [], demo_conn [] 0) in
  plain demo_template /\
  (forall f, In f (frames (trace x)) -> flags_of (fr_tcp f) = [fPSH; fACK]) /\
  (exists f, frames (trace x) = [f]).
Proof.
  pose proof (flag_discipline (call_write demo_request21) (demo_world demo_template [])
                (demo_conn [] 0) 0%nat demo_template (mkHandle false)
                eq_refl eq_refl eq_refl demo_template_plain) as H.
  cbv zeta in H. destruct H as (Hf & Hone & _).
  split; [exact demo_template_plain|]. split; [exact Hf | exact (Hone eq_refl)].
Defined.

(** [ipv4_id_progression] on a SYN followed by an ACK. *)
Lemma ipv4_id_progression_witness :
  let first := call call_sendSyn (demo_world demo_template [], demo_conn [] 0) in
  let second := call call_sendAck (final first) in
  exists f1 f2,
    frames (trace first) = [f1] /\ frames (trace second) = [f2] /\
    Id (fr_ip4 f1) = 8 /\
    Id (fr_ip4 f2) = (Id (fr_ip4 f1) + 1) mod 65536.
Proof.
  cbv zeta.
  eexists _, _. split; [vm_compute; reflexivity|]. split; [vm_compute; reflexivity|].
  split; [reflexivity|].
  apply (ipv4_id_progression call_sendSyn call_sendAck
           (demo_world demo_template []) (demo_conn [] 0)
           (fst (final (call call_sendSyn (demo_world demo_template [], demo_conn [] 0))))
           (snd (final (call call_sendSyn (demo_world demo_template [], demo_conn [] 0))))
           0%nat demo_template (undressed call_sendSyn demo_template)
           (mkHandle false) (mkHandle false)); try reflexivity.
  - intros L1' H. vm_compute in H. injection H as <-. reflexivity.
  - left. reflexivity.
  - left. reflexivity.
Defined.

(** [Write_seq_accounting] on a three-byte datagram. *)
Lemma Write_seq_accounting_witness :
  let b := [x61; x62; x63]%byte in
  let x := Write b (demo_world demo_template [], demo_conn [] 0) in
  result x = Ok (3, None) /\
  (exists L', lays (fst (final x)) !! 0%nat = Some L' /\
              Seq (tcp L') = u32 (Seq (tcp demo_template) + 3)).
Proof.
  pose proof (proj1 Write_seq_accounting [x61; x62; x63]%byte
                (demo_world demo_template []) (demo_conn [] 0) 0%nat demo_template
                (mkHandle false) eq_refl eq_refl eq_refl eq_refl demo_template_plain) as H.
  cbv zeta in H. destruct H as (Hr & _ & _ & _ & HL & _).
  split; [exact Hr | exact HL].
Defined.

(** The send fails and the sequence number has moved all the same. *)
Lemma Write_failed_send_advances_seq :
  let w := demo_world demo_template [InjectFails (foreignErr "no buffer space available")] in
  let x := Write [x61; x62; x63]%byte (w, demo_conn [] 0) in
  result x = Ok (3, Some (foreignErr "no buffer space available")) /\
  frames (trace x) = [] /\
  Seq (tcp demo_template) = 0 /\
  (Seq ∘ tcp) <$> lays (fst (final x)) !! 0%nat = Some 3.
Proof. vm_compute. repeat split; reflexivity. Qed.

(** [WriteTo_unknown_peer] on a listener that knows nobody. *)
Lemma WriteTo_unknown_peer_witness :
  let x := Listener.WriteTo demo_hello demo_remote (demo_fresh_world, demo_listener []) in
  result x = Ok (0, Some (errorString ("cannot write to " +:+ Addr_String demo_remote))) /\
  frames (trace x) = [] /\
  final x = (demo_fresh_world, demo_listener []).
Proof.
  exact (WriteTo_unknown_peer demo_hello demo_remote demo_fresh_world (demo_listener [])
           eq_refl eq_refl).
Defined.

(** [GetMSSByAddr_pre_established] right after the peer's first SYN. *)
Lemma GetMSSByAddr_pre_established_witness :
  let cl := demo_segment demo_syn in
  let s' := final (Listener.ReadFrom_body demo_buildHTTPResponse [] 0 cl
                     (demo_fresh_world, demo_listener [])) in
  (exists p info, newcons (snd s') !! key cl = Some p /\
                  infos (fst s') !! p = Some info /\ info_mss info = 1460) /\
  result (Listener.GetMSSByAddr (sender cl) s') = Ok 0.
Proof.
  exact (proj2 (proj2 GetMSSByAddr_pre_established) demo_buildHTTPResponse [] 0
           (demo_segment demo_syn) demo_fresh_world (demo_listener []) (mkHandle false) 1460
           eq_refl eq_refl eq_refl eq_refl eq_refl eq_refl eq_refl eq_refl eq_refl
           eq_refl eq_refl).
Defined.

(** [duplicate_of_hseqn_filtered]: a replay of the decoy response, then
    one byte of data. *)
Lemma duplicate_of_hseqn_filtered_witness :
  let later := [Captured (Some (demo_packet (demo_data 6000 [x61]%byte)))] in
  let c := demo_conn (Captured (Some (demo_packet (demo_data 5000 demo_hello))) :: later) 5000 in
  let w := demo_world demo_template [] in
  ReadFrom_body [] (demo_segment (demo_data 5000 demo_hello)) (w, set_packets later c)
    = mkRun [] (w, set_packets later c) (Ok (Continue tt)) /\
  ReadFrom [] (w, c) = ReadFrom [] (w, set_packets later c).
Proof.
  exact (duplicate_of_hseqn_filtered []
           (demo_world demo_template [])
           (demo_conn [Captured (Some (demo_packet (demo_data 5000 demo_hello)));
                       Captured (Some (demo_packet (demo_data 6000 [x61]%byte)))] 5000)
           (demo_packet (demo_data 5000 demo_hello))
           (mkIPv4 (IP demo_remote) (IP demo_local) IPProtocolTCP 4 1 IPv4DontFragment 64 0)
           (demo_data 5000 demo_hello)
           [Captured (Some (demo_packet (demo_data 6000 [x61]%byte)))]
           eq_refl (or_intror eq_refl) eq_refl eq_refl eq_refl eq_refl eq_refl eq_refl eq_refl).
Defined.

(** [short_buffer_read]: five bytes into a buffer of two. *)
Lemma short_buffer_read_witness :
  let L := on_tcp (set_Ack 1000) demo_template in
  let c := demo_conn [Captured (Some (demo_packet (demo_data 1000 demo_hello)))] 5000 in
  let x := ReadFrom [x00; x00]%byte (demo_world L [], c) in
  result x = Ok (mkRead 2 [x68; x65]%byte (Some demo_remote) None) /\
  (exists L', lays (fst (final x)) !! 0%nat = Some L' /\ Ack (tcp L') = 1005).
Proof.
  pose proof (proj1 short_buffer_read [x00; x00]%byte
                (demo_world (on_tcp (set_Ack 1000) demo_template) [])
                (demo_conn [Captured (Some (demo_packet (demo_data 1000 demo_hello)))] 5000)
                0%nat (on_tcp (set_Ack 1000) demo_template)
                (demo_segment (demo_data 1000 demo_hello)) []
                eq_refl eq_refl eq_refl eq_refl eq_refl eq_refl
                ltac:(discriminate) ltac:(cbn; lia)) as H.
  cbv zeta in H. destruct H as (Hr & _ & L' & HL' & _ & Hin).
  split; [exact Hr|]. exists L'. split; [exact HL' | exact (Hin eq_refl)].
Defined.

(** Two reads of five bytes into a buffer of two, the cursor at 1000.  A
    segment at sequence number 100 leaves the cursor at 1000; one at
    3000 takes it to 3005.  Neither moves it by five. *)
Lemma short_read_ack_not_by_length :
  let L := on_tcp (set_Ack 1000) demo_template in
  let old := demo_conn [Captured (Some (demo_packet (demo_data 100 demo_hello)))] 5000 in
  let far := demo_conn [Captured (Some (demo_packet (demo_data 3000 demo_hello)))] 5000 in
  let x := ReadFrom [x00; x00]%byte (demo_world L [], old) in
  let y := ReadFrom [x00; x00]%byte (demo_world L [], far) in
  len demo_hello = 5 /\ Ack (tcp L) = 1000 /\
  result x = Ok (mkRead 2 [x68; x65]%byte (Some demo_remote) None) /\
  (Ack ∘ tcp) <$> lays (fst (final x)) !! 0%nat = Some 1000 /\
  result y = Ok (mkRead 2 [x68; x65]%byte (Some demo_remote) None) /\
  (Ack ∘ tcp) <$> lays (fst (final y)) !! 0%nat = Some 3005.
Proof. vm_compute. repeat split; reflexivity. Qed.

Lemma demo_wrap_free :
  wrap_free [Captured (Some (demo_packet (demo_data 1000 demo_hello)))].
Proof.
  intros p t [H|[]] Ht. injection H as <-. injection Ht as <-. split; vm_compute; congruence.
Qed.

(** [read_path_ack_update]: an in-order segment of five bytes. *)
Lemma read_path_ack_update_witness :
  let L := on_tcp (set_Ack 1000) demo_template in
  let cl := demo_segment (demo_data 1000 demo_hello) in
  let c := demo_conn [Captured (Some (demo_packet (demo_data 1000 demo_hello)))] 5000 in
  let w := demo_world L [] in
  (exists L', lays (fst (final (ReadFrom_body [] cl (w, c)))) !! 0%nat = Some L' /\
              Ack (tcp L') = ack_after 1000 1000 5) /\
  ack_after 1000 1000 5 = Z.max 1000 (1000 + 5) /\
  (exists L', lays (fst (final (ReadFrom [] (w, c)))) !! 0%nat = Some L' /\
              Ack (tcp L) <= Ack (tcp L')).
Proof.
  cbv zeta.
  destruct read_path_ack_update as (Hbody & _ & Hmax & Hread).
  split; [|split].
  - exact (Hbody [] (demo_segment (demo_data 1000 demo_hello))
             (demo_world (on_tcp (set_Ack 1000) demo_template) [])
             (demo_conn [Captured (Some (demo_packet (demo_data 1000 demo_hello)))] 5000)
             0%nat (on_tcp (set_Ack 1000) demo_template)
             eq_refl eq_refl eq_refl eq_refl eq_refl ltac:(discriminate) eq_refl).
  - apply Hmax; lia.
  - exact (Hread []
             (demo_world (on_tcp (set_Ack 1000) demo_template) [])
             (demo_conn [Captured (Some (demo_packet (demo_data 1000 demo_hello)))] 5000)
             0%nat (on_tcp (set_Ack 1000) demo_template) (mkHandle false)
             eq_refl eq_refl eq_refl demo_wrap_free).
Defined.

(** The cursor is not the maximum of itself and sequence number plus
    payload length on every path of the read.  An in-order segment that
    crosses the end of the sequence space takes it from 4294967290 to 4.
    On the listener a first request of 21 bytes at sequence number 5,
    from a peer in WAIT_HTTP_REQ whose template acknowledges 901, is
    answered with ack 922 (line 770 adds the length to the cursor), and
    the same request once more, now in HTTP_REP_SENT, is answered with
    ack 26 (line 713 stores sequence number plus length whatever the
    cursor is): across the two frames of that flow the ack goes down. *)
Lemma ack_not_max_with_current :
  let L := on_tcp (set_Ack 4294967290) demo_template in
  let payload := list_byte_of_string "0123456789" in
  let c := demo_conn [Captured (Some (demo_packet (demo_data 4294967290 payload)))] 5000 in
  let x := ReadFrom (repeat x00%byte 16) (demo_world L [], c) in
  let request := Captured (Some (demo_packet (demo_data 5 demo_request21))) in
  let y := Listener.ReadFrom demo_buildHTTPResponse []
             (demo_listen_world waithttpreq, demo_listener_new [request; request]) in
  ((Ack ∘ tcp) <$> lays (fst (final x)) !! 0%nat = Some 4 /\
   4 < Ack (tcp L) /\
   Z.max (Ack (tcp L)) (4294967290 + len payload) = 4294967300) /\
  (Ack (tcp demo_listen_template) = 901 /\
   5 + len demo_request21 = 26 /\
   (Ack ∘ fr_tcp) <$> frames (trace y) = [922; 26] /\
   Z.max 901 26 = 901 /\ Z.max 922 26 = 922).
Proof. vm_compute. repeat split; reflexivity. Qed.

(** [POST_heuristic]: a request of 21 bytes is answered. *)
Lemma POST_heuristic_witness :
  let cl := demo_segment (demo_data 901 demo_request21) in
  let info := mkInfo waithttpreq 0%nat None 0 1460 in
  let x := Listener.ReadFrom_body demo_buildHTTPResponse [] 0 cl
             (demo_listen_world waithttpreq, demo_listener_new []) in
  (exists f, frames (trace x) = [f] /\ flags_of (fr_tcp f) = [fPSH; fACK] /\
             Payload (fr_tcp f) = demo_buildHTTPResponse "") /\
  infos (fst (final x)) !! 1%nat = Some (answered 901 (demo_buildHTTPResponse "") info) /\
  conns (snd (final x)) !! key cl = Some 1%nat.
Proof.
  pose proof (POST_heuristic demo_buildHTTPResponse [] 0
                (demo_segment (demo_data 901 demo_request21))
                (demo_listen_world waithttpreq) (demo_listener_new []) 1%nat
                (mkInfo waithttpreq 0%nat None 0 1460) demo_listen_template (mkHandle false)
                eq_refl eq_refl eq_refl eq_refl eq_refl eq_refl eq_refl
                demo_listen_template_plain
                eq_refl eq_refl eq_refl eq_refl eq_refl) as H.
  cbv zeta in H. destruct H as (_ & Hyes & _).
  destruct Hyes as (Hf & Hi & Hc & _).
  { split; [reflexivity|]. split; reflexivity. }
  split; [exact Hf|]. split; [exact Hi | exact Hc].
Defined.

(** C3: a request of exactly 20 bytes, POST at the front and two CRLF
    pairs at the end, in a PSH+ACK of a peer in WAIT_HTTP_REQ.  The
    listener tests [n > 20] (line 766): nothing is sent and the flow
    stays where it was.  The dial side tests [n >= 20] on the response
    (line 544): a response of exactly 20 bytes, HTTP at the front and two
    CRLF pairs at the end, ends the handshake and [DialRAW] returns the
    connection. *)
Lemma POST_of_20_bytes_ignored :
  let cl := demo_segment (demo_data 901 demo_request20) in
  let x := Listener.ReadFrom_body demo_buildHTTPResponse [] 0 cl
             (demo_listen_world waithttpreq, demo_listener_new []) in
  let q := [Captured (Some (demo_packet demo_synack));
            Captured (Some (demo_packet (demo_data 901 demo_response20)))] in
  let d := DialRAW demo_buildHTTPRequest demo_raw (demo_setup q) demo_fresh_world in
  (len demo_request20 = 20 /\
   take 4 demo_request20 = list_byte_of_string "POST" /\
   drop 16 demo_request20 = CRLFCRLF /\
   PSH (tcp cl) = true /\ ACK (tcp cl) = true /\
   frames (trace x) = [] /\
   info_state <$> infos (fst (final x)) !! 1%nat = Some waithttpreq /\
   newcons (snd (final x)) !! key cl = Some 1%nat /\
   conns (snd (final x)) !! key cl = None) /\
  (len demo_response20 = 20 /\
   take 4 demo_response20 = list_byte_of_string "HTTP" /\
   drop 16 demo_response20 = CRLFCRLF /\
   (flags_of ∘ fr_tcp) <$> frames (trace d) = [[fSYN]; [fACK]; [fPSH; fACK]] /\
   exists conn, result d = Ok (Some conn, None) /\ hseqn conn = 901).
Proof.
  cbv zeta. split.
  - vm_compute. repeat split; reflexivity.
  - split; [reflexivity|]. split; [reflexivity|]. split; [reflexivity|].
    split; [vm_compute; reflexivity|].
    vm_compute. eexists. split; reflexivity.
Qed.

Lemma demo_times_out : times_out (IgnRST demo_raw) 6 (repeat Tick 6).
Proof. repeat (eexists; split; [reflexivity|]). exact I. Qed.

Lemma demo_sends_ok : sends_ok 6 (script demo_fresh_world).
Proof. intros i _. destruct i; reflexivity. Qed.

(** [DialRAW_handshake_exhausted]: the read timer fires six times. *)
Lemma DialRAW_handshake_exhausted_witness :
  let x := DialRAW demo_buildHTTPRequest demo_raw (demo_setup (repeat Tick 6)) demo_fresh_world in
  let syns := syn_frames 6 (first_template demo_raw None demo_local demo_remote demo_fresh_world) in
  times_out (IgnRST demo_raw) 6 (repeat Tick 6) /\
  (syn_count (trace x) <= 6)%nat /\
  exists conn fin,
    result x = Ok (Some conn, Some (errorString "retry too many times")) /\
    udp conn = Some (mkUDPConn true) /\ handle conn = Some (mkHandle true) /\
    rtimer conn = None /\
    ~ In Go_ackSender (trace x) /\
    frames (trace x) = syns ++ fin /\ length syns = 6%nat /\
    Forall (fun f => flags_of (fr_tcp f) = [fSYN]) syns /\
    Forall (fun f => flags_of (fr_tcp f) = [fFIN]) fin.
Proof.
  split; [exact demo_times_out|]. split.
  - exact (proj1 (DialRAW_handshake_exhausted demo_buildHTTPRequest) demo_raw
             (demo_setup (repeat Tick 6)) demo_fresh_world).
  - exact (proj2 (DialRAW_handshake_exhausted demo_buildHTTPRequest) demo_raw
             (mkUDPConn false) (mkHandle false) (repeat Tick 6) None demo_local demo_remote
             demo_fresh_world demo_times_out demo_sends_ok).
Defined.

(** Six timeouts: the error comes with a connection object, closed, not
    with nil. *)
Lemma DialRAW_exhausted_returns_conn :
  let x := DialRAW demo_buildHTTPRequest demo_raw (demo_setup (repeat Tick 6)) demo_fresh_world in
  exists conn,
    result x = Ok (Some conn, Some (errorString "retry too many times")) /\
    udp conn = Some (mkUDPConn true) /\
    length (frames (trace x)) = 7%nat.
Proof. vm_compute. eexists. repeat split; reflexivity. Qed.

(** * Further properties of the transceiver *)

(** ** readLayers *)

Lemma scan_scanned timed ign q : forall cl q',
  scan timed ign q = (Scanned cl, q') ->
  exists p, In (Captured (Some p)) q /\
            pk_ip4 p = Some (ip4 cl) /\ pk_tcp p = Some (tcp cl) /\ pk_eth p = eth cl /\
            (pk_eth p = None -> pk_loop p = true) /\
            (ign = true -> RST (tcp cl) = false).
Proof.
  induction q as [|a q IH]; intros cl q' H; cbn [scan] in H; [discriminate|].
  assert (Hrec : scan timed ign q = (Scanned cl, q') ->
                 exists p, In (Captured (Some p)) (a :: q) /\
                   pk_ip4 p = Some (ip4 cl) /\ pk_tcp p = Some (tcp cl) /\ pk_eth p = eth cl /\
                   (pk_eth p = None -> pk_loop p = true) /\
                   (ign = true -> RST (tcp cl) = false)).
  { intros H'. destruct (IH cl q' H') as (p & Hin & Hrest). exists p. split; [right; exact Hin | exact Hrest]. }
  destruct a as [[p|]| |]; try discriminate.
  - destruct (bool_decide (pk_eth p = None) && negb (pk_loop p)) eqn:Hlink; [exact (Hrec H)|].
    destruct (pk_ip4 p) as [ip|] eqn:Hip; [|exact (Hrec H)].
    destruct (pk_tcp p) as [t|] eqn:Ht; [|exact (Hrec H)].
    destruct (ign && RST t) eqn:Hign; [exact (Hrec H)|].
    injection H as <- <-. exists p. cbn [ip4 tcp eth].
    split; [left; reflexivity|]. repeat split; auto.
    + intros Hnone. apply andb_false_iff in Hlink. destruct Hlink as [Hl|Hl].
      * apply bool_decide_eq_false in Hl. contradiction.
      * apply negb_false_iff in Hl. exact Hl.
    + intros ->. exact Hign.
  - destruct timed; [discriminate | exact (Hrec H)].
Qed.

Lemma scan_untimed ign q : fst (scan false ign q) <> ScanTimeout.
Proof.
  induction q as [|a q IH]; cbn [scan]; [discriminate|].
  destruct a as [[p|]| |]; cbn [fst]; try discriminate; try exact IH.
  destruct (bool_decide (pk_eth p = None) && negb (pk_loop p)); [exact IH|].
  destruct (pk_ip4 p); [|exact IH]. destruct (pk_tcp p); [|exact IH].
  destruct (ign && RST t); [exact IH | discriminate].
Qed.

(** What [readLayers] returns, by what the scan of the channel finds. *)
Lemma readLayers_result w c :
  result (readLayers (w, c)) =
  match fst (scanning c) with
  | Scanned cl => Ok (inl cl)
  | ScanTimeout =>
      match result (RemoteAddr (w, set_packets (snd (scanning c)) c)) with
      | Ok a => Ok (inr (timeoutErr ("read from " +:+ Addr_String a)))
      | Panic why => Panic why
      | Park => Park
      | Starved => Starved
      end
  | ScanClosed => Ok (inr (errorString "read from closed connection"))
  | ScanEmpty => Park
  end.
Proof.
  unfold readLayers, scanning. steps prim.
  destruct (scan (bool_decide (is_Some (rtimer c))) (IgnRST (r c)) (packets c)) as [sc q].
  cbn [fst snd]. destruct sc; try reflexivity.
  unfold bind. destruct (RemoteAddr (w, set_packets q c)) as [t s1 [a| | |]]; reflexivity.
Qed.

(** A segment [readLayers] hands over was captured: its IPv4 and TCP
    headers are those of one packet of the channel that has a link layer;
    with [IgnRST] set it is not a RST. *)
Theorem readLayers_hands_over_captured w c cl :
  result (readLayers (w, c)) = Ok (inl cl) ->
  (exists p, In (Captured (Some p)) (packets c) /\
             pk_ip4 p = Some (ip4 cl) /\ pk_tcp p = Some (tcp cl) /\ pk_eth p = eth cl /\
             (pk_eth p = None -> pk_loop p = true)) /\
  (IgnRST (r c) = true -> RST (tcp cl) = false).
Proof.
  rewrite readLayers_result. unfold scanning.
  destruct (scan (bool_decide (is_Some (rtimer c))) (IgnRST (r c)) (packets c))
    as [sc q] eqn:E.
  cbn [fst snd]. destruct sc; try discriminate.
  - intros [= ->].
    destruct (scan_scanned _ _ _ _ _ E) as (p & Hin & Hip & Ht & He & Hl & Hr).
    split; [exists p; repeat split; assumption | exact Hr].
  - destruct (result (RemoteAddr (w, set_packets q c))); discriminate.
Qed.

(** The errors of [readLayers]: the channel is closed, or the read timer
    has fired, which takes a read deadline. *)
Theorem readLayers_errors w c e :
  result (readLayers (w, c)) = Ok (inr e) ->
  e = errorString "read from closed connection" \/
  (rtimer c <> None /\ exists a, e = timeoutErr ("read from " +:+ Addr_String a)).
Proof.
  rewrite readLayers_result. unfold scanning.
  destruct (rtimer c) as [tm|] eqn:Ht.
  - destruct (fst (scan (bool_decide (is_Some (Some tm))) (IgnRST (r c)) (packets c)));
      try discriminate.
    + destruct (result (RemoteAddr _)) as [a| | |]; try discriminate.
      intros [= <-]. right. split; [discriminate | exists a; reflexivity].
    + intros [= <-]. left. reflexivity.
  - replace (bool_decide (is_Some (@None Timer))) with false
      by (symmetry; apply bool_decide_eq_false; intros [? [=]]).
    pose proof (scan_untimed (IgnRST (r c)) (packets c)) as Hno.
    destruct (fst (scan false (IgnRST (r c)) (packets c))); try discriminate.
    + contradiction.
    + intros [= <-]. left. reflexivity.
Qed.

(** ** RAWConn.ReadFrom *)

(** When [ReadFrom] returns, the read deadline is gone. *)
Theorem ReadFrom_clears_deadline b s a :
  result (ReadFrom b s) = Ok a ->
  rtimer (snd (final (ReadFrom b s))) = None.
Proof.
  unfold ReadFrom, defer, bind.
  destruct (ReadFrom_loop (S (length (packets (snd s)))) b s) as [t [w1 c1] [x| | |]];
    try discriminate.
  rewrite stop_rtimer_run. intros _. reflexivity.
Qed.

(** The read timer fires before anything is captured: zero bytes, the
    buffer as it was, no address, the timeout error naming the remote
    peer; nothing is sent and the deadline is cleared. *)
Theorem ReadFrom_times_out b w c l L tm q :
  rtimer c = Some tm -> packets c = Tick :: q ->
  layer c = Some l -> lays w !! l = Some L ->
  ReadFrom b (w, c) =
  mkRun [] (w, set_rtimer None (set_packets q c))
        (Ok (mkRead 0 b None
               (Some (timeoutErr ("read from " +:+ Addr_String (remote_of L)))))).
Proof.
  intros Ht Hq Hl HL.
  apply (ReadFrom_returns b w c [] (w, set_packets q c)).
  rewrite Hq at 1. cbn [length ReadFrom_loop].
  erewrite bind_quiet.
  2:{ apply (readLayers_timeout w c q l L); [|exact Hl|exact HL].
      unfold scanning. rewrite Ht, Hq. reflexivity. }
  reflexivity.
Qed.

Lemma ReadFrom_unfold b w c :
  ReadFrom b (w, c) =
  match ReadFrom_loop (S (length (packets c))) b (w, c) with
  | mkRun t s1 (Ok res) => mkRun t (fst s1, set_rtimer None (snd s1)) (Ok res)
  | mkRun t s1 (Panic why) => mkRun t s1 (Panic why)
  | mkRun t s1 Park => mkRun t s1 Park
  | mkRun t s1 Starved => mkRun t s1 Starved
  end.
Proof.
  unfold ReadFrom, defer, bind. cbn [snd].
  destruct (ReadFrom_loop (S (length (packets c))) b (w, c)) as [t [w1 c1] [res| | |]];
    try reflexivity.
  rewrite stop_rtimer_run. unfold ret. rewrite !app_nil_r. reflexivity.
Qed.

(** A SYN+ACK captured by [ReadFrom] (the peer repeats its half of the
    handshake) is answered with one ACK carrying the cursors of the
    template, and the read goes on with the rest of the channel. *)
Theorem ReadFrom_answers_synack b w c l L h p ip t q :
  packets c = Captured (Some p) :: q ->
  pk_eth p <> None \/ pk_loop p = true ->
  pk_ip4 p = Some ip -> pk_tcp p = Some t ->
  IgnRST (r c) && RST t = false ->
  SYN t = true -> ACK t = true ->
  layer c = Some l -> lays w !! l = Some L -> handle c = Some h -> plain L ->
  upcoming w = Injected ->
  let rest := ReadFrom b (sent l (undressed call_sendAck L) w, set_packets q c) in
  let ack := frame_of (stamped (dressed call_sendAck L)) in
  ReadFrom b (w, c) = mkRun (Inject ack :: trace rest) (final rest) (result rest) /\
  flags_of (fr_tcp ack) = [fACK] /\
  Seq (fr_tcp ack) = Seq (tcp L) /\ Ack (fr_tcp ack) = Ack (tcp L).
Proof.
  intros Hq Hlink Hip Ht Hign HS HA Hl HL Hh Hpl Hup rest ack. split.
  - subst rest ack. rewrite !ReadFrom_unfold. cbn [packets set_packets].
    rewrite Hq at 1. cbn [length].
    rewrite (ReadFrom_loop_step _ b w c _ q (scanning_head c p ip t q Hq Hlink Hip Ht Hign)).
    erewrite bind_loud.
    2:{ apply (ReadFrom_body_synack b _ w (set_packets q c) l L h); cbn [layer handle set_packets tcp];
          [exact Hl | exact HL | exact Hh | rewrite HS, HA; reflexivity]. }
    rewrite Hup. cbn [error_of wire_of].
    destruct (ReadFrom_loop (S (length q)) b
                (sent l (undressed call_sendAck L) w, set_packets q c))
      as [t2 s2 [res| | |]]; reflexivity.
  - split; [exact (flags_dressed call_sendAck L Hpl)|].
    destruct L as [? ? []]. split; reflexivity.
Qed.

(** ** The send helpers *)

Lemma handshake_padding : padding_for handshake_options [] = [x00; x00; x00]%byte.
Proof. reflexivity. Qed.

(** A helper sends the template's options (with the three handshake
    options appended by [sendSyn] and [sendSynAck]), sequence number and
    acknowledgement number, and the padding the serializer gives those
    options.  It leaves the template with the options, sequence number
    and acknowledgement number it had, the payload cleared by [write],
    the IPv4 ID one further, and that same padding: none when the
    options sent fill whole words, and three zero bytes after [sendSyn]
    and [sendSynAck] on a template without options. *)
Theorem helpers_leave_the_template hh w c l L h :
  layer c = Some l -> lays w !! l = Some L -> handle c = Some h ->
  let x := call hh (w, c) in
  let padding := padding_for (Options (tcp L) ++ extra_options hh) [] in
  (forall f, In f (frames (trace x)) ->
     Options (fr_tcp f) = Options (tcp L) ++ extra_options hh /\
     Padding (fr_tcp f) = padding /\
     Payload (fr_tcp f) = payload_of hh L /\
     Seq (fr_tcp f) = Seq (tcp L) /\ Ack (fr_tcp f) = Ack (tcp L)) /\
  (exists L', lays (fst (final x)) !! l = Some L' /\
     Options (tcp L') = Options (tcp L) /\
     Payload (tcp L') = match hh with call_write _ => [] | _ => Payload (tcp L) end /\
     Padding (tcp L') = padding /\
     Seq (tcp L') = Seq (tcp L) /\ Ack (tcp L') = Ack (tcp L) /\
     Id (ip4 L') = u16 (Id (ip4 L) + 1)) /\
  (Options (tcp L) = [] ->
     padding = match hh with
               | call_sendSyn | call_sendSynAck => [x00; x00; x00]%byte
               | _ => []
               end).
Proof.
  intros Hl HL Hh x padding. subst x padding. rewrite (helper_run hh w c l L h Hl HL Hh).
  cbn [trace final fst]. rewrite frames_wire_of. split; [|split].
  - intros f Hf. destruct (upcoming w); cbn [In] in Hf; try tauto.
    destruct Hf as [<-|[]]. rewrite fr_tcp_frame_of.
    destruct L as [? ? []]. destruct hh; cbn; rewrite ?app_nil_r; repeat split; reflexivity.
  - exists (undressed hh L). split; [apply sent_lookup|].
    destruct L as [? ? []]. destruct hh; cbn; rewrite ?app_nil_r; repeat split; reflexivity.
  - intros ->. destruct hh; reflexivity.
Qed.

(** A send that fails (in the serializer or at the capture handle) puts
    nothing on the wire, returns the error, and has taken an IPv4 ID all
    the same. *)
Theorem failed_send_takes_an_id hh w c l L h e :
  layer c = Some l -> lays w !! l = Some L -> handle c = Some h ->
  error_of (upcoming w) = Some e ->
  let x := call hh (w, c) in
  result x = Ok (Some e) /\ frames (trace x) = [] /\
  exists L', lays (fst (final x)) !! l = Some L' /\ Id (ip4 L') = u16 (Id (ip4 L) + 1).
Proof.
  intros Hl HL Hh He x. subst x. rewrite (helper_run hh w c l L h Hl HL Hh).
  cbn [trace result final fst]. rewrite frames_wire_of, He.
  split; [reflexivity|]. split.
  - destruct (upcoming w); [discriminate He | reflexivity | reflexivity].
  - exists (undressed hh L). split; [apply sent_lookup|].
    destruct L as [? [] ?]. destruct hh; reflexivity.
Qed.

(** ** getMssFromTcpLayer *)

Lemma getMss_skips pre rest :
  no_usable_mss pre -> getMssFromOptions (pre ++ rest) = getMssFromOptions rest.
Proof.
  induction 1 as [|o pre Ho _ IH]; [reflexivity|].
  cbn [app getMssFromOptions]. rewrite IH.
  destruct Ho as [Ho|Ho].
  - apply Z.eqb_neq in Ho. rewrite Ho. reflexivity.
  - rewrite Ho. cbn. rewrite orb_true_r. reflexivity.
Qed.

Lemma be16_range hi lo : 0 <= be16 hi lo < 65536.
Proof.
  unfold be16. pose proof (Byte.to_N_bounded hi). pose proof (Byte.to_N_bounded lo). lia.
Qed.

(** The first MSS option that has data decides: its first two bytes, big
    endian, are the MSS, a 16-bit value; one byte of data only is a
    run-time panic; with no such option the MSS is 0. *)
Theorem getMss_first_usable_option pre v post :
  no_usable_mss pre -> OptionType v = TCPOptionKindMSS ->
  (getMssFromOptions pre = Ok 0) /\
  (forall hi lo rest, OptionData v = hi :: lo :: rest ->
     getMssFromOptions (pre ++ v :: post) = Ok (be16 hi lo) /\ 0 <= be16 hi lo < 65536) /\
  (forall x, OptionData v = [x] ->
     getMssFromOptions (pre ++ v :: post) = Panic "index out of range [1] with length 1").
Proof.
  intros Hpre Hv. split; [|split].
  - rewrite <- (app_nil_r pre). rewrite getMss_skips by exact Hpre. reflexivity.
  - intros hi lo rest Hd. split; [|apply be16_range].
    rewrite getMss_skips by exact Hpre. cbn [getMssFromOptions].
    rewrite Hv, Hd. reflexivity.
  - intros x Hd. rewrite getMss_skips by exact Hpre. cbn [getMssFromOptions].
    rewrite Hv, Hd. reflexivity.
Qed.

(** What [sendSyn] and [sendSynAck] put on the wire reads back, through
    [getMssFromTcpLayer], as an MSS of 1460, when the template has no MSS
    option of its own. *)
Theorem handshake_frames_announce_1460 hh w c l L h :
  hh = call_sendSyn \/ hh = call_sendSynAck ->
  layer c = Some l -> lays w !! l = Some L -> handle c = Some h ->
  no_usable_mss (Options (tcp L)) ->
  forall f, In f (frames (trace (call hh (w, c)))) ->
            getMssFromOptions (Options (fr_tcp f)) = Ok 1460.
Proof.
  intros Hhh Hl HL Hh Hno f. rewrite (helper_run hh w c l L h Hl HL Hh).
  cbn [trace]. rewrite frames_wire_of.
  destruct (upcoming w); cbn [In]; try tauto. intros [<-|[]]. rewrite fr_tcp_frame_of.
  assert (HO : Options (tcp (stamped (dressed hh L))) = Options (tcp L) ++ handshake_options).
  { destruct L as [? ? []]. destruct Hhh as [-> | ->]; reflexivity. }
  rewrite HO, getMss_skips by exact Hno. reflexivity.
Qed.

(** ** RAWConn.WriteTo *)

Lemma frames_locked o L :
  frames (Acquire conn_lock :: wire_of o L ++ [Release conn_lock]) = frames (wire_of o L).
Proof. destruct o; reflexivity. Qed.

(** [WriteTo] on a dial-side connection points the template at the
    address it is given (the port taken modulo 2^16) before it writes:
    the frame goes there, and [RemoteAddr] answers that address from then
    on. *)
Theorem WriteTo_retargets b addr w c l L h :
  layer c = Some l -> lays w !! l = Some L -> handle c = Some h -> lock c = false ->
  let x := WriteTo b addr (w, c) in
  result x = Ok (len b, error_of (upcoming w)) /\
  (forall f, In f (frames (trace x)) ->
     DstIP (fr_ip4 f) = IP addr /\ DstPort (fr_tcp f) = u16 (Port addr) /\
     Payload (fr_tcp f) = b) /\
  result (RemoteAddr (final x)) = Ok (mkUDPAddr (IP addr) (u16 (Port addr))).
Proof.
  intros Hl HL Hh Hk x. subst x. unfold WriteTo. steps prim.
  erewrite Write_run; [| exact Hl | proj; apply lookup_insert_eq | exact Hh | exact Hk].
  cbn [result trace final]. unfold upcoming. proj. split; [reflexivity|]. split.
  - intros f Hf. rewrite frames_locked, frames_wire_of in Hf.
    destruct (hd Injected (script w)); cbn [In] in Hf; try tauto.
    destruct Hf as [<-|[]]. destruct L as [? [] []]. repeat split; reflexivity.
  - erewrite RemoteAddr_run; [| exact Hl | apply sent_lookup].
    destruct L as [? [] []]. reflexivity.
Qed.

(** ** No SYN outside the handshake *)

Lemma at_most_Lock : at_most 0 Lock.
Proof. unfold Lock. hush. Qed.

Lemma at_most_Unlock : at_most 0 Unlock.
Proof. unfold Unlock. hush. Qed.

Lemma at_most_Write b : at_most 0 (Write b).
Proof.
  unfold Write, defer.
  apply at_most_bind0; [apply at_most_Lock | intros ?].
  apply at_most_bind0.
  - hush.
  - intros ?. apply at_most_bind0; [apply at_most_Unlock | intros ?; apply at_most_ret].
Qed.

Lemma at_most_ReadFrom_body b cl : at_most 0 (ReadFrom_body b cl).
Proof. unfold ReadFrom_body. hush; apply at_most_RemoteAddr. Qed.

Lemma at_most_ReadFrom_loop fuel b : at_most 0 (ReadFrom_loop fuel b).
Proof.
  induction fuel as [|fuel IH]; cbn [ReadFrom_loop]; [apply at_most_starve|].
  apply at_most_bind0; [apply at_most_readLayers | intros x].
  destruct x as [cl|e]; [|apply at_most_ret].
  apply at_most_bind0; [apply at_most_ReadFrom_body | intros y].
  destruct y; [exact IH | apply at_most_ret].
Qed.

Lemma at_most_ReadFrom b : at_most 0 (ReadFrom b).
Proof.
  unfold ReadFrom, defer. apply at_most_bind0.
  - intros s. apply at_most_ReadFrom_loop.
  - intros a. apply at_most_bind0; [unfold stop_rtimer; hush | intros ?; apply at_most_ret].
Qed.

(** On a dial-side connection only the handshake of [DialRAW] sends SYN:
    no frame [ReadFrom], [Read], [Write], [WriteTo] or [Close] puts on the
    wire carries it, whatever the state and whatever is captured. *)
Theorem data_path_sends_no_SYN :
  (forall b s, syn_count (trace (ReadFrom b s)) = 0%nat) /\
  (forall b s, syn_count (trace (Read b s)) = 0%nat) /\
  (forall b s, syn_count (trace (Write b s)) = 0%nat) /\
  (forall b addr s, syn_count (trace (WriteTo b addr s)) = 0%nat) /\
  (forall s, syn_count (trace (Close s)) = 0%nat).
Proof.
  assert (H0 : forall A (m : ConnM A), at_most 0 m -> forall s, syn_count (trace (m s)) = 0%nat).
  { intros A m Hm s. specialize (Hm s). lia. }
  repeat split; intros.
  - apply H0, at_most_ReadFrom.
  - apply H0. unfold Read.
    apply at_most_bind0; [apply at_most_ReadFrom | intros ?; apply at_most_ret].
  - apply H0, at_most_Write.
  - apply H0. unfold WriteTo.
    apply at_most_bind0; [apply at_most_the_layer | intros ?].
    apply at_most_bind0; [apply at_most_update | intros ?].
    apply at_most_bind0; [apply at_most_update | intros ?]. apply at_most_Write.
  - apply H0, at_most_close.
Qed.

(** ** DialRAW: the handshake goes through *)

Lemma shaken_cursors cl L :
  Ack (tcp (shaken cl L)) = u32 (Seq (tcp cl) + 1) /\
  Seq (tcp (shaken cl L)) = u32 (Seq (tcp L) + 1).
Proof. destruct L as [? ? []]. split; reflexivity. Qed.

Lemma plain_shaken cl L : plain L -> plain (shaken cl L).
Proof. destruct L as [? ? []]. exact (fun H => H). Qed.

Lemma sends_ok_second scr : sends_ok 2 scr -> hd Injected (tail scr) = Injected.
Proof. intros H. apply (sends_ok_hd 0), (sends_ok_tail 1), H. Qed.

Lemma synack_taken_in cl w c l L h m :
  layer c = Some l -> lays w !! l = Some L -> handle c = Some h ->
  upcoming w = Injected ->
  getMssFromOptions (Options (tcp cl)) = Ok m ->
  (l <- the_layer;;
   _ <- update l (on_tcp (set_Ack (u32 (Seq (tcp cl) + 1))));;
   _ <- update l (on_tcp (fun t => set_Seq (u32 (Seq t + 1)) t));;
   L <- load l;;
   m <- getMssFromTcpLayer (tcp cl);;
   _ <- on_conn (set_mss m);;
   err <- sendAck;;
   match err with
   | Some e => ret (Leave e)
   | None => ret (Break (Ack (tcp L), Seq (tcp L)))
   end) (w, c)
  = mkRun [Inject (frame_of (stamped (dressed call_sendAck (taken_in cl L))))]
          (sent l (undressed call_sendAck (taken_in cl L)) w, set_mss m c)
          (Ok (@Break (Z * Z) error (Ack (tcp (taken_in cl L)), Seq (tcp (taken_in cl L))))).
Proof.
  intros Hl HL Hh Hup Hm.
  steps prim.
  erewrite bind_quiet by (apply getMss_run; exact Hm).
  steps prim3.
  unfold upcoming in *. proj. rewrite Hup. cbn [error_of wire_of].
  unfold ret, taken_in, sent. rewrite ?app_nil_r. cbn [app]. destruct w. proj. norm. reflexivity.
Qed.

Lemma syn_attempt_synack retry w c l L h cl q m :
  (retry >? 5) = false ->
  layer c = Some l -> lays w !! l = Some L -> handle c = Some h ->
  sends_ok 2 (script w) ->
  scan true (IgnRST (r c)) (packets c) = (Scanned cl, q) ->
  SYN (tcp cl) && ACK (tcp cl) = true ->
  getMssFromOptions (Options (tcp cl)) = Ok m ->
  exists w' c',
    syn_attempt retry (w, c) =
      mkRun [Inject (frame_of (stamped (dressed call_sendSyn L)));
             Inject (frame_of (stamped (dressed call_sendAck (shaken cl L))))]
            (w', c')
            (Ok (Break (Ack (tcp (shaken cl L)), Seq (tcp (shaken cl L))))) /\
    layer c' = Some l /\ lays w' !! l = Some (undressed call_sendAck (shaken cl L)) /\
    handle c' = Some h /\ udp c' = udp c /\ r c' = r c /\ hseqn c' = hseqn c /\
    lock c' = lock c /\ mss c' = m /\ packets c' = q /\
    script w' = tail (tail (script w)).
Proof.
  intros Hr Hl HL Hh Hs Hscan Hsa Hm.
  pose proof (sends_ok_hd 1 _ Hs) as Hup1. pose proof (sends_ok_second _ Hs) as Hup2.
  eexists _, _. split.
  - unfold syn_attempt. rewrite Hr.
    erewrite bind_loud by (eapply sendSyn_run; eassumption).
    unfold upcoming. rewrite Hup1. cbn [error_of wire_of]. unfold Int63, SetReadDeadline.
    steps prim.
    erewrite bind_quiet.
    2:{ eapply readLayers_scanned. unfold scanning. proj. exact Hscan. }
    cbv beta iota. rewrite Hsa. cbv iota.
    erewrite (synack_taken_in cl _ _ l (undressed call_sendSyn L) h m);
      [ | proj; exact Hl | proj; apply lookup_insert_eq | proj; exact Hh
        | unfold upcoming; proj; exact Hup2 | exact Hm ].
    cbn [app]. reflexivity.
  - unfold shaken.
    split; [proj; exact Hl|].
    split; [apply sent_lookup|].
    split; [proj; exact Hh|].
    unfold sent. proj. repeat split; reflexivity.
Qed.

Section DialConnects.
Variable buildHTTPRequest : string -> bytes.

Lemma dial_established_connects cfg u h q e local remote w cl q' m :
  NoHTTP cfg = true ->
  scan true (IgnRST cfg) q = (Scanned cl, q') ->
  SYN (tcp cl) && ACK (tcp cl) = true ->
  getMssFromOptions (Options (tcp cl)) = Ok m ->
  sends_ok 2 (script w) ->
  let L0 := first_template cfg e local remote w in
  exists w' c',
    dial_established buildHTTPRequest cfg e local remote (w, dial_conn cfg u h q) =
      mkRun [Inject (frame_of (stamped (dressed call_sendSyn L0)));
             Inject (frame_of (stamped (dressed call_sendAck (shaken cl L0))));
             Go_ackSender]
            (w', c') (Ok None) /\
    layer c' = Some (brk w) /\
    lays w' !! brk w = Some (undressed call_sendAck (shaken cl L0)) /\
    udp c' = Some u /\ handle c' = Some h /\ rtimer c' = None /\
    mss c' = m /\ packets c' = q' /\ lock c' = false.
Proof.
  intros Hno Hscan Hsa Hm Hs L0.
  unfold dial_established, dial_phases, Int63, rand_uint32, new_layers.
  steps prim.
  match goal with
  | |- context [bind (syn_loop 7 0) _ (?w1, ?c1)] =>
      destruct (syn_attempt_synack 0 w1 c1 (brk w) L0 h cl q' m)
        as (w' & c' & Hrun & Hl' & HL' & Hh' & Hu' & Hr' & Hq' & Hk' & Hm' & Hp' & Hs')
  end; try reflexivity.
  { proj. apply lookup_insert_eq. }
  { exact Hs. }
  { exact Hscan. }
  { exact Hsa. }
  { exact Hm. }
  cbn [syn_loop].
  rewrite bind_assoc. erewrite bind_loud by exact Hrun. cbv beta iota.
  steps prim. rewrite Hr'. cbn [r set_layer dial_conn]. rewrite Hno.
  unfold dial_deferred. steps prim. unfold ret. cbv beta iota.
  eexists _, _. split; [reflexivity|].
  cbn [layer lays handle udp rtimer mss packets lock set_rtimer fst snd].
  cbn [udp lock set_layer dial_conn] in Hu', Hk'.
  repeat split; assumption.
Qed.

End DialConnects.

(** Without the HTTP decoy ([NoHTTP]), when the first SYN is answered by
    a SYN+ACK and the two sends go through, [DialRAW] returns the
    connection and no error: a SYN and an ACK are on the wire, the ACK
    acknowledging the peer's sequence number plus one from the
    connection's sequence number plus one; the ack pacer is started; the
    connection is open, without a read deadline, and holds the MSS of the
    SYN+ACK, which [GetMSS] answers. *)
Theorem DialRAW_connects buildHTTPRequest cfg u h q e local remote w cl q' m :
  NoHTTP cfg = true ->
  scan true (IgnRST cfg) q = (Scanned cl, q') ->
  SYN (tcp cl) = true -> ACK (tcp cl) = true ->
  getMssFromOptions (Options (tcp cl)) = Ok m ->
  sends_ok 2 (script w) ->
  let x := DialRAW buildHTTPRequest cfg (SetupDone u h q e local remote) w in
  let L0 := first_template cfg e local remote w in
  exists conn syn ack,
    result x = Ok (Some conn, None) /\
    trace x = [Inject syn; Inject ack; Go_ackSender] /\
    flags_of (fr_tcp syn) = [fSYN] /\ Seq (fr_tcp syn) = Seq (tcp L0) /\
    flags_of (fr_tcp ack) = [fACK] /\
    Seq (fr_tcp ack) = u32 (Seq (tcp L0) + 1) /\
    Ack (fr_tcp ack) = u32 (Seq (tcp cl) + 1) /\
    udp conn = Some u /\ handle conn = Some h /\ rtimer conn = None /\
    packets conn = q' /\
    result (GetMSS (final x, conn)) = Ok m.
Proof.
  intros Hno Hscan HS HA Hm Hs x L0.
  destruct (dial_established_connects buildHTTPRequest cfg u h q e local remote w cl q' m)
    as (w' & c' & Hrun & Hl & HL & Hu & Hh & Hr & Hmss & Hq & Hk); auto.
  { rewrite HS, HA. reflexivity. }
  apply (DialRAW_run buildHTTPRequest) in Hrun.
  pose proof (first_template_plain cfg e local remote w) as Hpl.
  subst x. rewrite Hrun. clear Hrun. fold L0 in Hpl |- *.
  clearbody L0.
  exists c', (frame_of (stamped (dressed call_sendSyn L0))),
    (frame_of (stamped (dressed call_sendAck (shaken cl L0)))).
  cbn [result trace final]. rewrite !fr_tcp_frame_of.
  destruct (shaken_cursors cl L0) as [Hack Hseq].
  split; [reflexivity|]. split; [reflexivity|].
  split; [exact (flags_dressed call_sendSyn L0 Hpl)|].
  split; [destruct L0 as [? ? []]; reflexivity|].
  split; [exact (flags_dressed call_sendAck _ (plain_shaken cl L0 Hpl))|].
  split; [rewrite <- Hseq; destruct (shaken cl L0) as [? ? []]; reflexivity|].
  split; [rewrite <- Hack; destruct (shaken cl L0) as [? ? []]; reflexivity|].
  split; [exact Hu|]. split; [exact Hh|]. split; [exact Hr|]. split; [exact Hq|].
  unfold GetMSS. erewrite bind_quiet by reflexivity. cbn [snd result ret]. rewrite Hmss.
  reflexivity.
Qed.

(** ** RAWListener.ReadFrom: peers it has not seen *)

Lemma plain_reply_template cfg cl w : plain (reply_template cfg cl w).
Proof. repeat split; reflexivity. Qed.

Lemma plain_first_reply cfg cl w : plain (first_reply cfg cl w).
Proof. repeat split; reflexivity. Qed.

Lemma answers_reply_template cfg cl w : answers cl (reply_template cfg cl w).
Proof. repeat split; reflexivity. Qed.

Section ListenerUnknown.
Variable buildHTTPResponse : string -> bytes.

Lemma ReadFrom_body_first_SYN b n0 cl w lst h m :
  mutex lst = false -> handle (RAWConn_ lst) = Some h ->
  conns lst !! key cl = None -> newcons lst !! key cl = None ->
  RST (tcp cl) = false -> FIN (tcp cl) = false ->
  SYN (tcp cl) = true -> ACK (tcp cl) = false -> PSH (tcp cl) = false ->
  getMssFromOptions (Options (tcp cl)) = Ok m ->
  upcoming w = Injected ->
  let x := Listener.ReadFrom_body buildHTTPResponse b n0 cl (w, lst) in
  let L0 := first_reply (r (RAWConn_ lst)) cl w in
  result x = Ok (Continue (len (Payload (tcp cl)), Some (sender cl))) /\
  frames (trace x) = [frame_of (stamped (dressed call_sendSynAck L0))] /\
  lays (fst (final x)) !! brk w = Some (undressed call_sendSynAck L0) /\
  infos (fst (final x)) !! S (brk w) = Some (mkInfo synreceived (brk w) None 0 m) /\
  newcons (snd (final x)) !! key cl = Some (S (brk w)) /\
  conns (snd (final x)) = conns lst.
Proof.
  intros Hm Hh Hc Hn HR HF HS HA HP Hmss Hup x L0. subst x L0.
  unfold Listener.ReadFrom_body, Listener.point_layer. fold (sender cl). fold (key cl).
  lsteps2. rewrite HR, HF. proj. lsteps2. rewrite Hc. lsteps2. rewrite Hn.
  unfold Listener.unknown_segment, Int63, new_layers, Listener.new_info, rand_uint32,
    Listener.point_layer, Listener.mutex_run.
  lsteps2. rewrite HS, HA, HP, HF. proj. lsteps2.
  erewrite bind_quiet by (apply getMss_run; exact Hmss).
  lsteps2.
  unfold upcoming in *. proj. rewrite Hup. cbn [error_of wire_of]. lsteps2.
  unfold ret, first_reply, reply_template. proj.
  split; [reflexivity|]. split; [reflexivity|].
  split; [apply lookup_insert_eq|]. split; [apply lookup_insert_eq|].
  split; [apply lookup_insert_eq | reflexivity].
Qed.

Lemma ReadFrom_body_stray b n0 cl w lst h :
  mutex lst = false -> handle (RAWConn_ lst) = Some h ->
  conns lst !! key cl = None -> newcons lst !! key cl = None ->
  RST (tcp cl) = false -> FIN (tcp cl) = false ->
  SYN (tcp cl) && negb (ACK (tcp cl)) && negb (PSH (tcp cl)) = false ->
  let x := Listener.ReadFrom_body buildHTTPResponse b n0 cl (w, lst) in
  let L0 := reply_template (r (RAWConn_ lst)) cl w in
  result x = Ok (Continue (len (Payload (tcp cl)), Some (sender cl))) /\
  frames (trace x) = frames (wire_of (upcoming w) (stamped (dressed call_sendFin L0))) /\
  infos (fst (final x)) = infos w /\
  newcons (snd (final x)) = newcons lst /\
  conns (snd (final x)) = conns lst.
Proof.
  intros Hm Hh Hc Hn HR HF Hsyn x L0. subst x L0.
  unfold Listener.ReadFrom_body, Listener.point_layer. fold (sender cl). fold (key cl).
  lsteps2. rewrite HR, HF. proj. lsteps2. rewrite Hc. lsteps2. rewrite Hn.
  unfold Listener.unknown_segment, Int63, new_layers, Listener.point_layer.
  lsteps2. rewrite Hsyn. proj. lsteps2.
  unfold ret, reply_template, upcoming. proj.
  split; [reflexivity|]. split; [|repeat split; reflexivity].
  destruct (hd Injected (script w)); reflexivity.
Qed.

End ListenerUnknown.

(** A first SYN of a peer in neither table is answered with one SYN+ACK,
    addressed back to the peer and acknowledging its sequence number plus
    one, from a sequence number drawn at random; the peer gets a record
    in state SYN_RECEIVED in [newcons], holding the MSS of its SYN, and
    [conns] is as before. *)
Theorem first_SYN_is_answered buildHTTPResponse b n0 cl w lst h m :
  mutex lst = false -> handle (RAWConn_ lst) = Some h ->
  conns lst !! key cl = None -> newcons lst !! key cl = None ->
  RST (tcp cl) = false -> FIN (tcp cl) = false ->
  SYN (tcp cl) = true -> ACK (tcp cl) = false -> PSH (tcp cl) = false ->
  getMssFromOptions (Options (tcp cl)) = Ok m ->
  upcoming w = Injected ->
  let x := Listener.ReadFrom_body buildHTTPResponse b n0 cl (w, lst) in
  exists f p info,
    frames (trace x) = [f] /\
    flags_of (fr_tcp f) = [fSYN; fACK] /\
    DstIP (fr_ip4 f) = SrcIP (ip4 cl) /\ DstPort (fr_tcp f) = SrcPort (tcp cl) /\
    SrcIP (fr_ip4 f) = DstIP (ip4 cl) /\ SrcPort (fr_tcp f) = DstPort (tcp cl) /\
    Ack (fr_tcp f) = u32 (Seq (tcp cl) + 1) /\
    Seq (fr_tcp f) = u32 (entropy w (entropy_used w)) /\
    newcons (snd (final x)) !! key cl = Some p /\
    infos (fst (final x)) !! p = Some info /\
    info_state info = synreceived /\ info_mss info = m /\
    conns (snd (final x)) = conns lst.
Proof.
  intros Hm Hh Hc Hn HR HF HS HA HP Hmss Hup x.
  destruct (ReadFrom_body_first_SYN buildHTTPResponse b n0 cl w lst h m
              Hm Hh Hc Hn HR HF HS HA HP Hmss Hup) as (_ & Hfr & _ & Hi & Hnew & Hcon).
  fold x in Hfr, Hi, Hnew, Hcon.
  exists (frame_of (stamped (dressed call_sendSynAck (first_reply (r (RAWConn_ lst)) cl w)))),
    (S (brk w)), (mkInfo synreceived (brk w) None 0 m).
  split; [exact Hfr|]. rewrite fr_tcp_frame_of, fr_ip4_frame_of.
  split; [exact (flags_dressed call_sendSynAck _ (plain_first_reply _ cl w))|].
  repeat split; try assumption.
Qed.

(** A segment of a peer in neither table that is not a SYN (and neither
    RST nor FIN) is answered with a FIN addressed back to the peer, when
    the send goes through; no record is made for the peer and the tables
    are as before, whatever the send does. *)
Theorem stray_segment_gets_FIN buildHTTPResponse b n0 cl w lst h :
  mutex lst = false -> handle (RAWConn_ lst) = Some h ->
  conns lst !! key cl = None -> newcons lst !! key cl = None ->
  RST (tcp cl) = false -> FIN (tcp cl) = false ->
  SYN (tcp cl) && negb (ACK (tcp cl)) && negb (PSH (tcp cl)) = false ->
  let x := Listener.ReadFrom_body buildHTTPResponse b n0 cl (w, lst) in
  result x = Ok (Continue (len (Payload (tcp cl)), Some (sender cl))) /\
  (forall f, In f (frames (trace x)) ->
     flags_of (fr_tcp f) = [fFIN] /\
     DstIP (fr_ip4 f) = SrcIP (ip4 cl) /\ DstPort (fr_tcp f) = SrcPort (tcp cl) /\
     Ack (fr_tcp f) = u32 (Seq (tcp cl) + 1)) /\
  (upcoming w = Injected -> exists f, frames (trace x) = [f]) /\
  infos (fst (final x)) = infos w /\
  newcons (snd (final x)) = newcons lst /\
  conns (snd (final x)) = conns lst.
Proof.
  intros Hm Hh Hc Hn HR HF Hsyn x.
  destruct (ReadFrom_body_stray buildHTTPResponse b n0 cl w lst h Hm Hh Hc Hn HR HF Hsyn)
    as (Hres & Hfr & Hi & Hnew & Hcon).
  fold x in Hres, Hfr, Hi, Hnew, Hcon.
  split; [exact Hres|]. rewrite Hfr, frames_wire_of.
  split; [|split; [|repeat split; assumption]].
  - intros f Hf. destruct (upcoming w); cbn [In] in Hf; try tauto.
    destruct Hf as [<-|[]]. rewrite fr_tcp_frame_of, fr_ip4_frame_of.
    split; [exact (flags_dressed call_sendFin _ (plain_reply_template _ cl w))|].
    repeat split; reflexivity.
  - intros ->. eexists. reflexivity.
Qed.

(** ** RAWListener.ReadFrom: peers it knows *)

(** With [IgnRST] set a captured RST is dropped inside [readLayers]: it
    returns what it returns without that packet on the channel. *)
Lemma scanning_skips_RST c p t q :
  packets c = Captured (Some p) :: q -> pk_tcp p = Some t ->
  RST t = true -> IgnRST (r c) = true ->
  scanning c = scanning (set_packets q c).
Proof.
  intros Hq Ht HR Hign. unfold scanning. cbn [rtimer r packets set_packets].
  rewrite Hq, Hign. cbn [scan]. rewrite Ht, HR. cbn [andb].
  destruct (bool_decide (pk_eth p = None) && negb (pk_loop p)); [reflexivity|].
  destruct (pk_ip4 p); reflexivity.
Qed.

Lemma readLayers_skips_RST w c p t q :
  packets c = Captured (Some p) :: q -> pk_tcp p = Some t ->
  RST t = true -> IgnRST (r c) = true ->
  readLayers (w, c) = readLayers (w, set_packets q c).
Proof.
  intros Hq Ht HR Hign.
  pose proof (scanning_skips_RST c p t q Hq Ht HR Hign) as E.
  unfold scanning in E. unfold readLayers.
  erewrite !bind_quiet by reflexivity. cbn [snd]. rewrite <- E.
  destruct (scan _ _ (packets c)) as [sc q']. cbn [fst snd].
  erewrite ?bind_quiet by reflexivity.
  replace (set_packets q' (set_packets q c)) with (set_packets q' c)
    by (destruct c; reflexivity).
  destruct sc; reflexivity.
Qed.

Section ListenerKnown.
Variable buildHTTPResponse : string -> bytes.

Lemma ReadFrom_body_reset_known b n0 cl w lst p info L h :
  mutex lst = false -> handle (RAWConn_ lst) = Some h ->
  RST (tcp cl) || FIN (tcp cl) = true ->
  newcons lst !! key cl = None -> conns lst !! key cl = Some p ->
  infos w !! p = Some info -> lays w !! info_layer info = Some L ->
  let x := Listener.ReadFrom_body buildHTTPResponse b n0 cl (w, lst) in
  result x = Ok (match error_of (upcoming w) with
                 | Some e => Return (mkRead n0 b (Some (sender cl)) (Some e))
                 | None => Continue (n0, Some (sender cl))
                 end) /\
  frames (trace x) = frames (wire_of (upcoming w) (stamped (dressed call_sendFin L))) /\
  conns (snd (final x)) = delete (key cl) (conns lst) /\
  newcons (snd (final x)) = newcons lst /\
  mutex (snd (final x)) = false /\
  infos (fst (final x)) = infos w /\
  packets (RAWConn_ (snd (final x))) = packets (RAWConn_ lst).
Proof.
  intros Hm Hh Hrf Hn Hc Hi HL x. subst x.
  unfold Listener.ReadFrom_body, Listener.point_layer. fold (sender cl). fold (key cl).
  lsteps2. rewrite Hrf.
  unfold Listener.mutex_run, Listener.closeConnByAddr, Listener.closeConn,
    Listener.point_layer, Listener.on_listener.
  lsteps. rewrite Hn, Hc. lsteps.
  unfold upcoming. proj.
  destruct (hd Injected (script w)); cbn [error_of wire_of]; lsteps; unfold ret; proj;
    repeat split; reflexivity.
Qed.

Lemma ReadFrom_body_reset_new b n0 cl w lst p info L h :
  mutex lst = false -> handle (RAWConn_ lst) = Some h ->
  RST (tcp cl) || FIN (tcp cl) = true ->
  newcons lst !! key cl = Some p ->
  infos w !! p = Some info -> lays w !! info_layer info = Some L ->
  let x := Listener.ReadFrom_body buildHTTPResponse b n0 cl (w, lst) in
  result x = Ok (match error_of (upcoming w) with
                 | Some e => Return (mkRead n0 b (Some (sender cl)) (Some e))
                 | None => Continue (n0, Some (sender cl))
                 end) /\
  frames (trace x) = frames (wire_of (upcoming w) (stamped (dressed call_sendFin L))) /\
  newcons (snd (final x)) = delete (key cl) (newcons lst) /\
  conns (snd (final x)) = conns lst /\
  mutex (snd (final x)) = false /\
  infos (fst (final x)) = infos w.
Proof.
  intros Hm Hh Hrf Hn Hi HL x. subst x.
  unfold Listener.ReadFrom_body, Listener.point_layer. fold (sender cl). fold (key cl).
  lsteps2. rewrite Hrf.
  unfold Listener.mutex_run, Listener.closeConnByAddr, Listener.closeConn,
    Listener.point_layer, Listener.on_listener.
  lsteps. rewrite Hn. lsteps.
  unfold upcoming. proj.
  destruct (hd Injected (script w)); cbn [error_of wire_of]; lsteps; unfold ret; proj;
    repeat split; reflexivity.
Qed.

Lemma ReadFrom_body_reset_unknown b n0 cl w lst :
  mutex lst = false ->
  RST (tcp cl) || FIN (tcp cl) = true ->
  newcons lst !! key cl = None -> conns lst !! key cl = None ->
  Listener.ReadFrom_body buildHTTPResponse b n0 cl (w, lst) =
  mkRun [Acquire table_mutex; Release table_mutex] (w, unpointed lst)
        (Ok (Continue (n0, Some (sender cl)))).
Proof.
  intros Hm Hrf Hn Hc.
  unfold Listener.ReadFrom_body, Listener.point_layer, unpointed.
  fold (sender cl). fold (key cl).
  lsteps2. rewrite Hrf.
  unfold Listener.mutex_run, Listener.closeConnByAddr, Listener.on_listener.
  lsteps. rewrite Hn, Hc. lsteps.
  unfold ret. destruct lst as [[] ? ? ? ? ?]. cbn in *. subst. reflexivity.
Qed.

Lemma ReadFrom_body_bare_ACK b n0 cl w lst p info L :
  mutex lst = false ->
  RST (tcp cl) = false -> FIN (tcp cl) = false ->
  conns lst !! key cl = None -> newcons lst !! key cl = Some p ->
  infos w !! p = Some info -> info_state info = synreceived ->
  lays w !! info_layer info = Some L ->
  ACK (tcp cl) = true -> PSH (tcp cl) = false -> SYN (tcp cl) = false ->
  let x := Listener.ReadFrom_body buildHTTPResponse b n0 cl (w, lst) in
  let nohttp := NoHTTP (r (RAWConn_ lst)) in
  result x = Ok (Continue (len (Payload (tcp cl)), Some (sender cl))) /\
  frames (trace x) = [] /\
  lays (fst (final x)) !! info_layer info
    = Some (on_tcp (fun t => set_Seq (u32 (Seq t + 1)) t) L) /\
  infos (fst (final x)) !! p
    = Some (set_info_state (if nohttp then established else waithttpreq) info) /\
  conns (snd (final x)) = (if nohttp then <[key cl := p]> (conns lst) else conns lst) /\
  newcons (snd (final x)) = (if nohttp then delete (key cl) (newcons lst) else newcons lst) /\
  mutex (snd (final x)) = false.
Proof.
  intros Hm HR HF Hc Hn Hi Hs HL HA HP HS x nohttp. subst x nohttp.
  unfold Listener.ReadFrom_body, Listener.point_layer. fold (sender cl). fold (key cl).
  lsteps2. rewrite HR, HF. proj. lsteps2. rewrite Hc. lsteps2. rewrite Hn.
  unfold Listener.handshake_segment.
  lsteps. rewrite Hs. decide_state. rewrite HA, HP, HF, HS. proj. lsteps.
  destruct (NoHTTP (r (RAWConn_ lst))).
  - unfold Listener.mutex_run, Listener.on_listener. lsteps. unfold ret. proj.
    repeat split; first [reflexivity | assumption | apply lookup_insert_eq].
  - lsteps. unfold ret. proj.
    repeat split; first [reflexivity | assumption | apply lookup_insert_eq].
Qed.

Lemma ReadFrom_body_leaves_decoy b n0 cl w lst p info L :
  mutex lst = false -> conns lst !! key cl = Some p ->
  infos w !! p = Some info -> info_state info = httprepsent ->
  lays w !! info_layer info = Some L ->
  RST (tcp cl) = false -> FIN (tcp cl) = false ->
  (len (Payload (tcp cl)) =? 0) = false ->
  PSH (tcp cl) = true -> ACK (tcp cl) = true ->
  (Seq (tcp cl) =? info_hseqn info) && (len (Payload (tcp cl)) >? 20) = false ->
  Listener.ReadFrom_body buildHTTPResponse b n0 cl (w, lst) =
  mkRun [Acquire table_mutex; Release table_mutex]
        (set_infos (<[p := set_info_state established (set_info_rep None info)]> (infos w))
           (set_lays (<[info_layer info := acked (tcp cl) L]> (lays w)) w),
         unpointed lst)
        (Ok (Return (mkRead (snd (copy b (Payload (tcp cl))))
                            (fst (copy b (Payload (tcp cl))))
                            (Some (sender cl)) None))).
Proof.
  intros Hm Hc Hi Hs HL HR HF Hlen HP HA Hnew.
  unfold Listener.ReadFrom_body, Listener.point_layer, unpointed.
  fold (sender cl). fold (key cl).
  lsteps2. rewrite HR, HF. proj. lsteps2. rewrite Hc, Hlen. proj.
  unfold Listener.established_segment. lsteps.
  assert (Hack : forall A (k : unit -> ListenerM A) s,
    lays (fst s) !! info_layer info = Some L ->
    bind (if Seq (tcp cl) + len (Payload (tcp cl)) >? Ack (tcp L)
          then update (info_layer info)
                 (on_tcp (set_Ack (u32 (Seq (tcp cl) + u32 (len (Payload (tcp cl)))))))
          else ret tt) k s
    = k tt (set_lays (<[info_layer info := acked (tcp cl) L]> (lays (fst s))) (fst s), snd s)).
  { intros A k s HLs. unfold acked, ack_after.
    destruct (Seq (tcp cl) + len (Payload (tcp cl)) >? Ack (tcp L)).
    - erewrite bind_quiet by (apply update_run; exact HLs). reflexivity.
    - erewrite bind_quiet by reflexivity. f_equal.
      replace (on_tcp (set_Ack (Ack (tcp L))) L) with L by (destruct L as [? ? []]; reflexivity).
      rewrite insert_id by exact HLs. destruct s as [[] ?]; reflexivity. }
  rewrite Hack by exact HL. proj.
  rewrite Hs. decide_state. rewrite HP, HA, Hnew. proj. lsteps.
  decide_state. unfold ret. proj. norm. reflexivity.
Qed.

Lemma ReadFrom_body_keepalive b n0 cl w lst p :
  mutex lst = false -> conns lst !! key cl = Some p ->
  RST (tcp cl) = false -> FIN (tcp cl) = false ->
  (len (Payload (tcp cl)) =? 0) = true ->
  Listener.ReadFrom_body buildHTTPResponse b n0 cl (w, lst) =
  mkRun [Acquire table_mutex; Release table_mutex] (w, unpointed lst)
        (Ok (if ACK (tcp cl) && PSH (tcp cl)
             then Return (mkRead (len (Payload (tcp cl))) b (Some (sender cl)) None)
             else Continue (len (Payload (tcp cl)), Some (sender cl)))).
Proof.
  intros Hm Hc HR HF Hlen.
  unfold Listener.ReadFrom_body, Listener.point_layer, unpointed.
  fold (sender cl). fold (key cl).
  lsteps2. rewrite HR, HF. proj. lsteps2. rewrite Hc, Hlen. proj.
  destruct (ACK (tcp cl) && PSH (tcp cl)); reflexivity.
Qed.

End ListenerKnown.

Lemma Listener_ReadFrom_skips_RST buildHTTPResponse fuel b n0 addr0 w lst p t q :
  packets (RAWConn_ lst) = Captured (Some p) :: q -> pk_tcp p = Some t ->
  RST t = true -> IgnRST (r (RAWConn_ lst)) = true ->
  Listener.ReadFrom_loop buildHTTPResponse (S fuel) b n0 addr0 (w, lst) =
  Listener.ReadFrom_loop buildHTTPResponse (S fuel) b n0 addr0
    (w, set_RAWConn (set_packets q (RAWConn_ lst)) lst).
Proof.
  intros Hq Ht HR Hign. cbn [Listener.ReadFrom_loop].
  assert (E : promoted readLayers (w, lst) =
              promoted readLayers (w, set_RAWConn (set_packets q (RAWConn_ lst)) lst)).
  { unfold promoted. cbn [fst snd RAWConn_ set_RAWConn].
    rewrite <- (readLayers_skips_RST w (RAWConn_ lst) p t q Hq Ht HR Hign).
    destruct (readLayers (w, RAWConn_ lst)) as [t1 [w1 c1] r1].
    destruct lst; reflexivity. }
  unfold bind. rewrite E. reflexivity.
Qed.

(** A FIN of a peer, or a RST of a peer that [readLayers] hands over,
    removes the peer's record from the table that holds it ([newcons]
    first, else [conns]) and is answered with a FIN from the peer's
    template, when the send goes through.  A peer that was in [conns]
    can no longer be written to, and its MSS reads 0.  A RST or FIN of a
    peer in neither table changes nothing and is not answered.

    With [IgnRST] set [readLayers] hands no RST over (lines 87-89): a
    read that finds a RST at the head of the channel goes on as it would
    with the RST taken off the channel, so nothing is sent for it and the
    peer's record stays.

    The first part is the whole read that finds the segment at the head
    of what is left to scan; the next three are the loop body on a
    segment handed over, for the three places the peer can be in. *)
Theorem peer_reset_drops_flow buildHTTPResponse :
  (forall b w lst cl q p info L h b',
     scanning (RAWConn_ lst) = (Scanned cl, q) ->
     mutex lst = false -> handle (RAWConn_ lst) = Some h ->
     RST (tcp cl) || FIN (tcp cl) = true ->
     newcons lst !! key cl = None -> conns lst !! key cl = Some p ->
     infos w !! p = Some info -> lays w !! info_layer info = Some L -> plain L ->
     upcoming w = Injected ->
     (IgnRST (r (RAWConn_ lst)) = true -> RST (tcp cl) = false) /\
     exists f s1,
       let x := Listener.ReadFrom buildHTTPResponse b (w, lst) in
       let rest := Listener.ReadFrom_loop buildHTTPResponse
                     (length (packets (RAWConn_ lst))) b 0 (Some (sender cl)) s1 in
       frames (trace x) = f :: frames (trace rest) /\
       flags_of (fr_tcp f) = [fFIN] /\
       final x = final rest /\ result x = result rest /\
       packets (RAWConn_ (snd s1)) = q /\
       conns (snd s1) !! key cl = None /\
       newcons (snd s1) !! key cl = None /\
       result (Listener.WriteTo b' (sender cl) s1)
         = Ok (0, Some (errorString ("cannot write to " +:+ key cl))) /\
       result (Listener.GetMSSByAddr (sender cl) s1) = Ok 0) /\
  (forall b w lst p t q,
     packets (RAWConn_ lst) = Captured (Some p) :: q -> pk_tcp p = Some t ->
     RST t = true -> IgnRST (r (RAWConn_ lst)) = true ->
     Listener.ReadFrom buildHTTPResponse b (w, lst) =
     Listener.ReadFrom_loop buildHTTPResponse (S (S (length q))) b 0 None
       (w, set_RAWConn (set_packets q (RAWConn_ lst)) lst)) /\
  (forall b n0 cl w lst p info L h b',
     mutex lst = false -> handle (RAWConn_ lst) = Some h ->
     RST (tcp cl) || FIN (tcp cl) = true ->
     newcons lst !! key cl = None -> conns lst !! key cl = Some p ->
     infos w !! p = Some info -> lays w !! info_layer info = Some L -> plain L ->
     let x := Listener.ReadFrom_body buildHTTPResponse b n0 cl (w, lst) in
     (forall f, In f (frames (trace x)) -> flags_of (fr_tcp f) = [fFIN]) /\
     (upcoming w = Injected -> exists f, frames (trace x) = [f]) /\
     conns (snd (final x)) !! key cl = None /\
     newcons (snd (final x)) !! key cl = None /\
     result (Listener.WriteTo b' (sender cl) (final x))
       = Ok (0, Some (errorString ("cannot write to " +:+ key cl))) /\
     result (Listener.GetMSSByAddr (sender cl) (final x)) = Ok 0) /\
  (forall b n0 cl w lst p info L h,
     mutex lst = false -> handle (RAWConn_ lst) = Some h ->
     RST (tcp cl) || FIN (tcp cl) = true ->
     newcons lst !! key cl = Some p ->
     infos w !! p = Some info -> lays w !! info_layer info = Some L -> plain L ->
     let x := Listener.ReadFrom_body buildHTTPResponse b n0 cl (w, lst) in
     (forall f, In f (frames (trace x)) -> flags_of (fr_tcp f) = [fFIN]) /\
     (upcoming w = Injected -> exists f, frames (trace x) = [f]) /\
     newcons (snd (final x)) !! key cl = None /\
     conns (snd (final x)) = conns lst) /\
  (forall b n0 cl w lst,
     mutex lst = false ->
     RST (tcp cl) || FIN (tcp cl) = true ->
     newcons lst !! key cl = None -> conns lst !! key cl = None ->
     let x := Listener.ReadFrom_body buildHTTPResponse b n0 cl (w, lst) in
     result x = Ok (Continue (n0, Some (sender cl))) /\
     frames (trace x) = [] /\ final x = (w, unpointed lst)).
Proof.
  assert (Hfin : forall o L, plain L ->
            (forall f, In f (frames (wire_of o (stamped (dressed call_sendFin L)))) ->
                       flags_of (fr_tcp f) = [fFIN]) /\
            (o = Injected ->
             exists f, frames (wire_of o (stamped (dressed call_sendFin L))) = [f])).
  { intros o L Hpl. rewrite frames_wire_of. split.
    - intros f Hf. destruct o; cbn [In] in Hf; try tauto.
      destruct Hf as [<-|[]]. rewrite fr_tcp_frame_of.
      exact (flags_dressed call_sendFin L Hpl).
    - intros ->. eexists. reflexivity. }
  split; [|split; [|split; [|split]]].
  - intros b w lst cl q p info L h b' Hscan Hm Hh Hrf Hn Hc Hi HL Hpl Hup.
    split.
    { unfold scanning in Hscan.
      destruct (scan_scanned _ _ _ _ _ Hscan) as (_ & _ & _ & _ & _ & _ & Hr).
      exact Hr. }
    set (lst1 := set_RAWConn (set_packets q (RAWConn_ lst)) lst).
    assert (Hm1 : mutex lst1 = false) by (destruct lst; exact Hm).
    assert (Hh1 : handle (RAWConn_ lst1) = Some h)
      by (destruct lst as [[] ? ? ? ? ?]; exact Hh).
    assert (Hn1 : newcons lst1 !! key cl = None) by (destruct lst; exact Hn).
    assert (Hc1 : conns lst1 !! key cl = Some p) by (destruct lst; exact Hc).
    assert (Hq1 : packets (RAWConn_ lst1) = q)
      by (destruct lst as [[] ? ? ? ? ?]; reflexivity).
    destruct (ReadFrom_body_reset_known buildHTTPResponse b 0 cl w lst1 p info L h
                Hm1 Hh1 Hrf Hn1 Hc1 Hi HL)
      as (Hres & Hfr & Hcon & Hnew & Hmu & _ & Hpk).
    rewrite Hup in Hres, Hfr. cbn [error_of] in Hres. rewrite frames_wire_of in Hfr.
    destruct (Listener.ReadFrom_body buildHTTPResponse b 0 cl (w, lst1))
      as [t1 s1 r1] eqn:Ebody.
    cbn [trace final result] in Hres, Hfr, Hcon, Hnew, Hmu, Hpk. subst r1.
    exists (frame_of (stamped (dressed call_sendFin L))), s1.
    cbv zeta.
    assert (Hrun : Listener.ReadFrom buildHTTPResponse b (w, lst) =
              match Listener.ReadFrom_loop buildHTTPResponse
                      (length (packets (RAWConn_ lst))) b 0 (Some (sender cl)) s1 with
              | mkRun t2 s2 res => mkRun (t1 ++ t2) s2 res
              end).
    { unfold Listener.ReadFrom. cbn [snd Listener.ReadFrom_loop].
      erewrite bind_quiet
        by (eapply promoted_run; apply readLayers_scanned; exact Hscan).
      cbv beta iota. fold lst1.
      erewrite bind_loud by exact Ebody. reflexivity. }
    rewrite Hrun.
    destruct (Listener.ReadFrom_loop buildHTTPResponse
                (length (packets (RAWConn_ lst))) b 0 (Some (sender cl)) s1)
      as [t2 s2 r2].
    cbn [trace final result]. rewrite frames_app, Hfr.
    split; [reflexivity|]. rewrite fr_tcp_frame_of.
    split; [exact (flags_dressed call_sendFin L Hpl)|].
    split; [reflexivity|]. split; [reflexivity|].
    split; [rewrite Hpk; exact Hq1|].
    assert (Hgone : conns (snd s1) !! key cl = None)
      by (rewrite Hcon; apply lookup_delete_eq).
    split; [exact Hgone|]. split; [rewrite Hnew; exact Hn1|].
    destruct s1 as [w' lst']. cbn [snd] in Hgone, Hmu.
    rewrite (WriteTo_unknown b' (sender cl) w' lst' Hmu Hgone).
    rewrite (GetMSSByAddr_absent (sender cl) w' lst' Hmu Hgone).
    split; reflexivity.
  - intros b w lst p t q Hq Ht HR Hign.
    unfold Listener.ReadFrom. cbn [snd]. rewrite Hq. cbn [length].
    exact (Listener_ReadFrom_skips_RST buildHTTPResponse _ b 0 None w lst p t q
             Hq Ht HR Hign).
  - intros b n0 cl w lst p info L h b' Hm Hh Hrf Hn Hc Hi HL Hpl x.
    destruct (ReadFrom_body_reset_known buildHTTPResponse b n0 cl w lst p info L h
                Hm Hh Hrf Hn Hc Hi HL) as (_ & Hfr & Hcon & Hnew & Hmu & _).
    fold x in Hfr, Hcon, Hnew, Hmu.
    destruct (Hfin (upcoming w) L Hpl) as [Hflag Hone].
    rewrite Hfr. split; [exact Hflag|]. split; [exact Hone|].
    assert (Hgone : conns (snd (final x)) !! key cl = None)
      by (rewrite Hcon; apply lookup_delete_eq).
    split; [exact Hgone|]. split; [rewrite Hnew; exact Hn|].
    destruct (final x) as [w' lst']. cbn [snd] in Hgone, Hmu.
    rewrite (WriteTo_unknown b' (sender cl) w' lst' Hmu Hgone).
    rewrite (GetMSSByAddr_absent (sender cl) w' lst' Hmu Hgone).
    split; reflexivity.
  - intros b n0 cl w lst p info L h Hm Hh Hrf Hn Hi HL Hpl x.
    destruct (ReadFrom_body_reset_new buildHTTPResponse b n0 cl w lst p info L h
                Hm Hh Hrf Hn Hi HL) as (_ & Hfr & Hnew & Hcon & _ & _).
    fold x in Hfr, Hcon, Hnew.
    destruct (Hfin (upcoming w) L Hpl) as [Hflag Hone].
    rewrite Hfr. split; [exact Hflag|]. split; [exact Hone|].
    split; [rewrite Hnew; apply lookup_delete_eq | exact Hcon].
  - intros b n0 cl w lst Hm Hrf Hn Hc x. subst x.
    rewrite (ReadFrom_body_reset_unknown buildHTTPResponse b n0 cl w lst Hm Hrf Hn Hc).
    repeat split; reflexivity.
Qed.

(** The bare ACK that ends the TCP handshake of a peer in state
    SYN_RECEIVED moves the template's sequence number by one and sends
    nothing.  With [NoHTTP] the peer is ESTABLISHED and moves from
    [newcons] to [conns]; otherwise it waits for the HTTP request, still
    in [newcons]. *)
Theorem bare_ACK_completes_handshake buildHTTPResponse b n0 cl w lst p info L :
  mutex lst = false ->
  RST (tcp cl) = false -> FIN (tcp cl) = false ->
  conns lst !! key cl = None -> newcons lst !! key cl = Some p ->
  infos w !! p = Some info -> info_state info = synreceived ->
  lays w !! info_layer info = Some L ->
  ACK (tcp cl) = true -> PSH (tcp cl) = false -> SYN (tcp cl) = false ->
  let x := Listener.ReadFrom_body buildHTTPResponse b n0 cl (w, lst) in
  frames (trace x) = [] /\
  (exists L', lays (fst (final x)) !! info_layer info = Some L' /\
              Seq (tcp L') = u32 (Seq (tcp L) + 1) /\ Ack (tcp L') = Ack (tcp L)) /\
  (NoHTTP (r (RAWConn_ lst)) = true ->
     infos (fst (final x)) !! p = Some (set_info_state established info) /\
     conns (snd (final x)) !! key cl = Some p /\
     newcons (snd (final x)) !! key cl = None) /\
  (NoHTTP (r (RAWConn_ lst)) = false ->
     infos (fst (final x)) !! p = Some (set_info_state waithttpreq info) /\
     conns (snd (final x)) !! key cl = None /\
     newcons (snd (final x)) !! key cl = Some p).
Proof.
  intros Hm HR HF Hc Hn Hi Hs HL HA HP HS x.
  destruct (ReadFrom_body_bare_ACK buildHTTPResponse b n0 cl w lst p info L
              Hm HR HF Hc Hn Hi Hs HL HA HP HS) as (_ & Hfr & Hlay & Hinf & Hcon & Hnew & _).
  fold x in Hfr, Hlay, Hinf, Hcon, Hnew.
  split; [exact Hfr|]. split.
  - eexists. split; [exact Hlay|]. destruct L as [? ? []]. split; reflexivity.
  - split; intros Hno; rewrite Hno in *; cbv iota in *.
    + split; [exact Hinf|]. rewrite Hcon, Hnew.
      split; [apply lookup_insert_eq | apply lookup_delete_eq].
    + split; [exact Hinf|]. rewrite Hcon, Hnew. split; assumption.
Qed.

(** After the decoy response (state HTTP_REP_SENT) the first PSH+ACK
    with data that is not a repeat of the request (another sequence
    number, or at most 20 bytes) makes the flow ESTABLISHED, drops the
    stored response, and is delivered to the caller like any data
    segment; nothing is sent. *)
Theorem first_data_after_decoy buildHTTPResponse b n0 cl w lst p info L :
  mutex lst = false -> conns lst !! key cl = Some p ->
  infos w !! p = Some info -> info_state info = httprepsent ->
  lays w !! info_layer info = Some L ->
  RST (tcp cl) = false -> FIN (tcp cl) = false ->
  0 < len (Payload (tcp cl)) ->
  PSH (tcp cl) = true -> ACK (tcp cl) = true ->
  Seq (tcp cl) <> info_hseqn info \/ len (Payload (tcp cl)) <= 20 ->
  let x := Listener.ReadFrom_body buildHTTPResponse b n0 cl (w, lst) in
  result x = Ok (Return (mkRead (snd (copy b (Payload (tcp cl))))
                                (fst (copy b (Payload (tcp cl))))
                                (Some (sender cl)) None)) /\
  frames (trace x) = [] /\
  (exists info', infos (fst (final x)) !! p = Some info' /\
                 info_state info' = established /\ info_rep info' = None /\
                 info_layer info' = info_layer info /\ info_mss info' = info_mss info) /\
  (exists L', lays (fst (final x)) !! info_layer info = Some L' /\
              Ack (tcp L') = ack_after (Ack (tcp L)) (Seq (tcp cl)) (len (Payload (tcp cl)))).
Proof.
  intros Hm Hc Hi Hs HL HR HF Hlen HP HA Hnew x. subst x.
  rewrite (ReadFrom_body_leaves_decoy buildHTTPResponse b n0 cl w lst p info L
             Hm Hc Hi Hs HL HR HF).
  - cbn [result trace final fst snd infos lays set_infos set_lays].
    split; [reflexivity|]. split; [reflexivity|]. split.
    + eexists. split; [apply lookup_insert_eq|]. repeat split; reflexivity.
    + exists (acked (tcp cl) L). split; [apply lookup_insert_eq | reflexivity].
  - apply Z.eqb_neq. lia.
  - exact HP.
  - exact HA.
  - destruct Hnew as [Hseq|Hshort].
    + apply Z.eqb_neq in Hseq. rewrite Hseq. reflexivity.
    + apply andb_false_iff. right. rewrite Z.gtb_ltb. apply Z.ltb_ge. exact Hshort.
Qed.

(** A segment without payload of a peer in [conns], carrying neither RST
    nor FIN, changes nothing and sends nothing: with PSH and ACK set the
    read returns at once, zero bytes from that peer; otherwise the read
    goes on. *)
Theorem empty_segment_of_known_peer buildHTTPResponse b n0 cl w lst p :
  mutex lst = false -> conns lst !! key cl = Some p ->
  RST (tcp cl) = false -> FIN (tcp cl) = false ->
  Payload (tcp cl) = [] ->
  let x := Listener.ReadFrom_body buildHTTPResponse b n0 cl (w, lst) in
  result x = Ok (if ACK (tcp cl) && PSH (tcp cl)
                 then Return (mkRead 0 b (Some (sender cl)) None)
                 else Continue (0, Some (sender cl))) /\
  frames (trace x) = [] /\
  final x = (w, unpointed lst).
Proof.
  intros Hm Hc HR HF Hp x. subst x.
  rewrite (ReadFrom_body_keepalive buildHTTPResponse b n0 cl w lst p Hm Hc HR HF)
    by (rewrite Hp; reflexivity).
  rewrite Hp. repeat split; reflexivity.
Qed.

(** ** The further properties on the concrete flows *)

Lemma readLayers_hands_over_captured_witness :
  let c := demo_conn_ign [Captured (Some (demo_packet demo_rst));
                          Captured (Some (demo_packet (demo_data 1000 demo_hello)))] in
  let cl := demo_segment (demo_data 1000 demo_hello) in
  result (readLayers (demo_world demo_template [], c)) = Ok (inl cl) /\
  RST (tcp cl) = false /\
  (exists p, In (Captured (Some p)) (packets c) /\
             pk_ip4 p = Some (ip4 cl) /\ pk_tcp p = Some (tcp cl) /\ pk_eth p = eth cl /\
             (pk_eth p = None -> pk_loop p = true)).
Proof.
  cbv zeta.
  pose proof (readLayers_hands_over_captured (demo_world demo_template [])
    (demo_conn_ign [Captured (Some (demo_packet demo_rst));
                    Captured (Some (demo_packet (demo_data 1000 demo_hello)))])
    (demo_segment (demo_data 1000 demo_hello)) eq_refl) as [Hp Hr].
  split; [reflexivity|]. split; [exact (Hr eq_refl) | exact Hp].
Defined.

Lemma readLayers_errors_witness :
  let e := timeoutErr ("read from " +:+ Addr_String demo_remote) in
  result (readLayers (demo_world demo_template [], demo_conn_timed [Tick])) = Ok (inr e) /\
  (e = errorString "read from closed connection" \/
   (rtimer (demo_conn_timed [Tick]) <> None /\
    exists a, e = timeoutErr ("read from " +:+ Addr_String a))).
Proof.
  cbv zeta. split; [reflexivity|].
  exact (readLayers_errors (demo_world demo_template []) (demo_conn_timed [Tick])
           (timeoutErr ("read from " +:+ Addr_String demo_remote)) eq_refl).
Defined.

Lemma ReadFrom_clears_deadline_witness :
  let s := (demo_world demo_template [], demo_conn_timed [Tick]) in
  rtimer (snd s) = Some (mkTimer 500) /\
  rtimer (snd (final (ReadFrom [] s))) = None.
Proof.
  cbv zeta. split; [reflexivity|].
  eapply ReadFrom_clears_deadline. vm_compute. reflexivity.
Defined.

Lemma ReadFrom_times_out_witness :
  ReadFrom [x00]%byte (demo_world demo_template [], demo_conn_timed [Tick; Hangup]) =
  mkRun [] (demo_world demo_template [],
            set_rtimer None (set_packets [Hangup] (demo_conn_timed [Tick; Hangup])))
        (Ok (mkRead 0 [x00]%byte None
               (Some (timeoutErr ("read from " +:+ Addr_String (remote_of demo_template)))))).
Proof.
  exact (ReadFrom_times_out [x00]%byte (demo_world demo_template [])
           (demo_conn_timed [Tick; Hangup]) 0%nat demo_template (mkTimer 500) [Hangup]
           eq_refl eq_refl eq_refl eq_refl).
Defined.

Lemma ReadFrom_answers_synack_witness :
  let w := demo_world demo_template [] in
  let c := demo_conn [Captured (Some (demo_packet demo_synack)); Hangup] 0 in
  let rest := ReadFrom [] (sent 0%nat (undressed call_sendAck demo_template) w,
                           set_packets [Hangup] c) in
  let ack := frame_of (stamped (dressed call_sendAck demo_template)) in
  ReadFrom [] (w, c) = mkRun (Inject ack :: trace rest) (final rest) (result rest) /\
  flags_of (fr_tcp ack) = [fACK] /\
  Seq (fr_tcp ack) = Seq (tcp demo_template) /\ Ack (fr_tcp ack) = Ack (tcp demo_template).
Proof.
  exact (ReadFrom_answers_synack [] (demo_world demo_template [])
           (demo_conn [Captured (Some (demo_packet demo_synack)); Hangup] 0)
           0%nat demo_template (mkHandle false) (demo_packet demo_synack)
           (mkIPv4 (IP demo_remote) (IP demo_local) IPProtocolTCP 4 1 IPv4DontFragment 64 0)
           demo_synack [Hangup]
           eq_refl (or_intror eq_refl) eq_refl eq_refl eq_refl eq_refl eq_refl
           eq_refl eq_refl eq_refl demo_template_plain eq_refl).
Defined.

Lemma helpers_leave_the_template_witness :
  let x := call call_sendSyn (demo_world demo_template [], demo_conn [] 0) in
  (forall f, In f (frames (trace x)) ->
     Options (fr_tcp f) = Options (tcp demo_template) ++ handshake_options /\
     Padding (fr_tcp f) = [x00; x00; x00]%byte /\
     Payload (fr_tcp f) = [] /\
     Seq (fr_tcp f) = Seq (tcp demo_template) /\ Ack (fr_tcp f) = Ack (tcp demo_template)) /\
  (exists L', lays (fst (final x)) !! 0%nat = Some L' /\
     Options (tcp L') = [] /\ Payload (tcp L') = [] /\
     Padding (tcp L') = [x00; x00; x00]%byte /\
     Seq (tcp L') = Seq (tcp demo_template) /\ Ack (tcp L') = Ack (tcp demo_template) /\
     Id (ip4 L') = 8).
Proof.
  destruct (helpers_leave_the_template call_sendSyn (demo_world demo_template [])
              (demo_conn [] 0) 0%nat demo_template (mkHandle false) eq_refl eq_refl eq_refl)
    as (Hf & HL & _).
  split; [exact Hf | exact HL].
Defined.

Lemma failed_send_takes_an_id_witness :
  let e := foreignErr "packet too large" in
  let x := call (call_write demo_hello)
             (demo_world demo_template [SerializeFails e], demo_conn [] 0) in
  result x = Ok (Some e) /\ frames (trace x) = [] /\
  exists L', lays (fst (final x)) !! 0%nat = Some L' /\ Id (ip4 L') = 8.
Proof.
  exact (failed_send_takes_an_id (call_write demo_hello)
           (demo_world demo_template [SerializeFails (foreignErr "packet too large")])
           (demo_conn [] 0) 0%nat demo_template (mkHandle false)
           (foreignErr "packet too large") eq_refl eq_refl eq_refl eq_refl).
Defined.

Lemma demo_nop_unusable : no_usable_mss [demo_nop].
Proof. constructor; [left; discriminate | constructor]. Qed.

Lemma getMss_first_usable_option_witness :
  no_usable_mss [demo_nop] /\
  getMssFromOptions [demo_nop] = Ok 0 /\
  getMssFromOptions ([demo_nop] ++ demo_mss :: handshake_options) = Ok 1460.
Proof.
  destruct (getMss_first_usable_option [demo_nop] demo_mss handshake_options
              demo_nop_unusable eq_refl) as (Hnone & Hfirst & _).
  split; [exact demo_nop_unusable|]. split; [exact Hnone|].
  exact (proj1 (Hfirst x05%byte xb4%byte [] eq_refl)).
Defined.

Lemma handshake_frames_announce_1460_witness :
  let f := frame_of (stamped (dressed call_sendSynAck demo_listen_template)) in
  frames (trace (call call_sendSynAck (demo_world demo_listen_template [], demo_conn [] 0)))
    = [f] /\
  getMssFromOptions (Options (fr_tcp f)) = Ok 1460.
Proof.
  cbv zeta. split; [reflexivity|].
  apply (handshake_frames_announce_1460 call_sendSynAck (demo_world demo_listen_template [])
           (demo_conn [] 0) 0%nat demo_listen_template (mkHandle false)
           (or_intror eq_refl) eq_refl eq_refl eq_refl (List.Forall_nil _)).
  left. reflexivity.
Defined.

Lemma WriteTo_retargets_witness :
  let addr := mkUDPAddr (mkIP 10 0 0 9) 70000 in
  let x := WriteTo demo_hello addr (demo_world demo_template [], demo_conn [] 0) in
  result x = Ok (5, None) /\
  (forall f, In f (frames (trace x)) ->
     DstIP (fr_ip4 f) = mkIP 10 0 0 9 /\ DstPort (fr_tcp f) = 4464 /\
     Payload (fr_tcp f) = demo_hello) /\
  result (RemoteAddr (final x)) = Ok (mkUDPAddr (mkIP 10 0 0 9) 4464).
Proof.
  exact (WriteTo_retargets demo_hello (mkUDPAddr (mkIP 10 0 0 9) 70000)
           (demo_world demo_template []) (demo_conn [] 0) 0%nat demo_template
           (mkHandle false) eq_refl eq_refl eq_refl eq_refl).
Defined.

Lemma demo_two_sends_ok : sends_ok 2 (script demo_fresh_world).
Proof. intros i _. destruct i; reflexivity. Qed.

Lemma DialRAW_connects_witness :
  let q := [Captured (Some (demo_packet demo_synack))] in
  let x := DialRAW demo_buildHTTPRequest demo_raw_plain (demo_setup q) demo_fresh_world in
  let L0 := first_template demo_raw_plain None demo_local demo_remote demo_fresh_world in
  exists conn syn ack,
    result x = Ok (Some conn, None) /\
    trace x = [Inject syn; Inject ack; Go_ackSender] /\
    flags_of (fr_tcp syn) = [fSYN] /\ Seq (fr_tcp syn) = Seq (tcp L0) /\
    flags_of (fr_tcp ack) = [fACK] /\
    Seq (fr_tcp ack) = u32 (Seq (tcp L0) + 1) /\
    Ack (fr_tcp ack) = u32 (Seq (tcp (demo_segment demo_synack)) + 1) /\
    udp conn = Some (mkUDPConn false) /\ handle conn = Some (mkHandle false) /\
    rtimer conn = None /\ packets conn = [] /\
    result (GetMSS (final x, conn)) = Ok 1460.
Proof.
  exact (DialRAW_connects demo_buildHTTPRequest demo_raw_plain
           (mkUDPConn false) (mkHandle false) [Captured (Some (demo_packet demo_synack))]
           None demo_local demo_remote demo_fresh_world (demo_segment demo_synack) [] 1460
           eq_refl eq_refl eq_refl eq_refl eq_refl demo_two_sends_ok).
Defined.

Lemma first_SYN_is_answered_witness :
  let cl := demo_segment demo_syn in
  let x := Listener.ReadFrom_body demo_buildHTTPResponse [] 0 cl
             (demo_fresh_world, demo_listener []) in
  exists f p info,
    frames (trace x) = [f] /\
    flags_of (fr_tcp f) = [fSYN; fACK] /\
    DstIP (fr_ip4 f) = SrcIP (ip4 cl) /\ DstPort (fr_tcp f) = SrcPort (tcp cl) /\
    SrcIP (fr_ip4 f) = DstIP (ip4 cl) /\ SrcPort (fr_tcp f) = DstPort (tcp cl) /\
    Ack (fr_tcp f) = u32 (Seq (tcp cl) + 1) /\
    Seq (fr_tcp f) = u32 (entropy demo_fresh_world (entropy_used demo_fresh_world)) /\
    newcons (snd (final x)) !! key cl = Some p /\
    infos (fst (final x)) !! p = Some info /\
    info_state info = synreceived /\ info_mss info = 1460 /\
    conns (snd (final x)) = conns (demo_listener []).
Proof.
  exact (first_SYN_is_answered demo_buildHTTPResponse [] 0 (demo_segment demo_syn)
           demo_fresh_world (demo_listener []) (mkHandle false) 1460
           eq_refl eq_refl eq_refl eq_refl eq_refl eq_refl eq_refl eq_refl eq_refl
           eq_refl eq_refl).
Defined.

Lemma stray_segment_gets_FIN_witness :
  let cl := demo_segment demo_ack in
  let x := Listener.ReadFrom_body demo_buildHTTPResponse [] 0 cl
             (demo_fresh_world, demo_listener []) in
  result x = Ok (Continue (0, Some (sender cl))) /\
  (exists f, frames (trace x) = [f] /\ flags_of (fr_tcp f) = [fFIN] /\
             DstIP (fr_ip4 f) = SrcIP (ip4 cl) /\ DstPort (fr_tcp f) = SrcPort (tcp cl)) /\
  infos (fst (final x)) = ∅ /\ newcons (snd (final x)) = ∅ /\ conns (snd (final x)) = ∅.
Proof.
  cbv zeta.
  destruct (stray_segment_gets_FIN demo_buildHTTPResponse [] 0 (demo_segment demo_ack)
              demo_fresh_world (demo_listener []) (mkHandle false)
              eq_refl eq_refl eq_refl eq_refl eq_refl eq_refl eq_refl)
    as (Hres & Hall & Hone & Hi & Hn & Hc).
  split; [exact Hres|]. split; [|split; [exact Hi | split; [exact Hn | exact Hc]]].
  destruct (Hone eq_refl) as [f Hf]. exists f. split; [exact Hf|].
  destruct (Hall f) as (H1 & H2 & H3 & _); [rewrite Hf; left; reflexivity|].
  split; [exact H1 | split; [exact H2 | exact H3]].
Defined.

Lemma peer_reset_drops_flow_witness :
  let cl := demo_segment demo_rst in
  let q := [Captured (Some (demo_packet demo_rst))] in
  let s := (demo_listen_world established, demo_listener_known q) in
  let x := Listener.ReadFrom demo_buildHTTPResponse [] s in
  let y := Listener.ReadFrom demo_buildHTTPResponse []
             (demo_listen_world established, demo_listener_ign q) in
  scanning (RAWConn_ (demo_listener_known q)) = (Scanned cl, []) /\
  conns (demo_listener_known q) !! key cl = Some 1%nat /\
  (exists f s1,
     frames (trace x)
       = f :: frames (trace (Listener.ReadFrom_loop demo_buildHTTPResponse 1 [] 0
                               (Some (sender cl)) s1)) /\
     flags_of (fr_tcp f) = [fFIN] /\
     conns (snd s1) !! key cl = None /\
     result (Listener.WriteTo demo_hello (sender cl) s1)
       = Ok (0, Some (errorString ("cannot write to " +:+ key cl))) /\
     result (Listener.GetMSSByAddr (sender cl) s1) = Ok 0) /\
  frames (trace y) = [] /\
  conns (snd (final y)) !! key cl = Some 1%nat.
Proof.
  cbv zeta.
  destruct (proj1 (peer_reset_drops_flow demo_buildHTTPResponse) []
              (demo_listen_world established)
              (demo_listener_known [Captured (Some (demo_packet demo_rst))])
              (demo_segment demo_rst) [] 1%nat (mkInfo established 0%nat None 0 1460)
              demo_listen_template (mkHandle false) demo_hello
              eq_refl eq_refl eq_refl eq_refl eq_refl eq_refl eq_refl eq_refl
              demo_listen_template_plain eq_refl)
    as (_ & f & s1 & Hfr & Hflag & _ & _ & _ & Hgone & _ & Hw & Hmss).
  split; [reflexivity|]. split; [reflexivity|].
  split; [exists f, s1; repeat split; assumption|].
  split; vm_compute; reflexivity.
Defined.

Lemma bare_ACK_completes_handshake_witness :
  let cl := demo_segment demo_ack in
  let info := mkInfo synreceived 0%nat None 0 1460 in
  let x := Listener.ReadFrom_body demo_buildHTTPResponse [] 0 cl
             (demo_listen_world synreceived, demo_listener_new []) in
  frames (trace x) = [] /\
  (exists L', lays (fst (final x)) !! 0%nat = Some L' /\
              Seq (tcp L') = u32 (Seq (tcp demo_listen_template) + 1) /\
              Ack (tcp L') = Ack (tcp demo_listen_template)) /\
  infos (fst (final x)) !! 1%nat = Some (set_info_state waithttpreq info) /\
  conns (snd (final x)) !! key cl = None /\
  newcons (snd (final x)) !! key cl = Some 1%nat.
Proof.
  cbv zeta.
  destruct (bare_ACK_completes_handshake demo_buildHTTPResponse [] 0
              (demo_segment demo_ack) (demo_listen_world synreceived)
              (demo_listener_new []) 1%nat (mkInfo synreceived 0%nat None 0 1460)
              demo_listen_template
              eq_refl eq_refl eq_refl eq_refl eq_refl eq_refl eq_refl eq_refl
              eq_refl eq_refl eq_refl)
    as (Hfr & HL & _ & Hhttp).
  split; [exact Hfr|]. split; [exact HL|]. exact (Hhttp eq_refl).
Defined.

Lemma demo_data_is_new :
  Seq (tcp (demo_segment (demo_data 951 demo_hello)))
    <> info_hseqn (mkInfo httprepsent 0%nat None 0 1460).
Proof. intros H. vm_compute in H. discriminate H. Qed.

Lemma first_data_after_decoy_witness :
  let cl := demo_segment (demo_data 951 demo_hello) in
  let x := Listener.ReadFrom_body demo_buildHTTPResponse [x00; x00; x00; x00; x00]%byte 0 cl
             (demo_listen_world httprepsent, demo_listener_known []) in
  result x = Ok (Return (mkRead 5 demo_hello (Some (sender cl)) None)) /\
  frames (trace x) = [] /\
  (exists info', infos (fst (final x)) !! 1%nat = Some info' /\
                 info_state info' = established /\ info_rep info' = None /\
                 info_layer info' = 0%nat /\ info_mss info' = 1460).
Proof.
  cbv zeta.
  destruct (first_data_after_decoy demo_buildHTTPResponse [x00; x00; x00; x00; x00]%byte 0
              (demo_segment (demo_data 951 demo_hello)) (demo_listen_world httprepsent)
              (demo_listener_known []) 1%nat (mkInfo httprepsent 0%nat None 0 1460)
              demo_listen_template
              eq_refl eq_refl eq_refl eq_refl eq_refl eq_refl eq_refl eq_refl
              eq_refl eq_refl (or_introl demo_data_is_new))
    as (Hres & Hfr & Hinfo & _).
  split; [exact Hres|]. split; [exact Hfr | exact Hinfo].
Defined.

Lemma empty_segment_of_known_peer_witness :
  let cl := demo_segment (demo_data 951 []) in
  let x := Listener.ReadFrom_body demo_buildHTTPResponse [] 7 cl
             (demo_listen_world established, demo_listener_known []) in
  result x = Ok (Return (mkRead 0 [] (Some (sender cl)) None)) /\
  frames (trace x) = [] /\
  final x = (demo_listen_world established, unpointed (demo_listener_known [])).
Proof.
  exact (empty_segment_of_known_peer demo_buildHTTPResponse [] 7
           (demo_segment (demo_data 951 [])) (demo_listen_world established)
           (demo_listener_known []) 1%nat eq_refl eq_refl eq_refl eq_refl eq_refl).
Defined.
